(** * RaftJS device telemetry engine: a shallow embedding and its properties

    The development follows the sources of the repository:
    - [RaftPublish.ts]         frame classification ([inspectPublishFrame]);
    - [RaftDeviceStates.ts]    device keys and display formatting;
    - [RaftDeviceManager.ts]   the binary record parser, the device-type
      cache, device statistics, marker extraction and the write path;
    - [RaftDeviceInfo.ts]      the interfaces of the device-type schema;
    - [RaftCommsStats.js]      the communication statistics;
    - [RaftSysTypeManager.ts]  the registry of system types;
    - [RaftStreamHandler.ts]   the streaming of a buffer ([streamData]);
    - the system type of the dashboard example (class [SystemTypeCog]):
      the routing of published frames ([rxOtherMsgType]).

    Conventions.  A [Uint8Array] is a [list byte].  A JavaScript string
    is the [string] of its code units, which are taken to be below 256.
    JavaScript numbers are modelled by exact numbers: [Z] where the code
    only ever holds integers (positions, lengths, millisecond clocks,
    sample counts) and [Q] where fractions occur (attribute values,
    sample rates); NaN, the infinities and binary rounding are outside
    the model.  A function that may raise returns a [Completion].

    A JavaScript object used as a dictionary is the [gmap] of its own
    properties.  The members every object inherits from
    [Object.prototype] are modelled where a method takes the key from
    its caller or from a message and the sources let any string through:
    the device type of the device-type cache and the keys of the markers
    of a JSON entry ([inherited], [MarkerObject]).  The device keys the
    record loop builds are a number, an underscore and hex digits, and
    are no names of such members; the attribute names of a schema and
    the device keys given to the statistics are taken not to be.

    The fields of the [DeviceManager] object are a record that every
    method takes and returns.  What a method does to the outside (calling
    a registered callback, sending a request, resolving a promise) is
    appended to a trace kept in that record.  [Date.now()] is an argument
    of the method that reads it.  The message handler, the topic lookup,
    the attribute handler and the struct packer, which live outside these
    sources, are parameters. *)

From Stdlib Require Import ZArith QArith Qround Qabs List String Ascii Lia Bool.
From Stdlib Require Import DecimalNat DecimalString DecimalFacts.
From Stdlib Require Import Sorted.
From Stdlib.Strings Require Import Byte.
From stdpp Require Import gmap strings list.
Import ListNotations.

Open Scope Z_scope.

#[local] Set Warnings "-register-all".

(** ** JavaScript primitives used by the sources *)

Module Js.

(** Outcome of an expression that may raise. *)
Inductive Completion (A : Type) : Type :=
| Normal (a : A)
| ThrowRangeError.
Arguments Normal {A} a.
Arguments ThrowRangeError {A}.

Definition cmap {A B} (f : A -> B) (c : Completion A) : Completion B :=
  match c with
  | Normal a => Normal (f a)
  | ThrowRangeError => ThrowRangeError
  end.

Definition byte_to_Z (b : byte) : Z := Z.of_N (Byte.to_N b).

(** [x << n] on 32-bit signed integers. *)
Definition to_int32 (x : Z) : Z :=
  let m := x mod 2 ^ 32 in
  if m <? 2 ^ 31 then m else m - 2 ^ 32.

Definition shl (x n : Z) : Z := to_int32 (Z.shiftl x (n mod 32)).

(** *** Strings *)

Definition startsWith (s p : string) : bool := String.prefix p s.

(** [s.endsWith(p)]: some suffix of [s] is [p]. *)
Fixpoint endsWith (s p : string) : bool :=
  String.eqb s p ||
  match s with
  | EmptyString => false
  | String _ r => endsWith r p
  end.

(** Relative index of [slice]: negative counts from the end. *)
Definition relIndex (len : nat) (i : Z) : nat :=
  if i <? 0 then Z.to_nat (Z.max (Z.of_nat len + i) 0)
  else Nat.min (Z.to_nat i) len.

(** [s.slice(from, to)]; [to = None] is the one-argument form. *)
Definition slice (s : string) (from : Z) (to : option Z) : string :=
  let len := String.length s in
  let a := relIndex len from in
  let b := match to with Some t => relIndex len t | None => len end in
  String.substring a (b - a) s.

(** [s.split(sep)] for a one-character separator. *)
Fixpoint split (sep : ascii) (s : string) : list string :=
  match s with
  | EmptyString => [EmptyString]
  | String c r =>
      if Ascii.eqb c sep then EmptyString :: split sep r
      else match split sep r with
           | h :: t => String c h :: t
           | [] => [String c EmptyString]
           end
  end.

Fixpoint repeatChar (n : nat) (c : ascii) : string :=
  match n with
  | O => EmptyString
  | S k => String c (repeatChar k c)
  end.

(** [s.padStart(target, fill)] with a one-character fill; a NaN target
    ([None]) and a negative one count as 0. *)
Definition padStart (s : string) (target : option Z) (fill : ascii) : string :=
  let t := match target with Some t => Z.to_nat t | None => O end in
  (repeatChar (t - String.length s) fill ++ s)%string.

(** *** Numbers and strings *)

(** White space and line terminators among the code units below 256,
    as [parseInt] skips them. *)
Definition isWhiteSpace (c : ascii) : bool :=
  let n := nat_of_ascii c in
  ((n =? 32) || (n =? 9) || (n =? 10) || (n =? 11) || (n =? 12) || (n =? 13)
   || (n =? 160))%nat.

Fixpoint trimStart (s : string) : string :=
  match s with
  | String c r => if isWhiteSpace c then trimStart r else s
  | EmptyString => EmptyString
  end.

Definition digitValue (c : ascii) : option Z :=
  let n := nat_of_ascii c in
  if ((48 <=? n) && (n <=? 57))%nat then Some (Z.of_nat (n - 48)) else None.

(** The longest run of decimal digits at the head of [s], accumulated
    most significant first; [None] when there is none. *)
Fixpoint parseDigits (s : string) (acc : option Z) : option Z :=
  match s with
  | String c r =>
      match digitValue c with
      | Some d => parseDigits r (Some (10 * default 0 acc + d))
      | None => acc
      end
  | EmptyString => acc
  end.

(** [parseInt(s, 10)]; [None] is NaN. *)
Definition parseInt10 (s : string) : option Z :=
  match trimStart s with
  | String "-" r => Z.opp <$> parseDigits r None
  | String "+" r => parseDigits r None
  | t => parseDigits t None
  end.

Definition digitChar (d : Z) : ascii :=
  if d <? 10 then ascii_of_nat (48 + Z.to_nat d)
  else ascii_of_nat (87 + Z.to_nat d).

Fixpoint digitsAcc (fuel : nat) (radix n : Z) (acc : string) : string :=
  match fuel with
  | O => acc
  | S f =>
      let acc' := String (digitChar (n mod radix)) acc in
      if n / radix =? 0 then acc' else digitsAcc f radix (n / radix) acc'
  end.

(** Digits of a non-negative integer, lowercase, no leading zeros. *)
Definition natDigits (radix n : Z) : string :=
  digitsAcc (S (Z.to_nat (Z.log2 n))) radix n EmptyString.

(** JSON values as [JSON.parse] returns them; an object keeps its entries
    in source order. *)
Inductive JsonValue : Type :=
| JNull
| JBool (b : bool)
| JNumber (q : Q)
| JString (s : string)
| JArray (l : list JsonValue)
| JObject (entries : list (string * JsonValue)).

Fixpoint getProp (entries : list (string * JsonValue)) (k : string) : option JsonValue :=
  match entries with
  | [] => None
  | (k', v) :: r => if String.eqb k' k then Some v else getProp r k
  end.

(** *** Plain objects

    An object created by [{}] has, besides its own properties, the
    members of [Object.prototype], which no code of these sources
    changes.  The operator [in] and a read [obj[key]] see both. *)
Definition objectPrototypeKeys : list string :=
  ["constructor"; "__defineGetter__"; "__defineSetter__"; "hasOwnProperty";
   "__lookupGetter__"; "__lookupSetter__"; "isPrototypeOf";
   "propertyIsEnumerable"; "toString"; "valueOf"; "__proto__";
   "toLocaleString"]%string.

Definition inherited (key : string) : bool :=
  existsb (String.eqb key) objectPrototypeKeys.

(** [key in obj]. *)
Definition hasProperty {V} (obj : gmap string V) (key : string) : bool :=
  match obj !! key with
  | Some _ => true
  | None => inherited key
  end.

(** Sign and digits of an integer in the given radix. *)
Definition intDigits (radix : Z) (n : Z) : string :=
  if n <? 0 then String "-" (natDigits radix (- n)) else natDigits radix n.

(** [Math.floor]. *)
Definition mathFloor (x : Q) : Z := Qfloor x.

Definition pow10 (k : Z) : Z := 10 ^ k.

(** The fixed-point text of [x] with [f] decimals, as [toFixed] builds
    it below 1e21: the integer [n] nearest to [|x| * 10^f] (the larger
    on a tie), its decimal digits padded with zeros to [f + 1] places,
    the point in front of the last [f] of them, and the sign. *)
Definition fixedDigits (x : Q) (f : Z) : string :=
  let neg := negb (Qle_bool 0 x) in
  let ax := Qabs x in
  let n := Qfloor (ax * inject_Z (pow10 f) + (1 # 2)) in
  let m := natDigits 10 n in
  let m' :=
    if f =? 0 then m
    else
      let k := String.length m in
      let fz := Z.to_nat f in
      let padded := (repeatChar (fz + 1 - k) "0" ++ m)%string in
      let kk := String.length padded in
      (String.substring 0 (kk - fz) padded ++ "." ++
       String.substring (kk - fz) fz padded)%string in
  if neg then String "-" m' else m'.

Section Numbers.

(** [Number.prototype.toString()] in radix 10 for a number that is not
    an integer below 1e21: shortest round-trip digits and exponent
    notation, which depend on the binary representation. *)
Variable numberToString : Q -> string.

(** [n.toString(radix)] for an integral number. *)
Definition intToString (radix : Z) (n : Z) : string :=
  if (radix =? 10) && (pow10 21 <=? Z.abs n) then numberToString (inject_Z n)
  else intDigits radix n.

(** [x.toString()]. *)
Definition toString (x : Q) : string :=
  if Qeq_bool x (inject_Z (Qfloor x)) then intToString 10 (Qfloor x)
  else numberToString x.

(** [x.toFixed(digits)]: RangeError outside 0..100 ([None], NaN, counts
    as 0); from 1e21 on the plain [toString]; otherwise the fixed-point
    text [fixedDigits]. *)
Definition toFixed (x : Q) (digits : option Z) : Completion string :=
  let f := default 0 digits in
  if (f <? 0) || (100 <? f) then ThrowRangeError
  else if Qle_bool (inject_Z (pow10 21)) (Qabs x) then Normal (toString x)
  else Normal (fixedDigits x f).

End Numbers.

(** *** Hexadecimal input *)

Definition hexDigitValue (c : ascii) : option Z :=
  let n := nat_of_ascii c in
  if ((48 <=? n) && (n <=? 57))%nat then Some (Z.of_nat (n - 48))
  else if ((97 <=? n) && (n <=? 102))%nat then Some (Z.of_nat (n - 87))
  else if ((65 <=? n) && (n <=? 70))%nat then Some (Z.of_nat (n - 55))
  else None.

(** The longest run of hexadecimal digits at the head of [s]. *)
Fixpoint parseHexDigits (s : string) (acc : option Z) : option Z :=
  match s with
  | String c r =>
      match hexDigitValue c with
      | Some d => parseHexDigits r (Some (16 * default 0 acc + d))
      | None => acc
      end
  | EmptyString => acc
  end.

Definition stripHexPrefix (s : string) : string :=
  match s with
  | String "0" (String "x" r) => r
  | String "0" (String "X" r) => r
  | _ => s
  end.

(** [parseInt(s, 16)]: leading white space, a sign, an optional 0x or
    0X, then the digits; [None] is NaN. *)
Definition parseInt16 (s : string) : option Z :=
  match trimStart s with
  | String "-" r => Z.opp <$> parseHexDigits (stripHexPrefix r) None
  | String "+" r => parseHexDigits (stripHexPrefix r) None
  | t => parseHexDigits (stripHexPrefix t) None
  end.

(** [s.substr(start, length)] for a start inside the string. *)
Definition substr (s : string) (start len : nat) : string :=
  String.substring start len s.

(** The byte a [Uint8Array] holds after a number is stored in it: 0 for
    NaN, the integer modulo 256 otherwise. *)
Definition toUint8 (v : option Z) : byte :=
  default x00 (Byte.of_N (Z.to_N (default 0 v mod 256))).

(** [a.slice(from, to)] on a [Uint8Array]. *)
Definition sliceBytes (a : list byte) (from to : Z) : list byte :=
  let i := relIndex (length a) from in
  let j := relIndex (length a) to in
  take (j - i) (drop i a).

End Js.

(** ** RaftPublish.ts *)

Module RaftPublish.
Import Js.

Inductive FrameType := FrameUnknown | FrameJson | FrameBinary.

(** Modelled from the spec: [RaftPublishFrameMeta] of RaftTypes.ts, which
    is not among the sources; the fields are the ones
    [inspectPublishFrame] writes, an absent field being [None]. *)
Record RaftPublishFrameMeta := mkFrameMeta {
  frameType : FrameType;
  topicIndex : option Q;
  topicName : option string;
  version : option Q;
  jsonString : option string;
  binaryHasEnvelope : option bool;
  binaryPayloadOffset : option nat
}.

Definition RAFT_PUBLISH_PREFIX_LEN : nat := 2.
Definition DEVBIN_MAGIC_MIN : Z := 0xDB.
Definition DEVBIN_MAGIC_MAX : Z := 0xDF.
Definition DEVBIN_VERSION_BASE : Z := 0xDA.

Definition unknownFrame : RaftPublishFrameMeta :=
  mkFrameMeta FrameUnknown None None None None None None.

Section Inspect.

(** [new TextDecoder("utf-8").decode] and [JSON.parse] ([None]: it
    raised).  Reading a property of [null] raises as well; of any other
    value that is not an object it gives [undefined]. *)
Variable utf8Decode : list byte -> string.
Variable jsonParse : string -> option JsonValue.

Definition inspectJson (payload : list byte) (payloadStartPos : nat)
    (topicLookup : option (Q -> option string)) : RaftPublishFrameMeta :=
  let jsonStr := utf8Decode (drop payloadStartPos payload) in
  match jsonParse jsonStr with
  | Some (JObject jsonObj) =>
      let '(tIdx, tName) :=
        match getProp jsonObj "_t" with
        | Some (JNumber n) =>
            (Some n, match topicLookup with Some f => f n | None => None end)
        | Some (JString s) => (None, Some s)
        | _ => (None, None)
        end in
      let ver :=
        match getProp jsonObj "_v" with
        | Some (JNumber v) => Some v
        | _ => None
        end in
      mkFrameMeta FrameJson tIdx tName ver (Some jsonStr) None None
  | Some JNull | None => unknownFrame
  | Some _ =>
      mkFrameMeta FrameJson None None None (Some jsonStr) None None
  end.

Definition inspectPublishFrame (payload : list byte)
    (topicLookup : option (Q -> option string)) : RaftPublishFrameMeta :=
  if (length payload <? RAFT_PUBLISH_PREFIX_LEN)%nat then unknownFrame
  else
    let payloadStartPos := RAFT_PUBLISH_PREFIX_LEN in
    if (length payload <=? payloadStartPos)%nat then unknownFrame
    else
      match payload !! payloadStartPos with
      | None => unknownFrame
      | Some b0 =>
          let firstBinaryByte := byte_to_Z b0 in
          if firstBinaryByte =? 0x7B then
            inspectJson payload payloadStartPos topicLookup
          else if Z.land firstBinaryByte 0xF0 =? 0xD0 then
            if (firstBinaryByte <? DEVBIN_MAGIC_MIN)
               || (DEVBIN_MAGIC_MAX <? firstBinaryByte)
            then mkFrameMeta FrameBinary None None None None (Some true) None
            else
              let tIdx :=
                if (payloadStartPos + 1 <? length payload)%nat
                then byte_to_Z <$> payload !! (payloadStartPos + 1)%nat
                else None in
              let tName :=
                match tIdx, topicLookup with
                | Some i, Some f =>
                    if negb (i =? 0xFF) then f (inject_Z i) else None
                | _, _ => None
                end in
              mkFrameMeta FrameBinary (inject_Z <$> tIdx) tName
                (Some (inject_Z (firstBinaryByte - DEVBIN_VERSION_BASE)))
                None (Some true) (Some (payloadStartPos + 2)%nat)
          else
            mkFrameMeta FrameBinary None None None None (Some false)
              (Some payloadStartPos)
      end.

End Inspect.

End RaftPublish.


(** ** RaftDeviceStates.ts *)

Module RaftDeviceStates.
Import Js.

Record DeviceAttributeState := mkAttrState {
  name : string;
  newAttribute : bool;
  newData : bool;
  numNewValues : Z;
  values : list Q;
  units : string;
  range : list Q;
  format : string;
  visibleSeries : bool;
  visibleForm : bool
}.

Record DeviceTimeline := mkTimeline {
  timestampsUs : list Z;
  lastReportTimestampUs : Z;
  reportTimestampOffsetUs : Z
}.

Record DeviceStats := mkDeviceStats {
  totalSamples : Z;
  windowMs : Z;
  windowSamples : Z;
  sampleRateHz : Q;
  lastSampleTimeMs : option Z;
  lastUpdateTimeMs : option Z
}.

(** [x ? a : b] on a number that may be NaN: NaN and 0 are falsy. *)
Definition truthyNum (x : option Z) : bool :=
  match x with
  | Some z => negb (z =? 0)
  | None => false
  end.

Section Formatting.

Variable numberToString : Q -> string.

(** The branches of [deviceAttrGetLatestFormatted] on a format whose
    leading % has been dropped. *)
Definition formatValue (value : Q) (format : string) : Completion string :=
  if endsWith format "f" then
    let parts := split "." format in
    let decimalPlaces :=
      if (length parts =? 2)%nat
      then parseInt10 (default EmptyString (parts !! 1%nat))
      else Some 0 in
    let fieldWidth := parseInt10 (default EmptyString (parts !! 0%nat)) in
    cmap (fun formattedNumber =>
            if truthyNum fieldWidth
            then padStart formattedNumber fieldWidth " "
            else formattedNumber)
         (toFixed numberToString value decimalPlaces)
  else if endsWith format "x" then
    let totalLength := parseInt10 (slice format 0 (Some (-1))) in
    Normal (padStart (intToString numberToString 16 (mathFloor value))
              totalLength (if startsWith format "0" then "0" else " "))
  else if endsWith format "d" then
    let totalLength := parseInt10 (slice format 0 (Some (-1))) in
    Normal (padStart (intToString numberToString 10 (mathFloor value))
              totalLength (if startsWith format "0" then "0" else " "))
  else if endsWith format "b" then
    Normal (if mathFloor value =? 0 then "no"%string else "yes"%string)
  else Normal (toString numberToString value).

Definition deviceAttrGetLatestFormatted (attrState : DeviceAttributeState)
    : Completion string :=
  let vs := values attrState in
  if (length vs =? 0)%nat then Normal "N/A"%string
  else
    let value := default 0%Q (vs !! (length vs - 1)%nat) in
    if (String.length (format attrState) =? 0)%nat then
      Normal (toString numberToString value)
    else
      formatValue value
        (if startsWith (format attrState) "%"
         then slice (format attrState) 1 None
         else format attrState).

End Formatting.

(** A format string as the specification writes it,
    %[0][width][.precision]conv, and its text; width and precision are
    written in decimal without leading zeros. *)
Record FormatSpec := mkFormat {
  zeroFlag : bool;
  fieldWidth : option nat;
  precision : option nat;
  conversion : ascii
}.

Definition decimal (n : nat) : string := NilEmpty.string_of_uint (Nat.to_uint n).

Definition formatFlags (f : FormatSpec) : string :=
  ((if zeroFlag f then "0" else "")
   ++ match fieldWidth f with Some w => decimal w | None => "" end)%string.

Definition formatPrecision (f : FormatSpec) : string :=
  match precision f with
  | Some p => String "." (decimal p)
  | None => EmptyString
  end.

Definition formatBody (f : FormatSpec) : string :=
  (formatFlags f ++ formatPrecision f ++ String (conversion f) EmptyString)%string.

Definition formatText (f : FormatSpec) : string := String "%" (formatBody f).

(** The width the flags of a format give to [parseInt]: the width when
    there is one, 0 for a lone zero flag, NaN for neither. *)
Definition flagsWidth (f : FormatSpec) : option Z :=
  match fieldWidth f with
  | Some w => Some (Z.of_nat w)
  | None => if zeroFlag f then Some 0 else None
  end.

Fixpoint noDot (s : string) : bool :=
  match s with
  | EmptyString => true
  | String c r => negb (Ascii.eqb c ".") && noDot r
  end.

(** An attribute state with the given value history and format. *)
Definition withHistory (vs : list Q) (fmt : string) (a : DeviceAttributeState)
    : DeviceAttributeState :=
  mkAttrState (name a) (newAttribute a) (newData a) (numNewValues a) vs (units a)
    (range a) fmt (visibleSeries a) (visibleForm a).

(** Canonical hex of a device address: lowercase, no prefix, no leading
    zeros. *)
Definition formatDeviceAddrHex (addr : Z) : string := intDigits 16 addr.

Definition getDeviceKey (busNumberAsString devAddrHexStr : string) : string :=
  (busNumberAsString ++ "_" ++ devAddrHexStr)%string.

Fixpoint indexOfChar (c : ascii) (s : string) : option nat :=
  match s with
  | EmptyString => None
  | String a r => if Ascii.eqb a c then Some O else S <$> indexOfChar c r
  end.

Definition parseDeviceKey (deviceKey : string) : string * string :=
  match indexOfChar "_" deviceKey with
  | None => (deviceKey, EmptyString)
  | Some sep =>
      (String.substring 0 sep deviceKey,
       String.substring (sep + 1) (String.length deviceKey - (sep + 1)) deviceKey)
  end.

End RaftDeviceStates.


(** ** RaftDeviceManager.ts: data *)

Module RaftDeviceManager.
Import Js RaftDeviceStates.

(** Modelled from the spec: [DeviceOnlineState] is imported from
    RaftDeviceStates.ts but the copy among the sources does not declare
    it; the three lifecycle states of the data model. *)
Inductive DeviceOnlineState := Offline | Online | PendingDeletion.

(** The device-type schema: the interfaces [DeviceTypeAttribute],
    [DeviceTypePollRespMetadata], [DeviceTypeAction] and
    [DeviceTypeInfo] of RaftDeviceInfo.ts, which the sources hold at the
    end of examples/dashboard/src/DeviceStatsPanel.tsx.  Only the fields
    the device manager reads are named; the rest of an attribute's
    schema (type code, masks, divisor, ...) is kept as the parsed JSON
    it arrives as and is read by the attribute handler alone.  A schema
    arrives as parsed JSON, so a field the interface requires may still
    be missing: [name] and [w] are optional here as [t], [wz], [sub],
    [mul] and [concat] are in the interface. *)
Record DeviceTypeAttribute := mkTypeAttr {
  attr_n : string;
  attr_schema : list (string * JsonValue)
}.

Record DeviceTypeResp := mkTypeResp {
  resp_b : Z;
  resp_a : list DeviceTypeAttribute
}.

Record DeviceTypeAction := mkAction {
  act_n : string;
  act_t : option string;
  act_w : option string;
  act_wz : option string;
  act_sub : option Q;
  act_mul : option Q;
  act_concat : option bool
}.

Record DeviceTypeInfo := mkTypeInfo {
  dti_name : option string;
  dti_resp : option DeviceTypeResp;
  dti_actions : list DeviceTypeAction
}.

(** A device state as [handleClientMsgBinary] builds it, with the field
    [onlineState]. *)
Record DeviceState := mkDeviceState {
  deviceTypeInfo : option DeviceTypeInfo;
  deviceTimeline : DeviceTimeline;
  deviceAttributes : gmap string DeviceAttributeState;
  deviceIsNew : bool;
  stateChanged : bool;
  onlineState : DeviceOnlineState;
  deviceAddress : string;
  deviceType : string;
  busName : string
}.

(** The object [extractMarkers] builds and a decoded-data event
    carries: its own properties and its prototype, [None] while that is
    [Object.prototype], as for every object created by [{}], and
    otherwise the value ([null], a parsed object or a parsed array) that
    an assignment to [__proto__] has put in its place. *)
Record MarkerObject := mkMarkers {
  markerProps : gmap string JsonValue;
  markerProto : option JsonValue
}.

Record DeviceDecodedData := mkDecoded {
  dd_deviceKey : string;
  dd_busName : string;
  dd_deviceAddress : string;
  dd_deviceType : string;
  dd_attrGroupName : option string;
  dd_attrValues : gmap string (list Q);
  dd_timestampsUs : list Z;
  dd_markers : option MarkerObject;
  dd_fromOfflineBuffer : option bool
}.

(** [DeviceStatsInternal]: the public statistics and the event log of
    the sliding window, oldest first, as (timeMs, samples). *)
Record DeviceStatsInternal := mkStatsInternal {
  stats : DeviceStats;
  windowEvents : list (Z * Z)
}.

(** A pending device-type request: the caller that issued the fetch, the
    state of its promise ([None] while the fetch is in flight, then the
    value it settled with) and the callers queued behind it, in order. *)
Record PendingRequest := mkPending {
  reqOwner : nat;
  reqBus : string;
  reqPromise : option (option DeviceTypeInfo);
  waitingQueue : list nat
}.

(** Reply of the message handler's [sendRICRESTURL]: the result said
    "ok" (with the [devinfo] field, if any), it said something else, or
    the call raised. *)
Inductive RestReply :=
| RestOk (devinfo : option DeviceTypeInfo)
| RestNotOk
| RestThrows.

(** What the manager does to the outside, in order.  Callbacks are
    opaque observers and are named by a number.  [EvExecuteRequest] is
    a call of [executeDeviceTypeInfoRequest], [EvSendREST] a call of the
    message handler's [sendRICRESTURL], [EvResolved c v] the resolution
    with [v] of the promise [getDeviceTypeInfo] returned to caller
    [c], [EvResolvedMember c name] its resolution with the member
    [Object.prototype[name]]. *)
Inductive Event :=
| EvNewDevice (cb : nat) (deviceKey : string) (state : DeviceState)
| EvNewAttribute (cb : nat) (deviceKey : string) (attr : DeviceAttributeState)
| EvNewData (cb : nat) (deviceKey : string) (attr : DeviceAttributeState)
| EvDecodedData (cb : nat) (decoded : DeviceDecodedData)
| EvDeviceRemoved (cb : nat) (deviceKey : string) (state : DeviceState)
| EvExecuteRequest (busName deviceType : string)
| EvSendREST (cmd : string)
| EvResolved (caller : nat) (result : option DeviceTypeInfo)
| EvResolvedMember (caller : nat) (name : string).

Record Settings := mkSettings {
  _maxDatapointsToStore : Z;
  _minTimeBetweenDeviceTypeInfoRetrievalMs : Z;
  _removeDevicesFlag : bool;
  _removeDevicesTimeMs : Z;
  _statsWindowMs : Z
}.

Record Callbacks := mkCallbacks {
  _newDeviceCallbacks : list nat;
  _newDeviceAttributeCallbacks : list nat;
  _newAttributeDataCallbacks : list nat;
  _decodedDataCallbacks : list nat;
  _deviceRemovedCallbacks : list nat
}.

Record TypeCache := mkTypeCache {
  _cachedDeviceTypeRecs : gmap string (option DeviceTypeInfo);
  _cachedDeviceTypePreviousAttemptTimes : gmap string Z;
  _pendingDeviceTypeRequests : gmap string PendingRequest
}.

(** The fields of the [DeviceManager] object, and the trace of its
    effects. *)
Record DeviceManager := mkManager {
  settings : Settings;
  callbacks : Callbacks;
  _devicesState : gmap string DeviceState;
  _deviceLastUpdateTime : gmap string Z;
  _deviceStats : gmap string DeviceStatsInternal;
  typeCache : TypeCache;
  _debugMsgIndex : Z;
  trace : list Event
}.

Definition defaultSettings : Settings := mkSettings 1000 60000 true 60000 5000.

(** The manager as its constructor leaves it. *)
Definition newDeviceManager : DeviceManager :=
  mkManager defaultSettings (mkCallbacks [] [] [] [] []) ∅ ∅ ∅
    (mkTypeCache ∅ ∅ ∅) 0 [].

Definition with_settings (f : Settings -> Settings) (m : DeviceManager) :=
  mkManager (f (settings m)) (callbacks m) (_devicesState m)
    (_deviceLastUpdateTime m) (_deviceStats m) (typeCache m)
    (_debugMsgIndex m) (trace m).

Definition with_callbacks (f : Callbacks -> Callbacks) (m : DeviceManager) :=
  mkManager (settings m) (f (callbacks m)) (_devicesState m)
    (_deviceLastUpdateTime m) (_deviceStats m) (typeCache m)
    (_debugMsgIndex m) (trace m).

Definition with_devicesState
    (f : gmap string DeviceState -> gmap string DeviceState) (m : DeviceManager) :=
  mkManager (settings m) (callbacks m) (f (_devicesState m))
    (_deviceLastUpdateTime m) (_deviceStats m) (typeCache m)
    (_debugMsgIndex m) (trace m).

Definition with_lastUpdate
    (f : gmap string Z -> gmap string Z) (m : DeviceManager) :=
  mkManager (settings m) (callbacks m) (_devicesState m)
    (f (_deviceLastUpdateTime m)) (_deviceStats m) (typeCache m)
    (_debugMsgIndex m) (trace m).

Definition with_deviceStats
    (f : gmap string DeviceStatsInternal -> gmap string DeviceStatsInternal)
    (m : DeviceManager) :=
  mkManager (settings m) (callbacks m) (_devicesState m)
    (_deviceLastUpdateTime m) (f (_deviceStats m)) (typeCache m)
    (_debugMsgIndex m) (trace m).

Definition with_typeCache (f : TypeCache -> TypeCache) (m : DeviceManager) :=
  mkManager (settings m) (callbacks m) (_devicesState m)
    (_deviceLastUpdateTime m) (_deviceStats m) (f (typeCache m))
    (_debugMsgIndex m) (trace m).

Definition with_debugMsgIndex (f : Z -> Z) (m : DeviceManager) :=
  mkManager (settings m) (callbacks m) (_devicesState m)
    (_deviceLastUpdateTime m) (_deviceStats m) (typeCache m)
    (f (_debugMsgIndex m)) (trace m).

(** Events are appended at the end of the trace. *)
Definition emit (evs : list Event) (m : DeviceManager) :=
  mkManager (settings m) (callbacks m) (_devicesState m)
    (_deviceLastUpdateTime m) (_deviceStats m) (typeCache m)
    (_debugMsgIndex m) (trace m ++ evs).

(** *** Settings and callback registration *)

Definition setMaxDataPointsToStore (maxDatapointsToStore : Z) (m : DeviceManager) :=
  with_settings (fun s =>
    mkSettings maxDatapointsToStore (_minTimeBetweenDeviceTypeInfoRetrievalMs s)
      (_removeDevicesFlag s) (_removeDevicesTimeMs s) (_statsWindowMs s)) m.

Definition includes (l : list nat) (cb : nat) : bool := existsb (Nat.eqb cb) l.

Definition addDeviceRemovedCallback (cb : nat) (m : DeviceManager) :=
  if includes (_deviceRemovedCallbacks (callbacks m)) cb then m
  else with_callbacks (fun c =>
    mkCallbacks (_newDeviceCallbacks c) (_newDeviceAttributeCallbacks c)
      (_newAttributeDataCallbacks c) (_decodedDataCallbacks c)
      (_deviceRemovedCallbacks c ++ [cb])) m.

Definition removeDeviceRemovedCallback (cb : nat) (m : DeviceManager) :=
  with_callbacks (fun c =>
    mkCallbacks (_newDeviceCallbacks c) (_newDeviceAttributeCallbacks c)
      (_newAttributeDataCallbacks c) (_decodedDataCallbacks c)
      (List.filter (fun x => negb (Nat.eqb x cb)) (_deviceRemovedCallbacks c))) m.

Definition addDecodedDataCallback (cb : nat) (m : DeviceManager) :=
  if includes (_decodedDataCallbacks (callbacks m)) cb then m
  else with_callbacks (fun c =>
    mkCallbacks (_newDeviceCallbacks c) (_newDeviceAttributeCallbacks c)
      (_newAttributeDataCallbacks c) (_decodedDataCallbacks c ++ [cb])
      (_deviceRemovedCallbacks c)) m.

Definition addNewDeviceCallback (cb : nat) (m : DeviceManager) :=
  if includes (_newDeviceCallbacks (callbacks m)) cb then m
  else with_callbacks (fun c =>
    mkCallbacks (_newDeviceCallbacks c ++ [cb]) (_newDeviceAttributeCallbacks c)
      (_newAttributeDataCallbacks c) (_decodedDataCallbacks c)
      (_deviceRemovedCallbacks c)) m.

Definition removeNewDeviceCallback (cb : nat) (m : DeviceManager) :=
  with_callbacks (fun c =>
    mkCallbacks (List.filter (fun x => negb (Nat.eqb x cb)) (_newDeviceCallbacks c))
      (_newDeviceAttributeCallbacks c) (_newAttributeDataCallbacks c)
      (_decodedDataCallbacks c) (_deviceRemovedCallbacks c)) m.

Definition addNewAttributeCallback (cb : nat) (m : DeviceManager) :=
  if includes (_newDeviceAttributeCallbacks (callbacks m)) cb then m
  else with_callbacks (fun c =>
    mkCallbacks (_newDeviceCallbacks c) (_newDeviceAttributeCallbacks c ++ [cb])
      (_newAttributeDataCallbacks c) (_decodedDataCallbacks c)
      (_deviceRemovedCallbacks c)) m.

Definition removeNewAttributeCallback (cb : nat) (m : DeviceManager) :=
  with_callbacks (fun c =>
    mkCallbacks (_newDeviceCallbacks c)
      (List.filter (fun x => negb (Nat.eqb x cb)) (_newDeviceAttributeCallbacks c))
      (_newAttributeDataCallbacks c) (_decodedDataCallbacks c)
      (_deviceRemovedCallbacks c)) m.

Definition addAttributeDataCallback (cb : nat) (m : DeviceManager) :=
  if includes (_newAttributeDataCallbacks (callbacks m)) cb then m
  else with_callbacks (fun c =>
    mkCallbacks (_newDeviceCallbacks c) (_newDeviceAttributeCallbacks c)
      (_newAttributeDataCallbacks c ++ [cb]) (_decodedDataCallbacks c)
      (_deviceRemovedCallbacks c)) m.

Definition removeAttributeDataCallback (cb : nat) (m : DeviceManager) :=
  with_callbacks (fun c =>
    mkCallbacks (_newDeviceCallbacks c) (_newDeviceAttributeCallbacks c)
      (List.filter (fun x => negb (Nat.eqb x cb)) (_newAttributeDataCallbacks c))
      (_decodedDataCallbacks c) (_deviceRemovedCallbacks c)) m.

Definition removeDecodedDataCallback (cb : nat) (m : DeviceManager) :=
  with_callbacks (fun c =>
    mkCallbacks (_newDeviceCallbacks c) (_newDeviceAttributeCallbacks c)
      (_newAttributeDataCallbacks c)
      (List.filter (fun x => negb (Nat.eqb x cb)) (_decodedDataCallbacks c))
      (_deviceRemovedCallbacks c)) m.

(** *** Device statistics *)

Definition createEmptyStats (m : DeviceManager) : DeviceStatsInternal :=
  mkStatsInternal
    (mkDeviceStats 0 (_statsWindowMs (settings m)) 0 0%Q None None) [].

Definition getOrCreateDeviceStats (deviceKey : string) (m : DeviceManager)
    : DeviceStatsInternal :=
  match _deviceStats m !! deviceKey with
  | Some s => s
  | None => createEmptyStats m
  end.

Definition resetDeviceStats (deviceKey : string) (m : DeviceManager) :=
  with_deviceStats (fun d => <[deviceKey := createEmptyStats m]> d) m.

(** [while (events.length > 0 && events[0].timeMs < windowStartMs)
    events.shift()]. *)
Fixpoint dropExpired (windowStartMs : Z) (events : list (Z * Z)) : list (Z * Z) :=
  match events with
  | (timeMs, samples) :: rest =>
      if timeMs <? windowStartMs then dropExpired windowStartMs rest else events
  | [] => []
  end.

Definition sumSamples (events : list (Z * Z)) : Z :=
  fold_left (fun sum entry => sum + snd entry) events 0.

Definition updateStats (s : DeviceStatsInternal) (newSamples nowMs : Z)
    : DeviceStatsInternal :=
  let st := stats s in
  let counted := 0 <? newSamples in
  let total := if counted then totalSamples st + newSamples else totalSamples st in
  let lastSample := if counted then Some nowMs else lastSampleTimeMs st in
  let pushed :=
    if counted then windowEvents s ++ [(nowMs, newSamples)] else windowEvents s in
  let windowStartMs := nowMs - windowMs st in
  let events := dropExpired windowStartMs pushed in
  let inWindow := sumSamples events in
  let rate :=
    match events with
    | [] => 0%Q
    | (oldestMs, _) :: _ =>
        let actualWindowMs := Z.max 1 (nowMs - oldestMs) in
        (inject_Z (inWindow * 1000) / inject_Z actualWindowMs)%Q
    end in
  mkStatsInternal
    (mkDeviceStats total (windowMs st) inWindow rate lastSample (Some nowMs))
    events.

Definition updateDeviceStats (deviceKey : string) (newSamples nowMs : Z)
    (m : DeviceManager) : DeviceManager :=
  let s := getOrCreateDeviceStats deviceKey m in
  with_deviceStats (fun d => <[deviceKey := updateStats s newSamples nowMs]> d) m.

Definition getDeviceStats (deviceKey : string) (m : DeviceManager)
    : DeviceStats * DeviceManager :=
  let s := getOrCreateDeviceStats deviceKey m in
  (stats s, with_deviceStats (fun d => <[deviceKey := s]> d) m).

(** *** Removing a device *)

Definition set_onlineState (o : DeviceOnlineState) (d : DeviceState) : DeviceState :=
  mkDeviceState (deviceTypeInfo d) (deviceTimeline d) (deviceAttributes d)
    (deviceIsNew d) (stateChanged d) o (deviceAddress d) (deviceType d)
    (busName d).

Definition removeDevice (deviceKey : string) (m : DeviceManager) : DeviceManager :=
  let m1 :=
    match _devicesState m !! deviceKey with
    | Some deviceState =>
        let removed := set_onlineState PendingDeletion deviceState in
        emit (map (fun cb => EvDeviceRemoved cb deviceKey removed)
                (_deviceRemovedCallbacks (callbacks m))) m
    | None => m
    end in
  with_deviceStats (delete deviceKey)
    (with_lastUpdate (delete deviceKey)
       (with_devicesState (delete deviceKey) m1)).


(** *** Device-type cache

    [getDeviceTypeInfo] is an async function.  Its run is cut at its one
    suspension point into the part a call executes at once
    ([getDeviceTypeInfo_call]), the arrival of the reply inside
    [executeDeviceTypeInfoRequest] ([executeDeviceTypeInfoRequest_reply])
    and the continuation after [await requestPromise]
    ([getDeviceTypeInfo_resume]).  Other calls may run between the
    parts.

    The three dictionaries of the cache are plain objects.  The first
    test of [getDeviceTypeInfo], [deviceType in
    this._cachedDeviceTypeRecs], also holds for a name every object
    inherits ("constructor", "toString", ...), and the function then
    returns the inherited member at once.  Behind that test the device
    type is no such name, so that the two tests that follow are tests for
    own properties and the writes create own properties. *)

Definition typeInfoCmd (busName deviceType : string) : string :=
  ("devman/typeinfo?bus=" ++ busName ++ "&type=" ++ deviceType)%string.

(** What a call gives at once: the value it returned, the inherited
    member [Object.prototype[name]] it returned, or its suspension. *)
Inductive CallResult :=
| Returned (v : option DeviceTypeInfo)
| ReturnedMember (name : string)
| Suspended.

Definition set_cached f (tc : TypeCache) : TypeCache :=
  mkTypeCache (f (_cachedDeviceTypeRecs tc))
    (_cachedDeviceTypePreviousAttemptTimes tc) (_pendingDeviceTypeRequests tc).

Definition set_attemptTimes f (tc : TypeCache) : TypeCache :=
  mkTypeCache (_cachedDeviceTypeRecs tc)
    (f (_cachedDeviceTypePreviousAttemptTimes tc)) (_pendingDeviceTypeRequests tc).

Definition set_pending f (tc : TypeCache) : TypeCache :=
  mkTypeCache (_cachedDeviceTypeRecs tc)
    (_cachedDeviceTypePreviousAttemptTimes tc) (f (_pendingDeviceTypeRequests tc)).

Definition rateLimited (nowMs : Z) (deviceType : string) (m : DeviceManager) : bool :=
  match _cachedDeviceTypePreviousAttemptTimes (typeCache m) !! deviceType with
  | Some previous =>
      let timeSinceLastAttempt := nowMs - previous in
      timeSinceLastAttempt <? _minTimeBetweenDeviceTypeInfoRetrievalMs (settings m)
  | None => false
  end.

Section WithEnvironment.

(** [this._systemUtils?.getMsgHandler()], whose [sendRICRESTURL]
    answers a command with a reply, and
    [this._systemUtils?.getPublishTopicName]; [None] when absent. *)
Variable msgHandler : option (string -> RestReply).
Variable getPublishTopicName : option (Z -> option string).

(** [processMsgAttrGroup] of RaftAttributeHandler.ts, which is not
    among the sources: from the message, a position, the timeline, the
    schema, the attributes and the history cap to the new position
    (negative on failure) with the timeline and attributes as it
    leaves them. *)
Variable processMsgAttrGroup :
  list byte -> Z -> DeviceTimeline -> DeviceTypeResp ->
  gmap string DeviceAttributeState -> Z ->
  Z * DeviceTimeline * gmap string DeviceAttributeState.

(** [structPack] of RaftStruct.ts, which is not among the sources. *)
Variable structPack : string -> list Q -> list byte.

Definition getDeviceTypeInfo_call (nowMs : Z) (caller : nat)
    (busName deviceType : string) (m : DeviceManager)
    : CallResult * DeviceManager :=
  if hasProperty (_cachedDeviceTypeRecs (typeCache m)) deviceType then
    match _cachedDeviceTypeRecs (typeCache m) !! deviceType with
    | Some cached => (Returned cached, emit [EvResolved caller cached] m)
    | None =>
        (ReturnedMember deviceType, emit [EvResolvedMember caller deviceType] m)
    end
  else
    match _pendingDeviceTypeRequests (typeCache m) !! deviceType with
    | Some req =>
        let req' := mkPending (reqOwner req) (reqBus req) (reqPromise req)
                      (waitingQueue req ++ [caller]) in
        (Suspended,
         with_typeCache (set_pending (fun p => <[deviceType := req']> p)) m)
    | None =>
        if rateLimited nowMs deviceType m then
          (Returned None, emit [EvResolved caller None] m)
        else
          let m1 := with_typeCache
                      (set_attemptTimes (fun t => <[deviceType := nowMs]> t))
                      (emit [EvExecuteRequest busName deviceType] m) in
          let '(promise, m2) :=
            match msgHandler with
            | Some _ =>
                (None, emit [EvSendREST (typeInfoCmd busName deviceType)] m1)
            | None => (Some None, m1)
            end in
          (Suspended,
           with_typeCache
             (set_pending (fun p =>
                <[deviceType := mkPending caller busName promise []]> p)) m2)
    end.

(** The reply arrives inside the [executeDeviceTypeInfoRequest] of the
    pending request, which was begun behind the first test of
    [getDeviceTypeInfo]. *)
Definition executeDeviceTypeInfoRequest_reply (deviceType : string)
    (reply : RestReply) (m : DeviceManager) : DeviceManager :=
  match _pendingDeviceTypeRequests (typeCache m) !! deviceType with
  | Some req =>
      match reqPromise req with
      | None =>
          let settle r :=
            set_pending (fun p =>
              <[deviceType := mkPending (reqOwner req) (reqBus req) (Some r)
                                (waitingQueue req)]> p) in
          match reply with
          | RestOk devinfo =>
              with_typeCache (fun tc =>
                settle devinfo
                  (set_cached (fun c => <[deviceType := devinfo]> c) tc)) m
          | RestNotOk | RestThrows => with_typeCache (settle None) m
          end
      | Some _ => m
      end
  | None => m
  end.

(** The continuation behind [await requestPromise]: the waiters'
    [resolve] functions are called, the function returns [result] and
    the pending entry is deleted.  The return settles the promise of the
    owner; a waiter's promise is the one an async function gives for a
    promise it returned, which settles some turns of the job queue after
    that promise does, so that the owner is resolved first and the
    waiters follow in queue order. *)
Definition getDeviceTypeInfo_resume (deviceType : string) (m : DeviceManager)
    : DeviceManager :=
  match _pendingDeviceTypeRequests (typeCache m) !! deviceType with
  | Some req =>
      match reqPromise req with
      | Some result =>
          with_typeCache (set_pending (delete deviceType))
            (emit (EvResolved (reqOwner req) result
                   :: map (fun waiter => EvResolved waiter result)
                        (waitingQueue req)) m)
      | None => m
      end
  | None => m
  end.

(** [await this.getDeviceTypeInfo(...)] in the record loop, when
    nothing else runs while the caller is suspended: the reply of the
    message handler arrives and the request is resumed.  The record loop
    asks for [devTypeIdx.toString()], a decimal numeral, which is no
    inherited name; the case [ReturnedMember] is never taken there
    ([getDeviceTypeInfo_call_decimal]). *)
Definition awaitDeviceTypeInfo (nowMs : Z) (caller : nat)
    (busName deviceType : string) (m : DeviceManager)
    : option DeviceTypeInfo * DeviceManager :=
  match getDeviceTypeInfo_call nowMs caller busName deviceType m with
  | (Returned v, m1) => (v, m1)
  | (ReturnedMember _, m1) => (None, m1)
  | (Suspended, m1) =>
      let m2 :=
        match msgHandler, _pendingDeviceTypeRequests (typeCache m1) !! deviceType with
        | Some send, Some req =>
            executeDeviceTypeInfoRequest_reply deviceType
              (send (typeInfoCmd (reqBus req) deviceType)) m1
        | _, _ => m1
        end in
      let result :=
        match _pendingDeviceTypeRequests (typeCache m2) !! deviceType with
        | Some req => default None (reqPromise req)
        | None => None
        end in
      (result, getDeviceTypeInfo_resume deviceType m2)
  end.

(** *** Decoded-data events and markers *)

Definition isTruthy (val : option JsonValue) : bool :=
  match val with
  | Some (JBool true) => true
  | Some (JNumber n) => Qeq_bool n 1
  | Some (JString s) => String.eqb s "1"
  | _ => false
  end.

(** [markers[key] = value].  An assignment creates an own property,
    except when it meets the accessor [__proto__] of [Object.prototype]:
    that is when the key is [__proto__], the object has no own property
    of that name and its prototype chain leads to [Object.prototype]
    past no property of that name.  The accessor replaces the prototype
    by a value that is an object or [null] and ignores any other
    value. *)
Definition reachesProtoAccessor (markers : MarkerObject) : bool :=
  match markerProps markers !! "__proto__"%string, markerProto markers with
  | Some _, _ => false
  | None, None => true
  | None, Some (JObject entries) =>
      match getProp entries "__proto__" with Some _ => false | None => true end
  | None, Some (JArray _) => true
  | None, Some _ => false
  end.

Definition isObjectOrNull (value : JsonValue) : bool :=
  match value with
  | JNull | JObject _ | JArray _ => true
  | _ => false
  end.

Definition setMarker (key : string) (value : JsonValue) (markers : MarkerObject)
    : MarkerObject :=
  if String.eqb key "__proto__" && reachesProtoAccessor markers then
    if isObjectOrNull value then mkMarkers (markerProps markers) (Some value)
    else markers
  else mkMarkers (<[key := value]> (markerProps markers)) (markerProto markers).

(** [markers["_buf"]]: the own property, or else the one found along
    the prototype chain; [Object.prototype] and the prototype of arrays
    have no member of that name. *)
Definition markerBuf (markers : MarkerObject) : option JsonValue :=
  match markerProps markers !! "_buf"%string with
  | Some v => Some v
  | None =>
      match markerProto markers with
      | Some (JObject entries) => getProp entries "_buf"
      | _ => None
      end
  end.

Definition extractMarkers (attrGroups : JsonValue) : MarkerObject :=
  match attrGroups with
  | JObject entries =>
      fold_left
        (fun markers '(key, value) =>
           if startsWith key "_" && negb (String.eqb key "_t")
              && negb (String.eqb key "_o")
           then setMarker key value markers
           else markers)
        entries (mkMarkers ∅ None)
  | _ => mkMarkers ∅ None
  end.

Definition snapshotAttrLengths (deviceAttrs : gmap string DeviceAttributeState)
    (pollRespMetadata : option DeviceTypeResp) : gmap string Z :=
  match pollRespMetadata with
  | None => ∅
  | Some resp =>
      fold_left
        (fun lengths attr =>
           <[attr_n attr :=
               match deviceAttrs !! attr_n attr with
               | Some a => Z.of_nat (length (values a))
               | None => 0
               end]> lengths)
        (resp_a resp) ∅
  end.

Definition emitDecodedData (deviceKey busName devAddr : string)
    (deviceState : DeviceState) (pollRespMetadata : option DeviceTypeResp)
    (attrLengthsBefore : gmap string Z) (timelineLenBefore : Z)
    (attrGroupName : string) (markers : option MarkerObject)
    (m : DeviceManager) : DeviceManager :=
  match pollRespMetadata with
  | None => m
  | Some resp =>
      let '(attrValues, hasValues) :=
        fold_left
          (fun '(attrValues, hasValues) attr =>
             match deviceAttributes deviceState !! attr_n attr with
             | None => (attrValues, hasValues)
             | Some attrState =>
                 let prevLen := default 0 (attrLengthsBefore !! attr_n attr) in
                 if prevLen <? Z.of_nat (length (values attrState)) then
                   let added := drop (Z.to_nat prevLen) (values attrState) in
                   (<[attr_n attr := added]> attrValues,
                    hasValues || (0 <? length added)%nat)
                 else (attrValues, hasValues)
             end)
          (resp_a resp) (∅, false) in
      if negb hasValues then m
      else
        let timestamps :=
          drop (Z.to_nat timelineLenBefore)
            (timestampsUs (deviceTimeline deviceState)) in
        let marked :=
          match markers with
          | Some mk => if (0 <? size (markerProps mk))%nat then Some mk else None
          | None => None
          end in
        let decoded :=
          mkDecoded deviceKey busName devAddr (deviceType deviceState)
            (if (String.length attrGroupName =? 0)%nat then None
             else Some attrGroupName)
            attrValues timestamps marked
            ((fun mk => isTruthy (markerBuf mk)) <$> marked) in
        emit (map (fun cb => EvDecodedData cb decoded)
                (_decodedDataCallbacks (callbacks m))) m
  end.

(** *** handleClientMsgBinary *)

Definition msgTypeLen : Z := 2.
Definition devbinEnvelopeLen : Z := 2.
Definition devbinMagicMin : Z := 0xDB.
Definition devbinMagicMax : Z := 0xDF.
Definition recordLenLen : Z := 2.
Definition busInfoLen : Z := 1.
Definition deviceAddrLen : Z := 4.
Definition devTypeIdxLen : Z := 2.
Definition recordHeaderLen : Z := busInfoLen + deviceAddrLen + devTypeIdxLen.

(** [rxMsg[i]].  Every read below is made under a length check that
    puts [i] inside the array; outside it the value is [undefined],
    here 0. *)
Definition byteAt (rxMsg : list byte) (i : Z) : Z :=
  default 0 (byte_to_Z <$> rxMsg !! Z.to_nat i).

Definition msgLength (rxMsg : list byte) : Z := Z.of_nat (length rxMsg).

(** How the processing of a frame ended: all records consumed, or one
    of the early returns, each a plain [return] after a warning.
    [FrameFuelOut] is not in the source: it says that the loop was given
    too few turns, which never happens ([recordsLoop_fuel]). *)
Inductive FrameOutcome :=
| FrameDone
| FrameBadMagic
| FrameOtherTopic
| FrameShortRecord
| FrameLengthOverrun
| FrameFuelOut.

(** The envelope check: the position of the first record, or the
    early return taken. *)
Definition checkEnvelope (rxMsg : list byte) : FrameOutcome + Z :=
  let msgPos := msgTypeLen in
  if msgTypeLen + devbinEnvelopeLen <=? msgLength rxMsg then
    let envelopeMagicVer := byteAt rxMsg msgTypeLen in
    if Z.land envelopeMagicVer 0xF0 =? 0xD0 then
      if (envelopeMagicVer <? devbinMagicMin) || (devbinMagicMax <? envelopeMagicVer)
      then inl FrameBadMagic
      else
        let topicIndex := byteAt rxMsg (msgTypeLen + 1) in
        let otherTopic :=
          if negb (topicIndex =? 0xFF) then
            match getPublishTopicName with
            | Some lookup =>
                match lookup topicIndex with
                | Some topicName =>
                    negb (String.length topicName =? 0)%nat
                    && negb (String.eqb topicName "devbin")
                | None => false
                end
            | None => false
            end
          else false in
        if otherTopic then inl FrameOtherTopic
        else inr (msgPos + devbinEnvelopeLen)
    else inr msgPos
  else inr msgPos.

Definition set_typeInfo (info : DeviceTypeInfo) (bus addr : string)
    (d : DeviceState) : DeviceState :=
  mkDeviceState (Some info) (deviceTimeline d) (deviceAttributes d)
    (deviceIsNew d) (stateChanged d) (onlineState d) addr
    (default EmptyString (dti_name info)) bus.

Definition newDeviceState (info : DeviceTypeInfo) (bus addr : string) : DeviceState :=
  mkDeviceState (Some info) (mkTimeline [] 0 0) ∅ true false Online addr
    (default EmptyString (dti_name info)) bus.

Definition set_decoded (timeline : DeviceTimeline)
    (attrs : gmap string DeviceAttributeState) (changed : bool)
    (d : DeviceState) : DeviceState :=
  mkDeviceState (deviceTypeInfo d) timeline attrs (deviceIsNew d) changed
    (onlineState d) (deviceAddress d) (deviceType d) (busName d).

(** The loop over the poll data of one record: position, timeline,
    attributes and the state-changed flag as the loop leaves them. *)
Fixpoint pollLoop (fuel : nat) (rxMsg : list byte) (pollDataEnd : Z)
    (resp : DeviceTypeResp) (maxDatapoints : Z) (pollDataPos : Z)
    (timeline : DeviceTimeline) (attrs : gmap string DeviceAttributeState)
    (changed : bool)
    : Z * DeviceTimeline * gmap string DeviceAttributeState * bool :=
  match fuel with
  | O => (pollDataPos, timeline, attrs, changed)
  | S fuel' =>
      if pollDataPos <? pollDataEnd then
        if msgLength rxMsg <=? pollDataPos then
          (pollDataPos, timeline, attrs, changed)
        else
          let '(newMsgBufIdx, timeline', attrs') :=
            processMsgAttrGroup rxMsg pollDataPos timeline resp attrs
              maxDatapoints in
          if newMsgBufIdx <? 0 then (pollDataPos, timeline', attrs', changed)
          else if newMsgBufIdx <=? pollDataPos then
            (pollDataPos, timeline', attrs', changed)
          else
            pollLoop fuel' rxMsg pollDataEnd resp maxDatapoints newMsgBufIdx
              timeline' attrs' true
      else (pollDataPos, timeline, attrs, changed)
  end.

(** The fields of the record at [msgPos]: the length prefix, then the
    status byte, the address and the type index of the header. *)
Definition recordLenAt (rxMsg : list byte) (msgPos : Z) : Z :=
  shl (byteAt rxMsg msgPos) 8 + byteAt rxMsg (msgPos + 1).

Definition recordStatusByte (rxMsg : list byte) (msgPos : Z) : Z :=
  byteAt rxMsg (msgPos + recordLenLen).

Definition recordDevAddr (rxMsg : list byte) (msgPos : Z) : Z :=
  let recordPos := msgPos + recordLenLen + busInfoLen in
  shl (byteAt rxMsg recordPos) 24 + shl (byteAt rxMsg (recordPos + 1)) 16
  + shl (byteAt rxMsg (recordPos + 2)) 8 + byteAt rxMsg (recordPos + 3).

Definition recordDevTypeIdx (rxMsg : list byte) (msgPos : Z) : Z :=
  let recordPos := msgPos + recordLenLen + busInfoLen + deviceAddrLen in
  shl (byteAt rxMsg recordPos) 8 + byteAt rxMsg (recordPos + 1).

Definition recordBusStr (rxMsg : list byte) (msgPos : Z) : string :=
  intDigits 10 (Z.land (recordStatusByte rxMsg msgPos) 0x0f).

Definition recordDeviceKey (rxMsg : list byte) (msgPos : Z) : string :=
  getDeviceKey (recordBusStr rxMsg msgPos)
    (formatDeviceAddrHex (recordDevAddr rxMsg msgPos)).

(** The body of the record loop for the record at [msgPos], whose
    length checks have passed. *)
Definition processRecord (nowMs : Z) (caller : nat) (rxMsg : list byte)
    (msgPos recordLen : Z) (m : DeviceManager) : DeviceManager :=
  let statusByte := recordStatusByte rxMsg msgPos in
  let isOnline := negb (Z.land statusByte 0x80 =? 0) in
  let isPendingDeletion := negb (Z.land statusByte 0x40 =? 0) in
  let devTypeIdx := recordDevTypeIdx rxMsg msgPos in
  let pollDataPos :=
    msgPos + recordLenLen + busInfoLen + deviceAddrLen + devTypeIdxLen in
  let busStr := recordBusStr rxMsg msgPos in
  let devAddrHex := formatDeviceAddrHex (recordDevAddr rxMsg msgPos) in
  let deviceKey := recordDeviceKey rxMsg msgPos in
  let m := with_lastUpdate (fun t => <[deviceKey := nowMs]> t) m in
  if isPendingDeletion then removeDevice deviceKey m
  else
    let needsTypeInfo :=
      match _devicesState m !! deviceKey with
      | None => true
      | Some d => match deviceTypeInfo d with None => true | Some _ => false end
      end in
    let '(available, m) :=
      if needsTypeInfo then
        match awaitDeviceTypeInfo nowMs caller busStr (intDigits 10 devTypeIdx) m with
        | (None, m1) => (false, m1)
        | (Some info, m1) =>
            (true,
             with_devicesState (fun ds =>
               match ds !! deviceKey with
               | Some d => <[deviceKey := set_typeInfo info busStr devAddrHex d]> ds
               | None => <[deviceKey := newDeviceState info busStr devAddrHex]> ds
               end) m1)
        end
      else (true, m) in
    if negb available then m
    else
      match _devicesState m !! deviceKey with
      | None => m
      | Some d =>
          let d := set_onlineState (if isOnline then Online else Offline) d in
          match deviceTypeInfo d with
          | Some {| dti_resp := Some pollRespMetadata |} =>
              let pollDataLen := recordLen - recordHeaderLen in
              let pollDataStartPos := pollDataPos in
              let attrLengthsBefore :=
                snapshotAttrLengths (deviceAttributes d) (Some pollRespMetadata) in
              let timelineLenBefore :=
                Z.of_nat (length (timestampsUs (deviceTimeline d))) in
              let '(_, timeline, attrs, changed) :=
                pollLoop (Z.to_nat pollDataLen) rxMsg
                  (pollDataStartPos + pollDataLen) pollRespMetadata
                  (_maxDatapointsToStore (settings m)) pollDataPos
                  (deviceTimeline d) (deviceAttributes d) (stateChanged d) in
              let d := set_decoded timeline attrs changed d in
              let m := with_devicesState (fun ds => <[deviceKey := d]> ds) m in
              let m := emitDecodedData deviceKey busStr devAddrHex d
                         (Some pollRespMetadata) attrLengthsBefore
                         timelineLenBefore EmptyString None m in
              let newSamples :=
                Z.of_nat (length (timestampsUs (deviceTimeline d)))
                - timelineLenBefore in
              updateDeviceStats deviceKey newSamples nowMs m
          | _ => with_devicesState (fun ds => <[deviceKey := d]> ds) m
          end
      end.

(** [while (msgPos < rxMsg.length)]: the outcome, the position reached
    and the manager.  Each turn moves [msgPos] forward by at least the
    two bytes of the length prefix, so [length rxMsg] turns are
    enough. *)
Fixpoint recordsLoop (fuel : nat) (nowMs : Z) (caller : nat)
    (rxMsg : list byte) (msgPos : Z) (m : DeviceManager)
    : FrameOutcome * Z * DeviceManager :=
  if msgPos <? msgLength rxMsg then
    match fuel with
    | O => (FrameFuelOut, msgPos, m)
    | S fuel' =>
        let remainingLen := msgLength rxMsg - msgPos in
        if remainingLen <? recordLenLen + recordHeaderLen then
          (FrameShortRecord, msgPos, m)
        else
          let recordLen := recordLenAt rxMsg msgPos in
          if remainingLen - recordLenLen <? recordLen then
            (FrameLengthOverrun, msgPos, m)
          else
            recordsLoop fuel' nowMs caller rxMsg
              (msgPos + recordLenLen + recordLen)
              (processRecord nowMs caller rxMsg msgPos recordLen m)
    end
  else (FrameDone, msgPos, m).

(** The manager after the loop body has run on the records [recs],
    given as (position, length), in order. *)
Definition processRecords (nowMs : Z) (caller : nat) (rxMsg : list byte)
    (recs : list (Z * Z)) (m : DeviceManager) : DeviceManager :=
  fold_left
    (fun m' '(msgPos, recordLen) =>
       processRecord nowMs caller rxMsg msgPos recordLen m')
    recs m.

(** The sweep over [_deviceLastUpdateTime] after the records. *)
Definition removeStaleDevices (nowTime : Z) (m : DeviceManager) : DeviceManager :=
  if _removeDevicesFlag (settings m) then
    fold_left
      (fun m' '(deviceKey, lastUpdateTime) =>
         if _removeDevicesTimeMs (settings m) <? nowTime - lastUpdateTime then
           with_deviceStats (delete deviceKey)
             (with_devicesState (delete deviceKey) m')
         else m')
      (map_to_list (_deviceLastUpdateTime m)) m
  else m.

Definition set_attrFlags (isNew hasData : bool) (a : DeviceAttributeState) :=
  mkAttrState (name a) isNew hasData (numNewValues a) (values a) (units a)
    (range a) (format a) (visibleSeries a) (visibleForm a).

Definition attrCallbacks (cbs : Callbacks) (deviceKey : string)
    (a : DeviceAttributeState) : list Event * DeviceAttributeState :=
  let evNew :=
    if newAttribute a
    then map (fun cb => EvNewAttribute cb deviceKey a)
           (_newDeviceAttributeCallbacks cbs)
    else [] in
  let a1 := set_attrFlags false (newData a) a in
  let evData :=
    if newData a1
    then map (fun cb => EvNewData cb deviceKey a1) (_newAttributeDataCallbacks cbs)
    else [] in
  (evNew ++ evData, set_attrFlags false false a1).

Definition deviceCallbacks (cbs : Callbacks) (deviceKey : string)
    (d : DeviceState) : list Event * DeviceState :=
  let evNew :=
    if deviceIsNew d
    then map (fun cb => EvNewDevice cb deviceKey d) (_newDeviceCallbacks cbs)
    else [] in
  let evAttrs :=
    concat (map (fun '(_, a) => fst (attrCallbacks cbs deviceKey a))
              (map_to_list (deviceAttributes d))) in
  (evNew ++ evAttrs,
   mkDeviceState (deviceTypeInfo d) (deviceTimeline d)
     ((fun a => snd (attrCallbacks cbs deviceKey a)) <$> deviceAttributes d)
     false (stateChanged d) (onlineState d) (deviceAddress d) (deviceType d)
     (busName d)).

(** [processStateCallback].  The devices and attributes are visited in
    the order of [map_to_list]; JavaScript visits them in insertion
    order, which the maps do not record. *)
Definition processStateCallback (m : DeviceManager) : DeviceManager :=
  let cbs := callbacks m in
  let evs :=
    concat (map (fun '(k, d) => fst (deviceCallbacks cbs k d))
              (map_to_list (_devicesState m))) in
  emit evs
    (with_devicesState
       (fun ds => map_imap (fun k d => Some (snd (deviceCallbacks cbs k d))) ds) m).

(** [handleClientMsgBinary] for a frame that arrives at [nowMs]: how
    it ended, the position reached in the frame and the manager it
    leaves. *)
Definition handleClientMsgBinary (nowMs : Z) (rxMsg : list byte)
    (m : DeviceManager) : FrameOutcome * Z * DeviceManager :=
  let debugMsgIndex := _debugMsgIndex m in
  let m := with_debugMsgIndex (fun i => i + 1) m in
  match checkEnvelope rxMsg with
  | inl early => (early, msgTypeLen, m)
  | inr msgPos =>
      match recordsLoop (length rxMsg) nowMs (Z.to_nat debugMsgIndex) rxMsg msgPos m with
      | (FrameDone, endPos, m1) =>
          (FrameDone, endPos, processStateCallback (removeStaleDevices nowMs m1))
      | stopped => stopped
      end
  end.

(** *** The write path *)

Definition toHex (data : list byte) : string :=
  fold_right
    (fun b acc =>
       (padStart (intDigits 16 (byte_to_Z b)) (Some 2) "0" ++ acc)%string)
    EmptyString data.

(** [x ? ... : ...] on an optional string: absent and empty are falsy. *)
Definition truthyStr (x : option string) : bool :=
  match x with
  | Some t => negb (String.length t =? 0)%nat
  | None => false
  end.

Definition orEmpty (x : option string) : string := default EmptyString x.

(** The inverse conversion in the words of the specification: subtract
    the declared subtrahend, then multiply by the declared multiplier;
    an undeclared one leaves the value as it is. *)
Definition inverseConversion (action : DeviceTypeAction) (value : Q) : Q :=
  let value :=
    match act_sub action with
    | Some sub => (value - sub)%Q
    | None => value
    end in
  match act_mul action with
  | Some mul => (value * mul)%Q
  | None => value
  end.

(** The bytes [sendAction] writes for [data]. *)
Definition actionWriteBytes (action : DeviceTypeAction) (data : list Q)
    : list byte :=
  match data with
  | [value] =>
      let value :=
        match act_sub action with
        | Some sub => (value - sub)%Q
        | None => value
        end in
      let value :=
        match act_mul action with
        | Some mul => (value * mul)%Q
        | None => value
        end in
      if truthyStr (act_t action)
      then structPack (orEmpty (act_t action)) [value] else []
  | _ =>
      if truthyStr (act_t action)
      then structPack (orEmpty (act_t action)) data else []
  end.

Definition actionCmd (deviceKey : string) (action : DeviceTypeAction)
    (data : list Q) : string :=
  let writeHexStr := toHex (actionWriteBytes action data) in
  let writeHexStr :=
    (orEmpty (act_w action) ++ writeHexStr ++ orEmpty (act_wz action))%string in
  let '(devBus, devAddr) := parseDeviceKey deviceKey in
  ("devman/cmdraw?bus=" ++ devBus ++ "&addr=" ++ devAddr ++ "&hexWr="
   ++ writeHexStr)%string.

Definition sendAction (deviceKey : string) (action : DeviceTypeAction)
    (data : list Q) (m : DeviceManager) : bool * DeviceManager :=
  let cmd := actionCmd deviceKey action data in
  match msgHandler with
  | Some send =>
      let m' := emit [EvSendREST cmd] m in
      match send cmd with
      | RestOk _ => (true, m')
      | RestNotOk | RestThrows => (false, m')
      end
  | None => (false, m)
  end.

(** The [for] loop of the branch without [concat]: [allOk] so far and
    the manager; [sendAction] is not reached once [allOk] is false. *)
Fixpoint sendEach (deviceKey : string) (action : DeviceTypeAction)
    (dataIdx : Z) (data : list (list Q)) (allOk : bool) (m : DeviceManager)
    : bool * DeviceManager :=
  match data with
  | [] => (allOk, m)
  | item :: rest =>
      let dataToWrite := inject_Z dataIdx :: item in
      let '(allOk', m') :=
        if allOk then sendAction deviceKey action dataToWrite m
        else (false, m) in
      sendEach deviceKey action (dataIdx + 1) rest allOk' m'
  end.

Definition sendCompoundAction (deviceKey : string) (action : DeviceTypeAction)
    (data : list (list Q)) (m : DeviceManager) : bool * DeviceManager :=
  if default false (act_concat action) then
    sendAction deviceKey action (concat data) m
  else
    let '(_, m') := sendEach deviceKey action 0 data true m in
    (false, m').

End WithEnvironment.

(** *** hexToBytes

    [new Uint8Array(hex.length / 2)] has the integer part of half the
    length as its length. *)
Definition hexToBytes (hex : string) : list byte :=
  map (fun i => toUint8 (parseInt16 (substr hex (i * 2) 2)))
    (seq 0 (String.length hex / 2)).

(** *** Reading frames and traces *)


(** [RecordsSpan rxMsg p recs q]: from [p] the frame holds the records
    [recs], each with its length prefix and 7-byte header inside the
    frame and its body inside the bytes that remain, and they end at
    [q]. *)
Inductive RecordsSpan (rxMsg : list byte) : Z -> list (Z * Z) -> Z -> Prop :=
| span_here (p : Z) : RecordsSpan rxMsg p [] p
| span_record (p : Z) (recs : list (Z * Z)) (q : Z) :
    p < msgLength rxMsg ->
    recordLenLen + recordHeaderLen <= msgLength rxMsg - p ->
    recordLenAt rxMsg p <= msgLength rxMsg - p - recordLenLen ->
    RecordsSpan rxMsg (p + recordLenLen + recordLenAt rxMsg p) recs q ->
    RecordsSpan rxMsg p ((p, recordLenAt rxMsg p) :: recs) q.

(** The devbin frame of a message: what follows the 2-byte message
    type that the transport layer puts in front. *)
Definition devbinFrame (rxMsg : list byte) : list byte :=
  drop (Z.to_nat msgTypeLen) rxMsg.

(** The bytes a list of records takes: for each its length prefix and
    its body. *)
Definition recordBytes (recs : list (Z * Z)) : Z :=
  fold_right (fun '(_, recordLen) total => recordLenLen + recordLen + total) 0 recs.

(** The premise in the words of the specification, for a valid devbin
    frame: walking the frame from [msgPos] by the length prefixes, every
    record's [recordLen] is at least the 7 bytes of a record header, the
    minimum the format documents, and fits the bytes that remain after
    its 2-byte prefix. *)
Fixpoint everyRecordValid (fuel : nat) (rxMsg : list byte) (msgPos : Z) : bool :=
  if msgPos <? msgLength rxMsg then
    match fuel with
    | O => false
    | S fuel' =>
        (recordHeaderLen <=? recordLenAt rxMsg msgPos)
        && (recordLenAt rxMsg msgPos <=? msgLength rxMsg - msgPos - recordLenLen)
        && everyRecordValid fuel' rxMsg
             (msgPos + recordLenLen + recordLenAt rxMsg msgPos)
    end
  else true.

(** The same walk with the checks the loop makes: at every record start
    the length prefix and the 7-byte header are inside the frame, and
    the [recordLen] fits the bytes after the prefix. *)
Fixpoint everyRecordComplete (fuel : nat) (rxMsg : list byte) (msgPos : Z) : bool :=
  if msgPos <? msgLength rxMsg then
    match fuel with
    | O => false
    | S fuel' =>
        (recordLenLen + recordHeaderLen <=? msgLength rxMsg - msgPos)
        && (recordLenAt rxMsg msgPos <=? msgLength rxMsg - msgPos - recordLenLen)
        && everyRecordComplete fuel' rxMsg
             (msgPos + recordLenLen + recordLenAt rxMsg msgPos)
    end
  else true.

(** The test [extractMarkers] applies to a key. *)
Definition keptAsMarker (key : string) : bool :=
  startsWith key "_" && negb (String.eqb key "_t") && negb (String.eqb key "_o").

(** Device-removed callbacks fired for [cb] in a stretch of trace. *)
Definition removedBy (cb : nat) (e : Event) : bool :=
  match e with
  | EvDeviceRemoved cb' _ _ => Nat.eqb cb' cb
  | _ => false
  end.

Definition removedState (e : Event) : option DeviceOnlineState :=
  match e with
  | EvDeviceRemoved _ _ d => Some (onlineState d)
  | _ => None
  end.

(** The calls of [executeDeviceTypeInfoRequest] in a stretch of trace,
    as (bus name, device type), and the commands sent to the message
    handler. *)
Definition executedOf (e : Event) : option (string * string) :=
  match e with
  | EvExecuteRequest busName deviceType => Some (busName, deviceType)
  | _ => None
  end.

Definition requestsExecuted (evs : list Event) : list (string * string) :=
  omap executedOf evs.

Definition sentOf (e : Event) : option string :=
  match e with
  | EvSendREST cmd => Some cmd
  | _ => None
  end.

Definition requestsSent (evs : list Event) : list string := omap sentOf evs.

(** The decoded-data events of a stretch of trace. *)
Definition decodedOf (e : Event) : option DeviceDecodedData :=
  match e with
  | EvDecodedData _ decoded => Some decoded
  | _ => None
  end.

(** The promises resolved in a stretch of trace, as (caller, value). *)
Definition resolvedOf (e : Event) : option (nat * option DeviceTypeInfo) :=
  match e with
  | EvResolved caller v => Some (caller, v)
  | _ => None
  end.

Definition resolutions (evs : list Event) : list (nat * option DeviceTypeInfo) :=
  omap resolvedOf evs.

(** The promises resolved with an inherited member, as (caller, name). *)
Definition memberOf (e : Event) : option (nat * string) :=
  match e with
  | EvResolvedMember caller name => Some (caller, name)
  | _ => None
  end.

Definition memberResolutions (evs : list Event) : list (nat * string) :=
  omap memberOf evs.

(** *** Schedules of concurrent [getDeviceTypeInfo] calls *)

(** A call is (time, caller, bus name).  [callAll] lets the calls run,
    in order, each up to its return or its suspension. *)
Definition callAll (msgHandler : option (string -> RestReply)) (deviceType : string)
    (calls : list (Z * nat * string)) (m : DeviceManager) : DeviceManager :=
  fold_left
    (fun m' '(nowMs, caller, busName) =>
       snd (getDeviceTypeInfo_call msgHandler nowMs caller busName deviceType m'))
    calls m.

Definition callers (calls : list (Z * nat * string)) : list nat :=
  map (fun '(_, caller, _) => caller) calls.

(** One flight: a first call, the calls [during] the fetch, the reply,
    the calls [after] the reply and before the first caller is resumed,
    and the resumption. *)
Definition singleFlight (msgHandler : option (string -> RestReply))
    (deviceType : string) (first : Z * nat * string)
    (during : list (Z * nat * string)) (reply : RestReply)
    (after : list (Z * nat * string)) (m : DeviceManager) : DeviceManager :=
  getDeviceTypeInfo_resume deviceType
    (callAll msgHandler deviceType after
       (executeDeviceTypeInfoRequest_reply deviceType reply
          (callAll msgHandler deviceType (first :: during) m))).

(** The value the request settles with: the [devinfo] of an "ok" reply,
    [undefined] otherwise and when there is no message handler. *)
Definition settledWith (msgHandler : option (string -> RestReply))
    (reply : RestReply) : option DeviceTypeInfo :=
  match msgHandler, reply with
  | Some _, RestOk devinfo => devinfo
  | _, _ => None
  end.

(** ** Vocabulary of the further properties *)

(** *** Registrations and the callbacks events call *)

Inductive CallbackKind :=
| NewDevice | NewAttribute | AttributeData | DecodedData | DeviceRemoved.

Definition kind_eqb (a b : CallbackKind) : bool :=
  match a, b with
  | NewDevice, NewDevice | NewAttribute, NewAttribute
  | AttributeData, AttributeData | DecodedData, DecodedData
  | DeviceRemoved, DeviceRemoved => true
  | _, _ => false
  end.

Definition callbackList (kind : CallbackKind) (cbs : Callbacks) : list nat :=
  match kind with
  | NewDevice => _newDeviceCallbacks cbs
  | NewAttribute => _newDeviceAttributeCallbacks cbs
  | AttributeData => _newAttributeDataCallbacks cbs
  | DecodedData => _decodedDataCallbacks cbs
  | DeviceRemoved => _deviceRemovedCallbacks cbs
  end.

(** A call of one of the ten registration methods. *)
Inductive Registration :=
| Add (kind : CallbackKind) (cb : nat)
| Remove (kind : CallbackKind) (cb : nat).

Definition register (r : Registration) (m : DeviceManager) : DeviceManager :=
  match r with
  | Add NewDevice cb => addNewDeviceCallback cb m
  | Add NewAttribute cb => addNewAttributeCallback cb m
  | Add AttributeData cb => addAttributeDataCallback cb m
  | Add DecodedData cb => addDecodedDataCallback cb m
  | Add DeviceRemoved cb => addDeviceRemovedCallback cb m
  | Remove NewDevice cb => removeNewDeviceCallback cb m
  | Remove NewAttribute cb => removeNewAttributeCallback cb m
  | Remove AttributeData cb => removeAttributeDataCallback cb m
  | Remove DecodedData cb => removeDecodedDataCallback cb m
  | Remove DeviceRemoved cb => removeDeviceRemovedCallback cb m
  end.

Definition registerAll (rs : list Registration) (m : DeviceManager) : DeviceManager :=
  fold_left (fun m' r => register r m') rs m.

(** Whether the last registration in [rs] that names this kind and this
    callback is an [Add]; [init] when there is none. *)
Definition lastIsAdd (kind : CallbackKind) (cb : nat) (rs : list Registration)
    (init : bool) : bool :=
  fold_left
    (fun b r =>
       match r with
       | Add k c => if kind_eqb k kind && Nat.eqb c cb then true else b
       | Remove k c => if kind_eqb k kind && Nat.eqb c cb then false else b
       end)
    rs init.

(** The callback an event calls, with its kind; requests and
    resolutions call none. *)
Definition calledBy (e : Event) : option (CallbackKind * nat) :=
  match e with
  | EvNewDevice cb _ _ => Some (NewDevice, cb)
  | EvNewAttribute cb _ _ => Some (NewAttribute, cb)
  | EvNewData cb _ _ => Some (AttributeData, cb)
  | EvDecodedData cb _ => Some (DecodedData, cb)
  | EvDeviceRemoved cb _ _ => Some (DeviceRemoved, cb)
  | EvExecuteRequest _ _ | EvSendREST _ | EvResolved _ _
  | EvResolvedMember _ _ => None
  end.

Definition registered (cbs : Callbacks) (e : Event) : bool :=
  match calledBy e with
  | Some (kind, cb) => includes (callbackList kind cbs) cb
  | None => true
  end.

(** [includes] then [push], and [filter], on a list of callbacks. *)
Definition addL (l : list nat) (cb : nat) : list nat :=
  if includes l cb then l else l ++ [cb].

Definition removeL (l : list nat) (cb : nat) : list nat :=
  List.filter (fun x => negb (Nat.eqb x cb)) l.

(** [Keeps m m']: from [m] to [m'] the settings, the registered
    callbacks and the message counter stay as they are, and the trace
    grows by events that call registered callbacks only. *)
Definition Keeps (m m' : DeviceManager) : Prop :=
  settings m' = settings m /\
  callbacks m' = callbacks m /\
  _debugMsgIndex m' = _debugMsgIndex m /\
  exists new, trace m' = trace m ++ new /\ forallb (registered (callbacks m)) new = true.

(** *** The sweep for devices that are not updated *)

(** Whether the sweep at [nowTime] finds the device's last update older
    than the limit. *)
Definition isStale (nowTime : Z) (m : DeviceManager) (deviceKey : string) : bool :=
  match _deviceLastUpdateTime m !! deviceKey with
  | Some lastUpdateTime => _removeDevicesTimeMs (settings m) <? nowTime - lastUpdateTime
  | None => false
  end.

(** *** What a decoded-data event reports *)



(** *** Runs of statistics updates *)

(** A run of [updateDeviceStats] for one device; an update is
    (newSamples, nowMs). *)
Definition updateAll (deviceKey : string) (updates : list (Z * Z)) (m : DeviceManager)
    : DeviceManager :=
  fold_left
    (fun m' '(newSamples, nowMs) => updateDeviceStats deviceKey newSamples nowMs m')
    updates m.

(** The samples of the updates that brought any, from time [sinceMs] on. *)
Definition samplesSince (sinceMs : Z) (updates : list (Z * Z)) : Z :=
  fold_right
    (fun '(newSamples, nowMs) sum =>
       if (0 <? newSamples) && (sinceMs <=? nowMs) then newSamples + sum else sum)
    0 updates.

(** The samples of all the updates that brought any. *)
Definition samplesOf (updates : list (Z * Z)) : Z :=
  fold_right
    (fun '(newSamples, nowMs) sum => if 0 <? newSamples then newSamples + sum else sum)
    0 updates.

(** The log entries a run of updates writes: one per update that brought
    samples, as (time, samples). *)
Fixpoint logged (updates : list (Z * Z)) : list (Z * Z) :=
  match updates with
  | [] => []
  | (newSamples, nowMs) :: rest =>
      if 0 <? newSamples then (nowMs, newSamples) :: logged rest else logged rest
  end.

(** The statistics of a device after a run of updates from a state
    [s0]. *)
Definition runStats (s0 : DeviceStatsInternal) (updates : list (Z * Z))
    : DeviceStatsInternal :=
  fold_left (fun s '(newSamples, nowMs) => updateStats s newSamples nowMs) updates s0.

(** *** The commands of a compound action *)

(** The command of each turn of the loop of [sendCompoundAction], from
    index [dataIdx] on. *)
Fixpoint compoundCmds (structPack : string -> list Q -> list byte)
    (deviceKey : string) (action : DeviceTypeAction) (dataIdx : Z)
    (data : list (list Q)) : list string :=
  match data with
  | [] => []
  | item :: rest =>
      actionCmd structPack deviceKey action (inject_Z dataIdx :: item)
      :: compoundCmds structPack deviceKey action (dataIdx + 1) rest
  end.

(** The commands up to and including the first that is not answered
    "ok". *)
Fixpoint untilFailure (send : string -> RestReply) (cmds : list string) : list string :=
  match cmds with
  | [] => []
  | cmd :: rest =>
      cmd :: match send cmd with
             | RestOk _ => untilFailure send rest
             | RestNotOk | RestThrows => []
             end
  end.

(** *** What a record leaves alone *)

(** [Elsewhere key m m']: from [m] to [m'] no device other than [key]
    has changed in the state store, in the statistics or in the
    last-update times. *)
Definition Elsewhere (key : string) (m m' : DeviceManager) : Prop :=
  forall other, other <> key ->
    _devicesState m' !! other = _devicesState m !! other /\
    _deviceStats m' !! other = _deviceStats m !! other /\
    _deviceLastUpdateTime m' !! other = _deviceLastUpdateTime m !! other.

End RaftDeviceManager.


(** ** The bounded history of RaftAttributeHandler.ts *)

Module RaftAttributeHandler.










End RaftAttributeHandler.

(** ** RaftCommsStats.js *)

Module RaftCommsStats.

(** The fields of a [RaftCommsStats] object.  Counts, byte totals and
    clock readings are integers; the two rates are fractions. *)
Record RaftCommsStats := mkCommsStats {
  _msgRxCount : Z;
  _msgRxCountInWindow : Z;
  _msgRxLastCalcMs : Z;
  _msgRxRate : Q;
  _msgTooShort : Z;
  _msgTxCount : Z;
  _msgTxCountInWindow : Z;
  _msgTxLastCalcMs : Z;
  _msgTxRate : Q;
  _msgNumCollisions : Z;
  _msgNumUnmatched : Z;
  _msgRoundtripWorstMs : Z;
  _msgRoundtripBestMs : Z;
  _msgRoundtripLastMs : Z;
  _msgTimeout : Z;
  _msgRetry : Z;
  _msgNoConnection : Z;
  _streamBytes : Z;
  _fileBytes : Z
}.

(** The object as its constructor leaves it. *)
Definition newCommsStats : RaftCommsStats :=
  mkCommsStats 0 0 0 0 0 0 0 0 0 0 0 0 0 0 0 0 0 0 0.

(** [clear()] reads the clock twice, for the receive and for the
    transmit side. *)
Definition clear (nowRxMs nowTxMs : Z) (s : RaftCommsStats) : RaftCommsStats :=
  mkCommsStats 0 0 nowRxMs 0 0 0 0 nowTxMs 0 0 0 0 0 0 0 0 0 0 0.

Definition set_rx (count inWindow lastCalcMs : Z) (rate : Q) (s : RaftCommsStats) :=
  mkCommsStats count inWindow lastCalcMs rate (_msgTooShort s)
    (_msgTxCount s) (_msgTxCountInWindow s) (_msgTxLastCalcMs s) (_msgTxRate s)
    (_msgNumCollisions s) (_msgNumUnmatched s) (_msgRoundtripWorstMs s)
    (_msgRoundtripBestMs s) (_msgRoundtripLastMs s) (_msgTimeout s) (_msgRetry s)
    (_msgNoConnection s) (_streamBytes s) (_fileBytes s).

Definition set_tx (count inWindow lastCalcMs : Z) (rate : Q) (s : RaftCommsStats) :=
  mkCommsStats (_msgRxCount s) (_msgRxCountInWindow s) (_msgRxLastCalcMs s)
    (_msgRxRate s) (_msgTooShort s) count inWindow lastCalcMs rate
    (_msgNumCollisions s) (_msgNumUnmatched s) (_msgRoundtripWorstMs s)
    (_msgRoundtripBestMs s) (_msgRoundtripLastMs s) (_msgTimeout s) (_msgRetry s)
    (_msgNoConnection s) (_streamBytes s) (_fileBytes s).

Definition set_roundtrip (worst best last : Z) (s : RaftCommsStats) :=
  mkCommsStats (_msgRxCount s) (_msgRxCountInWindow s) (_msgRxLastCalcMs s)
    (_msgRxRate s) (_msgTooShort s) (_msgTxCount s) (_msgTxCountInWindow s)
    (_msgTxLastCalcMs s) (_msgTxRate s) (_msgNumCollisions s) (_msgNumUnmatched s)
    worst best last (_msgTimeout s) (_msgRetry s) (_msgNoConnection s)
    (_streamBytes s) (_fileBytes s).

(** The counters that are only ever counted up. *)
Definition set_counters (tooShort collisions unmatched timeout retry noConnection
    streamBytes fileBytes : Z) (s : RaftCommsStats) :=
  mkCommsStats (_msgRxCount s) (_msgRxCountInWindow s) (_msgRxLastCalcMs s)
    (_msgRxRate s) tooShort (_msgTxCount s) (_msgTxCountInWindow s)
    (_msgTxLastCalcMs s) (_msgTxRate s) collisions unmatched
    (_msgRoundtripWorstMs s) (_msgRoundtripBestMs s) (_msgRoundtripLastMs s)
    timeout retry noConnection streamBytes fileBytes.

Definition msgRx (s : RaftCommsStats) : RaftCommsStats :=
  set_rx (_msgRxCount s + 1) (_msgRxCountInWindow s + 1) (_msgRxLastCalcMs s)
    (_msgRxRate s) s.

(** [getMsgRxRate()] reads the clock three times: in the test, in the
    quotient and for the new time of calculation.  A quotient by zero
    needs the clock to go back between the first two readings and is
    outside the model. *)
Definition getMsgRxRate (now1 now2 now3 : Z) (s : RaftCommsStats)
    : Q * RaftCommsStats :=
  if _msgRxLastCalcMs s + 1000 <? now1 then
    let rate :=
      (inject_Z (1000 * _msgRxCountInWindow s)
       / inject_Z (now2 - _msgRxLastCalcMs s))%Q in
    (rate, set_rx (_msgRxCount s) 0 now3 rate s)
  else (_msgRxRate s, s).

Definition msgTooShort (s : RaftCommsStats) : RaftCommsStats :=
  set_counters (_msgTooShort s + 1) (_msgNumCollisions s) (_msgNumUnmatched s)
    (_msgTimeout s) (_msgRetry s) (_msgNoConnection s) (_streamBytes s)
    (_fileBytes s) s.

Definition msgTx (s : RaftCommsStats) : RaftCommsStats :=
  set_tx (_msgTxCount s + 1) (_msgTxCountInWindow s + 1) (_msgTxLastCalcMs s)
    (_msgTxRate s) s.

Definition getMsgTxRate (now1 now2 now3 : Z) (s : RaftCommsStats)
    : Q * RaftCommsStats :=
  if _msgTxLastCalcMs s + 1000 <? now1 then
    let rate :=
      (inject_Z (1000 * _msgTxCountInWindow s)
       / inject_Z (now2 - _msgTxLastCalcMs s))%Q in
    (rate, set_tx (_msgTxCount s) 0 now3 rate s)
  else (_msgTxRate s, s).

Definition getRTWorstMs (s : RaftCommsStats) : Z := _msgRoundtripWorstMs s.
Definition getRTLastMs (s : RaftCommsStats) : Z := _msgRoundtripLastMs s.
Definition getRTBestMs (s : RaftCommsStats) : Z := _msgRoundtripBestMs s.
Definition getRetries (s : RaftCommsStats) : Z := _msgRetry s.

Definition recordMsgNumCollision (s : RaftCommsStats) : RaftCommsStats :=
  set_counters (_msgTooShort s) (_msgNumCollisions s + 1) (_msgNumUnmatched s)
    (_msgTimeout s) (_msgRetry s) (_msgNoConnection s) (_streamBytes s)
    (_fileBytes s) s.

Definition recordMsgNumUnmatched (s : RaftCommsStats) : RaftCommsStats :=
  set_counters (_msgTooShort s) (_msgNumCollisions s) (_msgNumUnmatched s + 1)
    (_msgTimeout s) (_msgRetry s) (_msgNoConnection s) (_streamBytes s)
    (_fileBytes s) s.

Definition recordMsgResp (roundTripMs : Z) (s : RaftCommsStats) : RaftCommsStats :=
  let worst :=
    if _msgRoundtripWorstMs s <? roundTripMs then roundTripMs
    else _msgRoundtripWorstMs s in
  let best :=
    if (_msgRoundtripBestMs s =? 0) || (roundTripMs <? _msgRoundtripBestMs s)
    then roundTripMs else _msgRoundtripBestMs s in
  set_roundtrip worst best roundTripMs s.

Definition recordMsgTimeout (s : RaftCommsStats) : RaftCommsStats :=
  set_counters (_msgTooShort s) (_msgNumCollisions s) (_msgNumUnmatched s)
    (_msgTimeout s + 1) (_msgRetry s) (_msgNoConnection s) (_streamBytes s)
    (_fileBytes s) s.

Definition recordMsgNoConnection (s : RaftCommsStats) : RaftCommsStats :=
  set_counters (_msgTooShort s) (_msgNumCollisions s) (_msgNumUnmatched s)
    (_msgTimeout s) (_msgRetry s) (_msgNoConnection s + 1) (_streamBytes s)
    (_fileBytes s) s.

Definition recordMsgRetry (s : RaftCommsStats) : RaftCommsStats :=
  set_counters (_msgTooShort s) (_msgNumCollisions s) (_msgNumUnmatched s)
    (_msgTimeout s) (_msgRetry s + 1) (_msgNoConnection s) (_streamBytes s)
    (_fileBytes s) s.

Definition recordStreamBytes (bytes : Z) (s : RaftCommsStats) : RaftCommsStats :=
  set_counters (_msgTooShort s) (_msgNumCollisions s) (_msgNumUnmatched s)
    (_msgTimeout s) (_msgRetry s) (_msgNoConnection s) (_streamBytes s + bytes)
    (_fileBytes s) s.

Definition recordFileBytes (bytes : Z) (s : RaftCommsStats) : RaftCommsStats :=
  set_counters (_msgTooShort s) (_msgNumCollisions s) (_msgNumUnmatched s)
    (_msgTimeout s) (_msgRetry s) (_msgNoConnection s) (_streamBytes s)
    (_fileBytes s + bytes) s.

(** A run of [recordMsgResp], one call per round trip. *)
Definition recordAll (roundTrips : list Z) (s : RaftCommsStats) : RaftCommsStats :=
  fold_left (fun s' roundTripMs => recordMsgResp roundTripMs s') roundTrips s.

(** [n] calls of [msgRx]. *)
Definition msgRxTimes (n : nat) (s : RaftCommsStats) : RaftCommsStats :=
  Nat.iter n msgRx s.

End RaftCommsStats.

(** ** RaftSysTypeManager.ts *)

Module RaftSysTypeManager.

(** The fields of a [RaftSystemType] that the manager reads.  The list
    of BLE service UUIDs is optional. *)
Record RaftSystemType := mkSystemType {
  nameForDialogs : string;
  BLEServiceUUIDs : option (list string)
}.

(** A factory makes a system type when it is called.  The factories are
    the caller's code; a factory is taken to return normally, with the
    same system type at each call. *)
Definition RaftSystemTypeCreator : Type := unit -> RaftSystemType.

(** The fields of the manager.  The [Map] of factories keeps its
    entries in the order of insertion. *)
Record RaftSysTypeManager := mkSysTypeManager {
  _sysTypes : list (string * RaftSystemTypeCreator);
  _defaultSysTypeFactory : option RaftSystemTypeCreator
}.

Definition newSysTypeManager : RaftSysTypeManager := mkSysTypeManager [] None.

(** The outcome of a method that may throw. *)
Inductive Outcome (A : Type) : Type :=
| Returns (a : A)
| Throws.
Arguments Returns {A} a.
Arguments Throws {A}.

(** [map.get(key)]. *)
Fixpoint mapGet {A} (entries : list (string * A)) (key : string) : option A :=
  match entries with
  | [] => None
  | (k, v) :: rest => if String.eqb k key then Some v else mapGet rest key
  end.

(** [map.has(key)]. *)
Definition mapHas {A} (entries : list (string * A)) (key : string) : bool :=
  match mapGet entries key with Some _ => true | None => false end.

(** [addSystemType]: an error for a name that is registered; a new
    name goes to the end of the map. *)
Definition addSystemType (sysType : string) (factory : RaftSystemTypeCreator)
    (mgr : RaftSysTypeManager) : Outcome RaftSysTypeManager :=
  if mapHas (_sysTypes mgr) sysType then Throws
  else Returns (mkSysTypeManager (_sysTypes mgr ++ [(sysType, factory)])
                  (_defaultSysTypeFactory mgr)).

Definition addDefaultSystemType (factory : RaftSystemTypeCreator)
    (mgr : RaftSysTypeManager) : RaftSysTypeManager :=
  mkSysTypeManager (_sysTypes mgr) (Some factory).

(** [createSystemType]; [None] is null. *)
Definition createSystemType (sysType : string) (mgr : RaftSysTypeManager)
    : option RaftSystemType :=
  match mapGet (_sysTypes mgr) sysType with
  | Some factory => Some (factory tt)
  | None => None
  end.

Definition createDefaultSystemType (mgr : RaftSysTypeManager) : option RaftSystemType :=
  match _defaultSysTypeFactory mgr with
  | Some factory => Some (factory tt)
  | None => None
  end.

(** [set.add(uuid)] on a [Set] kept in the order of insertion. *)
Definition setAdd (set : list string) (uuid : string) : list string :=
  if existsb (String.eqb uuid) set then set else set ++ [uuid].

(** The callback [getAllServiceUUIDs] runs on every entry of the map:
    calling [forEach] on an absent list of UUIDs throws, and once it
    has thrown no further entry is visited. *)
Definition addServiceUUIDs (serviceUUIDs : Outcome (list string))
    (entry : string * RaftSystemTypeCreator) : Outcome (list string) :=
  match serviceUUIDs with
  | Throws => Throws
  | Returns set =>
      let sysType := snd entry tt in
      match BLEServiceUUIDs sysType with
      | Some uuids => Returns (fold_left setAdd uuids set)
      | None => Throws
      end
  end.

Definition getAllServiceUUIDs (mgr : RaftSysTypeManager) : Outcome (list string) :=
  fold_left addServiceUUIDs (_sysTypes mgr) (Returns []).

End RaftSysTypeManager.

(** ** The example system type: routing of published frames *)

Module SystemTypeCog.
Import Js RaftPublish.

Definition SUBSCRIBE_BINARY_MSGS : bool := true.

(** The calls [rxOtherMsgType] makes on its state info object, which
    hands the payload to the device manager. *)
Inductive StateInfoCall :=
| HandleBinaryPayload (payload : list byte)
| HandleJsonPayload (jsonString : string).

(** The data of the publish event. *)
Record PublishEventData := mkPublishEventData {
  ev_topicIDs : list string;
  ev_topicName : option string;
  ev_topicIndex : option Q;
  ev_topicVersion : option Q;
  ev_frameType : FrameType;
  ev_handledByDeviceManager : bool;
  ev_payload : list byte;
  ev_frameTimeMs : Z;
  ev_isBinary : bool
}.

Section Router.

Variable utf8Decode : list byte -> string.
Variable jsonParse : string -> option JsonValue.
Variable numberToString : Q -> string.

(** [this._systemUtils?.getPublishTopicName] and whether an event
    handler is registered. *)
Variable getPublishTopicName : option (Q -> option string).
Variable hasOnEvent : bool.

(** [rxOtherMsgType]: the calls on the state info object, and the data
    of the event sent to the handler, if there is one. *)
Definition rxOtherMsgType (payload : list byte) (frameTimeMs : Z)
    : list StateInfoCall * option PublishEventData :=
  let frameMeta :=
    inspectPublishFrame utf8Decode jsonParse payload
      (Some (fun idx =>
               match getPublishTopicName with
               | Some lookup => lookup idx
               | None => None
               end)) in
  let calls :=
    match frameType frameMeta with
    | FrameBinary =>
        if default false (binaryHasEnvelope frameMeta) then
          match topicName frameMeta with
          | Some name =>
              if String.eqb name "devbin" then [HandleBinaryPayload payload] else []
          | None => []
          end
        else if SUBSCRIBE_BINARY_MSGS then [HandleBinaryPayload payload]
        else []
    | FrameJson =>
        let forDevices :=
          match topicName frameMeta with
          | Some name => String.eqb name "devjson"
          | None => true
          end in
        if forDevices then
          match jsonString frameMeta with
          | Some json => [HandleJsonPayload json]
          | None => []
          end
        else []
    | FrameUnknown => []
    end in
  let handledByDeviceManager := negb (length calls =? 0)%nat in
  let topicIDs :=
    match topicIndex frameMeta with
    | Some idx => [toString numberToString idx]
    | None => []
    end in
  (calls,
   if hasOnEvent then
     Some (mkPublishEventData topicIDs (topicName frameMeta) (topicIndex frameMeta)
             (version frameMeta) (frameType frameMeta) handledByDeviceManager
             payload frameTimeMs SUBSCRIBE_BINARY_MSGS)
   else None).

End Router.

(** The two forms of the topic lookup, on numbers and on the integers
    the device manager passes, are the same function. *)
Definition sameLookup (onNumbers : option (Q -> option string))
    (onIntegers : option (Z -> option string)) : Prop :=
  match onNumbers, onIntegers with
  | Some f, Some g => forall idx, f (inject_Z idx) = g idx
  | None, None => True
  | _, _ => False
  end.

End SystemTypeCog.

(** ** RaftStreamHandler.ts: streamData *)

Module RaftStreamHandler.
Import Js.

(** What the handler does to the outside, in order: a command sent with
    [sendRICREST], a block sent with [sendStreamBlock], a call of the
    progress callback. *)
Inductive StreamEvent :=
| SentRICREST (cmdMsg : string)
| SentStreamBlock (block : list byte) (pos : Z) (streamID : Z)
| Progress (bytesSent totalBytes : Z) (progress : Q).

(** The answer to a command: the call raised, it gave no response
    object, or it gave one, of which the handler reads [rslt],
    [streamID] and [maxBlockSize]. *)
Inductive RICRESTReply :=
| ReplyThrows
| ReplyNone
| Reply (rslt : string) (streamID : Z) (maxBlockSize : option Z).

(** The fields of the handler, the communication statistics it counts
    into, and the trace of its effects.  [soundFinishPoint] holds the
    delay of the timer that is set, if one is. *)
Record StreamHandler := mkStreamHandler {
  _streamID : option Z;
  DEFAULT_MAX_BLOCK_SIZE : Z;
  _maxBlockSize : Z;
  _soktoReceived : bool;
  _soktoPos : Z;
  _streamIsStarting : bool;
  _lastStreamStartTime : Z;
  _isStreaming : bool;
  _isPaused : bool;
  _streamBuffer : list byte;
  _audioDuration : Z;
  _audioByteRate : Q;
  _streamPos : Z;
  _numBlocksWithoutPause : Z;
  _legacySoktoMode : bool;
  soundFinishPoint : option Z;
  _commsStats : RaftCommsStats.RaftCommsStats;
  sent : list StreamEvent
}.

(** The handler as its constructor leaves it. *)
Definition newStreamHandler (commsStats : RaftCommsStats.RaftCommsStats)
    : StreamHandler :=
  mkStreamHandler None 475 475 false 0 false 0 false false [] 0 0 0 15 false None
    commsStats [].

Definition set_stream (streamID : option Z) (defaultMax maxBlockSize : Z)
    (h : StreamHandler) : StreamHandler :=
  mkStreamHandler streamID defaultMax maxBlockSize (_soktoReceived h) (_soktoPos h)
    (_streamIsStarting h) (_lastStreamStartTime h) (_isStreaming h) (_isPaused h)
    (_streamBuffer h) (_audioDuration h) (_audioByteRate h) (_streamPos h)
    (_numBlocksWithoutPause h) (_legacySoktoMode h) (soundFinishPoint h)
    (_commsStats h) (sent h).

Definition set_sokto (received : bool) (pos : Z) (h : StreamHandler) : StreamHandler :=
  mkStreamHandler (_streamID h) (DEFAULT_MAX_BLOCK_SIZE h) (_maxBlockSize h) received
    pos (_streamIsStarting h) (_lastStreamStartTime h) (_isStreaming h) (_isPaused h)
    (_streamBuffer h) (_audioDuration h) (_audioByteRate h) (_streamPos h)
    (_numBlocksWithoutPause h) (_legacySoktoMode h) (soundFinishPoint h)
    (_commsStats h) (sent h).

Definition set_starting (starting : bool) (lastStart : Z) (h : StreamHandler)
    : StreamHandler :=
  mkStreamHandler (_streamID h) (DEFAULT_MAX_BLOCK_SIZE h) (_maxBlockSize h)
    (_soktoReceived h) (_soktoPos h) starting lastStart (_isStreaming h) (_isPaused h)
    (_streamBuffer h) (_audioDuration h) (_audioByteRate h) (_streamPos h)
    (_numBlocksWithoutPause h) (_legacySoktoMode h) (soundFinishPoint h)
    (_commsStats h) (sent h).

Definition set_buffer (buffer : list byte) (streamPos : Z) (h : StreamHandler)
    : StreamHandler :=
  mkStreamHandler (_streamID h) (DEFAULT_MAX_BLOCK_SIZE h) (_maxBlockSize h)
    (_soktoReceived h) (_soktoPos h) (_streamIsStarting h) (_lastStreamStartTime h)
    (_isStreaming h) (_isPaused h) buffer (_audioDuration h) (_audioByteRate h)
    streamPos (_numBlocksWithoutPause h) (_legacySoktoMode h) (soundFinishPoint h)
    (_commsStats h) (sent h).

Definition set_options (numBlocksWithoutPause : Z) (legacySoktoMode : bool)
    (h : StreamHandler) : StreamHandler :=
  mkStreamHandler (_streamID h) (DEFAULT_MAX_BLOCK_SIZE h) (_maxBlockSize h)
    (_soktoReceived h) (_soktoPos h) (_streamIsStarting h) (_lastStreamStartTime h)
    (_isStreaming h) (_isPaused h) (_streamBuffer h) (_audioDuration h)
    (_audioByteRate h) (_streamPos h) numBlocksWithoutPause legacySoktoMode
    (soundFinishPoint h) (_commsStats h) (sent h).

Definition set_timer (timer : option Z) (h : StreamHandler) : StreamHandler :=
  mkStreamHandler (_streamID h) (DEFAULT_MAX_BLOCK_SIZE h) (_maxBlockSize h)
    (_soktoReceived h) (_soktoPos h) (_streamIsStarting h) (_lastStreamStartTime h)
    (_isStreaming h) (_isPaused h) (_streamBuffer h) (_audioDuration h)
    (_audioByteRate h) (_streamPos h) (_numBlocksWithoutPause h) (_legacySoktoMode h)
    timer (_commsStats h) (sent h).

Definition with_commsStats
    (f : RaftCommsStats.RaftCommsStats -> RaftCommsStats.RaftCommsStats)
    (h : StreamHandler) : StreamHandler :=
  mkStreamHandler (_streamID h) (DEFAULT_MAX_BLOCK_SIZE h) (_maxBlockSize h)
    (_soktoReceived h) (_soktoPos h) (_streamIsStarting h) (_lastStreamStartTime h)
    (_isStreaming h) (_isPaused h) (_streamBuffer h) (_audioDuration h)
    (_audioByteRate h) (_streamPos h) (_numBlocksWithoutPause h) (_legacySoktoMode h)
    (soundFinishPoint h) (f (_commsStats h)) (sent h).

Definition emit (evs : list StreamEvent) (h : StreamHandler) : StreamHandler :=
  mkStreamHandler (_streamID h) (DEFAULT_MAX_BLOCK_SIZE h) (_maxBlockSize h)
    (_soktoReceived h) (_soktoPos h) (_streamIsStarting h) (_lastStreamStartTime h)
    (_isStreaming h) (_isPaused h) (_streamBuffer h) (_audioDuration h)
    (_audioByteRate h) (_streamPos h) (_numBlocksWithoutPause h) (_legacySoktoMode h)
    (soundFinishPoint h) (_commsStats h) (sent h ++ evs).

Definition setNumBlocksWithoutPause (numBlocks : Z) (h : StreamHandler) :=
  set_options numBlocks (_legacySoktoMode h) h.

Definition setLegacySoktoMode (legacyMode : bool) (h : StreamHandler) :=
  set_options (_numBlocksWithoutPause h) legacyMode h.

Definition isStreamStarting (h : StreamHandler) : bool := _streamIsStarting h.

(** The getter and the setter of [maxBlockSize]. *)
Definition get_maxBlockSize (h : StreamHandler) : Z := _maxBlockSize h.

Definition set_maxBlockSize (maxBlockSize : Z) (h : StreamHandler) :=
  set_stream (_streamID h) maxBlockSize maxBlockSize h.

Definition onSoktoMsg (soktoPos : Z) (h : StreamHandler) := set_sokto true soktoPos h.

Definition clearFinishPointTimeout (h : StreamHandler) : StreamHandler :=
  match soundFinishPoint h with
  | Some _ => set_timer None h
  | None => h
  end.

(** What the timer does when it fires is outside the model. *)
Definition streamingPerformanceChecker (h : StreamHandler) : StreamHandler :=
  if negb (_audioDuration h =? 0)
  then set_timer (Some (_audioDuration h + 500)) (clearFinishPointTimeout h)
  else h.

Definition streamCancel (h : StreamHandler) : StreamHandler :=
  clearFinishPointTimeout (set_buffer [] (_streamPos h) h).

(** The double quote. *)
Definition dq : string := String "034"%char EmptyString.

Definition streamStartCmd (streamName targetEndpoint : string) (fileLen : nat) : string :=
  ("{" ++ dq ++ "cmdName" ++ dq ++ ":" ++ dq ++ "ufStart" ++ dq ++ ","
   ++ dq ++ "reqStr" ++ dq ++ ":" ++ dq ++ "ufStart" ++ dq ++ ","
   ++ dq ++ "fileType" ++ dq ++ ":" ++ dq ++ "rtstream" ++ dq ++ ","
   ++ dq ++ "fileName" ++ dq ++ ":" ++ dq ++ streamName ++ dq ++ ","
   ++ dq ++ "endpoint" ++ dq ++ ":" ++ dq ++ targetEndpoint ++ dq ++ ","
   ++ dq ++ "fileLen" ++ dq ++ ":" ++ intDigits 10 (Z.of_nat fileLen) ++ "}")%string.

Definition streamEndCmd (streamID : Z) : string :=
  ("{" ++ dq ++ "cmdName" ++ dq ++ ":" ++ dq ++ "ufEnd" ++ dq ++ ","
   ++ dq ++ "reqStr" ++ dq ++ ":" ++ dq ++ "ufEnd" ++ dq ++ ","
   ++ dq ++ "streamID" ++ dq ++ ":" ++ intDigits 10 streamID ++ "}")%string.

(** How a call that returns a promise ends: the promise is resolved
    with a value, it is rejected, or the call never gets there. *)
Inductive Settled (A : Type) : Type :=
| Resolved (a : A)
| Rejected
| Unsettled.
Arguments Resolved {A} a.
Arguments Rejected {A}.
Arguments Unsettled {A}.

Section WithEnvironment.

(** The message handler's [sendRICREST] and [sendStreamBlock], and
    [RaftUtils.toArrayBufferView], none of which is among the sources.
    A [streamData] that is given a progress callback calls it. *)
Variable sendRICREST : string -> RICRESTReply.
Variable sendStreamBlock : list byte -> Z -> Z -> bool.
Variable toArrayBufferView : list byte -> list byte.
Variable progressCallback : bool.

Definition _sendStreamStartMsg (streamName targetEndpoint : string)
    (streamContents : list byte) (h : StreamHandler) : bool * StreamHandler :=
  let cmdMsg := streamStartCmd streamName targetEndpoint (length streamContents) in
  let h := emit [SentRICREST cmdMsg] h in
  match sendRICREST cmdMsg with
  | ReplyThrows => (false, h)
  | ReplyNone => (false, h)
  | Reply rslt streamID maxBlockSize =>
      if String.eqb rslt "ok" then
        let maxBlockSize :=
          match maxBlockSize with
          | Some n => if n =? 0 then DEFAULT_MAX_BLOCK_SIZE h else n
          | None => DEFAULT_MAX_BLOCK_SIZE h
          end in
        (true,
         streamingPerformanceChecker
           (set_stream (Some streamID) (DEFAULT_MAX_BLOCK_SIZE h) maxBlockSize h))
      else (false, h)
  end.

Definition _sendStreamEndMsg (streamID : option Z) (h : StreamHandler)
    : Settled bool * StreamHandler :=
  match streamID with
  | None => (Resolved false, h)
  | Some streamID =>
      let cmdMsg := streamEndCmd streamID in
      let h := emit [SentRICREST cmdMsg] h in
      match sendRICREST cmdMsg with
      | ReplyThrows => (Resolved false, h)
      | ReplyNone => (Rejected, h)
      | Reply rslt _ _ => (Resolved (String.eqb rslt "ok"), h)
      end
  end.

(** How the loop over the blocks ended. *)
Inductive LoopEnd := LoopDone | LoopSendFailed | LoopTurnsOut.

(** [while (pos < this._streamBuffer.length)], when nothing else runs
    while the loop waits.  A turn that finds no block to send changes
    nothing, so the loop then goes on for ever; [LoopTurnsOut] says that
    the turns given were used up. *)
Fixpoint sendBlocks (turns : nat) (pos : Z) (h : StreamHandler)
    : LoopEnd * StreamHandler :=
  if pos <? Z.of_nat (length (_streamBuffer h)) then
    match turns with
    | O => (LoopTurnsOut, h)
    | S turns' =>
        let h := if _soktoReceived h then set_sokto false (_soktoPos h) h else h in
        let blockSize :=
          Z.min (Z.of_nat (length (_streamBuffer h)) - pos) (_maxBlockSize h) in
        let block := sliceBytes (_streamBuffer h) pos (pos + blockSize) in
        if (0 <? length block)%nat then
          let sentOk := sendStreamBlock block pos (default 0 (_streamID h)) in
          let h :=
            with_commsStats
              (RaftCommsStats.recordStreamBytes (Z.of_nat (length block)))
              (emit [SentStreamBlock block pos (default 0 (_streamID h))] h) in
          if negb sentOk then (LoopSendFailed, h)
          else
            let pos := pos + blockSize in
            let h := set_buffer (_streamBuffer h) pos h in
            let h :=
              if progressCallback then
                let total := Z.of_nat (length (_streamBuffer h)) in
                emit [Progress pos total
                        (if 0 <? total then (inject_Z pos / inject_Z total)%Q else 1%Q)]
                  h
              else h in
            sendBlocks turns' pos h
        else sendBlocks turns' pos h
    end
  else (LoopDone, h).

(** [streamData] with the two readings of the clock it makes, when
    nothing else runs while it waits. *)
Definition streamData (now1 now2 : Z) (streamContents : list byte)
    (fileName targetEndpoint : string) (h : StreamHandler)
    : Settled bool * StreamHandler :=
  if _streamIsStarting h || (now1 - 500 <? _lastStreamStartTime h) then
    (Resolved false, h)
  else
    let h := set_starting true now2 h in
    let h := set_sokto false 0 h in
    let h := set_buffer (toArrayBufferView streamContents) 0 h in
    let '(startOk, h) :=
      _sendStreamStartMsg fileName targetEndpoint streamContents h in
    let h := set_starting false (_lastStreamStartTime h) h in
    if negb startOk then (Resolved false, h)
    else
      match _streamID h with
      | None => (Resolved false, h)
      | Some _ =>
          match sendBlocks (length (_streamBuffer h)) 0 h with
          | (LoopDone, h) => _sendStreamEndMsg (_streamID h) h
          | (LoopSendFailed, h) => (Resolved false, h)
          | (LoopTurnsOut, h) => (Unsettled, h)
          end
      end.

End WithEnvironment.

(** The blocks in a trace, each with the position it was sent for. *)
Definition blockOf (e : StreamEvent) : option (list byte * Z) :=
  match e with
  | SentStreamBlock block pos _ => Some (block, pos)
  | _ => None
  end.

Definition blocksSent (evs : list StreamEvent) : list (list byte * Z) :=
  omap blockOf evs.

(** The positions of blocks laid end to end from [start]. *)
Fixpoint offsetsFrom (start : Z) (blocks : list (list byte)) : list Z :=
  match blocks with
  | [] => []
  | block :: rest => start :: offsetsFrom (start + Z.of_nat (length block)) rest
  end.

End RaftStreamHandler.

(** ** Scenarios the properties refer to *)

Module Scenarios.
Import Js RaftDeviceStates RaftDeviceManager.

(** The manager of the window example: the statistics window, 5000 ms
    by default, set to 500 ms. *)
Definition window500 : DeviceManager :=
  with_settings (fun s =>
    mkSettings (_maxDatapointsToStore s) (_minTimeBetweenDeviceTypeInfoRetrievalMs s)
      (_removeDevicesFlag s) (_removeDevicesTimeMs s) 500) newDeviceManager.


(** An attribute handler that decodes nothing. *)
Definition noDecode (rxMsg : list byte) (pos : Z) (tl : DeviceTimeline)
    (resp : DeviceTypeResp) (attrs : gmap string DeviceAttributeState) (cap : Z)
    : Z * DeviceTimeline * gmap string DeviceAttributeState :=
  (-1, tl, attrs).

Definition servoInfo : DeviceTypeInfo :=
  mkTypeInfo (Some "servo"%string) (Some (mkTypeResp 2 [mkTypeAttr "x1" []])) [].

(** A manager that knows the device on bus 1 at address 0x76a and has
    two device-removed callbacks registered. *)
Definition oneDevice : DeviceManager :=
  addDeviceRemovedCallback 9
    (addDeviceRemovedCallback 7
       (with_devicesState
          (fun ds => <["1_76a"%string := newDeviceState servoInfo "1" "76a"]> ds)
          newDeviceManager)).

(** Prefix 0080, envelope DB FF, one record of length 7 for bus 1,
    address 0x76a, type 0x0b with the pending-deletion bit set. *)
Definition deletionFrame : list byte :=
  [x00; x80; xdb; xff; x00; x07; xc1; x00; x00; x07; x6a; x00; x0b].

(** The same envelope, a record of length 7 for that device with the
    online bit set and no poll data, then a record whose prefix claims
    0x20 bytes where 7 remain. *)
Definition overrunFrame : list byte :=
  [x00; x80; xdb; xff; x00; x07; x81; x00; x00; x07; x6a; x00; x0b;
   x00; x20; x81; x00; x00; x07; x6b; x00; x0b].

(** Five callers asking for device type 12 on bus0 at time [nowMs]. *)
Definition fiveCalls (nowMs : Z) : list (Z * nat * string) :=
  map (fun c => (nowMs, c, "bus0"%string)) [1; 2; 3; 4; 5]%nat.

(** A pack primitive that writes each value as one byte. *)
Definition packBytes (typeCode : string) (vs : list Q) : list byte :=
  map (fun v => default x00 (Byte.of_N (Z.to_N (Qfloor v mod 256)))) vs.

(** An action of type code "B" that declares sub = 1 and mul = 2. *)
Definition scaledAction : DeviceTypeAction :=
  mkAction "set" (Some "B"%string) None None (Some 1%Q) (Some 2%Q) None.

(** A JSON device entry that names its type by index. *)
Definition typeIndexEntry : JsonValue :=
  JObject [("_i"%string, JNumber 5); ("x1"%string, JString "0100")].

(** The device of that entry after one value of x1 has been decoded,
    and the manager, with one decoded-data callback, after
    [emitDecodedData] has reported the value with the entry's markers. *)
Definition indexedDevice : DeviceState :=
  mkDeviceState (Some servoInfo) (mkTimeline [1000] 0 0)
    {["x1"%string := mkAttrState "x1" true true 1 [1%Q] "" [] "" true true]}
    true true Online "a1" "5" "0".

Definition indexedReport : DeviceManager :=
  emitDecodedData "0_a1" "0" "a1" indexedDevice (dti_resp servoInfo) ∅ 0 "x1"
    (Some (extractMarkers typeIndexEntry))
    (addDecodedDataCallback 3 newDeviceManager).




(** A message handler that never answers "ok". *)
Definition refuse (cmd : string) : RestReply := RestNotOk.

(** A message handler that always answers "ok". *)
Definition accept (cmd : string) : RestReply := RestOk None.

(** A manager whose one fetch of device type 12, begun at time 0, has
    failed: no schema is cached and the attempt time is on record. *)
Definition afterFailedFetch : DeviceManager :=
  singleFlight (Some refuse) "12" (0, 0%nat, "bus0"%string) [] RestNotOk []
    newDeviceManager.

(** An attribute state as it is created, with no value yet, and a
    [Number.prototype.toString] for examples that do not consult it. *)
Definition freshAttr : DeviceAttributeState :=
  mkAttrState "x1" true false 0 [] "" [] "" true true.

Definition noExponent (x : Q) : string := EmptyString.

(** A run of three updates: 10 samples at 0 ms, 10 at 400 ms and none
    at 950 ms. *)
Definition threeUpdates : list (Z * Z) := [(10, 0); (10, 400); (0, 950)].

(** An enveloped frame for topic 1 with the first record of
    [overrunFrame], and topic lookups that name every topic devbin. *)
Definition topicFrame : list byte :=
  [x00; x80; xdb; x01; x00; x07; x81; x00; x00; x07; x6a; x00; x0b].

Definition devbinTopics : option (Q -> option string) :=
  Some (fun _ => Some "devbin"%string).

Definition devbinTopicNames : option (Z -> option string) :=
  Some (fun _ => Some "devbin"%string).

(** A firmware that answers every command with "ok", stream 7 and a
    block size of 4, and accepts every block; ten bytes to stream. *)
Definition okReply (cmdMsg : string) : RaftStreamHandler.RICRESTReply :=
  RaftStreamHandler.Reply "ok" 7 (Some 4).

Definition acceptBlock (block : list byte) (pos streamID : Z) : bool := true.

Definition sameView (contents : list byte) : list byte := contents.

Definition tenBytes : list byte :=
  [x00; x01; x02; x03; x04; x05; x06; x07; x08; x09].

End Scenarios.

(** * Properties *)

(** ** Frame classification *)

Module RaftPublishProps.
Import Js RaftPublish.

Lemma lookup_lt_length {A} (l : list A) (i : nat) (x : A) :
  l !! i = Some x -> (i < length l)%nat.
Proof. intros H. apply lookup_lt_is_Some. eauto. Qed.

(** C6: a payload whose byte at index 2 has high nibble 0xD is a binary
    frame with an envelope.  For a magic byte in 0xDB..0xDF the version
    is the byte minus 0xDA (1..5), the topic index is the following byte,
    the topic name is looked up unless that byte is 0xFF, and the payload
    starts at offset 4; outside that range only the envelope flag is
    set. *)
Theorem inspectPublishFrame_devbin_envelope
    (utf8Decode : list byte -> string)
    (jsonParse : string -> option JsonValue)
    (payload : list byte) (topicLookup : option (Q -> option string))
    (b : byte) :
  payload !! 2%nat = Some b ->
  Z.land (byte_to_Z b) 0xF0 = 0xD0 ->
  let r := inspectPublishFrame utf8Decode jsonParse payload topicLookup in
  if (0xDB <=? byte_to_Z b) && (byte_to_Z b <=? 0xDF) then
    frameType r = FrameBinary /\
    binaryHasEnvelope r = Some true /\
    version r = Some (inject_Z (byte_to_Z b - 0xDA)) /\
    1 <= byte_to_Z b - 0xDA <= 5 /\
    topicIndex r = (fun t => inject_Z (byte_to_Z t)) <$> payload !! 3%nat /\
    topicName r =
      match payload !! 3%nat, topicLookup with
      | Some t, Some f =>
          if byte_to_Z t =? 0xFF then None else f (inject_Z (byte_to_Z t))
      | _, _ => None
      end /\
    (payload !! 3%nat = Some xff -> topicName r = None) /\
    jsonString r = None /\
    binaryPayloadOffset r = Some 4%nat
  else
    r = mkFrameMeta FrameBinary None None None None (Some true) None.
Proof.
  intros Hb Hnib r. subst r.
  pose proof (lookup_lt_length _ _ _ Hb) as Hlen.
  unfold inspectPublishFrame, RAFT_PUBLISH_PREFIX_LEN.
  destruct (Nat.ltb_spec (length payload) 2); [lia |].
  destruct (Nat.leb_spec (length payload) 2); [lia |].
  rewrite Hb.
  destruct (Z.eqb_spec (byte_to_Z b) 0x7B) as [E | _].
  { rewrite E in Hnib. discriminate Hnib. }
  rewrite Hnib. change (208 =? 208) with true. cbv iota.
  unfold DEVBIN_MAGIC_MIN, DEVBIN_MAGIC_MAX, DEVBIN_VERSION_BASE.
  destruct (Z.leb_spec 0xDB (byte_to_Z b)) as [Hlo | Hlo];
    destruct (Z.leb_spec (byte_to_Z b) 0xDF) as [Hhi | Hhi]; cbn [andb].
  - destruct (Z.ltb_spec (byte_to_Z b) 0xDB); [lia |].
    destruct (Z.ltb_spec 0xDF (byte_to_Z b)); [lia |].
    cbn [orb frameType binaryHasEnvelope version topicIndex topicName
         jsonString binaryPayloadOffset].
    assert (Hidx : (if (2 + 1 <? length payload)%nat
                    then byte_to_Z <$> payload !! (2 + 1)%nat else None)
                   = byte_to_Z <$> payload !! 3%nat).
    { destruct (Nat.ltb_spec (2 + 1) (length payload)); [reflexivity |].
      rewrite (lookup_ge_None_2 payload 3) by lia. reflexivity. }
    rewrite Hidx.
    repeat split; try lia.
    + destruct (payload !! 3%nat); reflexivity.
    + destruct (payload !! 3%nat) as [t |]; cbn; [| reflexivity].
      destruct topicLookup; [| reflexivity].
      destruct (byte_to_Z t =? 255); reflexivity.
    + intros ->. cbn. destruct topicLookup; reflexivity.
  - destruct (Z.ltb_spec 0xDF (byte_to_Z b)); [| lia].
    rewrite orb_true_r. reflexivity.
  - destruct (Z.ltb_spec (byte_to_Z b) 0xDB); [| lia]. reflexivity.
  - lia.
Qed.

Lemma inspectPublishFrame_devbin_envelope_witness :
  [x00; x80; xdb; x01; x00] !! 2%nat = Some xdb /\
  version (inspectPublishFrame (fun _ => EmptyString) (fun _ => None)
             [x00; x80; xdb; x01; x00] None)
    = Some (inject_Z 1).
Proof.
  split; [reflexivity |].
  exact (proj1 (proj2 (proj2
    (inspectPublishFrame_devbin_envelope (fun _ => EmptyString) (fun _ => None)
       [x00; x80; xdb; x01; x00] None xdb eq_refl eq_refl)))).
Defined.

End RaftPublishProps.

(** ** Device statistics *)

Module DeviceStatsProps.
Import Js RaftDeviceStates RaftDeviceManager Scenarios.

Lemma updateDeviceStats_lookup key newSamples nowMs m :
  _deviceStats (updateDeviceStats key newSamples nowMs m) !! key
  = Some (updateStats (getOrCreateDeviceStats key m) newSamples nowMs).
Proof. unfold updateDeviceStats. cbn. apply lookup_insert_eq. Qed.

Lemma dropExpired_head windowStartMs events timeMs samples rest :
  dropExpired windowStartMs events = (timeMs, samples) :: rest ->
  windowStartMs <= timeMs.
Proof.
  induction events as [| [t n] evs IH]; cbn; [discriminate |].
  destruct (Z.ltb_spec t windowStartMs); [exact IH |].
  intros [= -> _ _]. assumption.
Qed.

(** C3: after [updateDeviceStats] the device's event log is the old log
    (with the new batch appended when it has samples) less the head
    entries older than the window; the samples in the window are the
    sum over that log; the rate is 0 for an empty log and otherwise
    windowSamples * 1000 / max(1, now - oldest remaining event time).
    With the window at 500 ms, 10 samples at 0 ms and 10 at 400 ms give
    20 samples in the window and a rate of 50 at 400 ms, and an update
    without samples later than 900 ms gives 0 and 0. *)
Theorem updateDeviceStats_rate :
  (forall (m : DeviceManager) (key : string) (newSamples nowMs : Z),
      let old := getOrCreateDeviceStats key m in
      let logged :=
        if 0 <? newSamples then windowEvents old ++ [(nowMs, newSamples)]
        else windowEvents old in
      let remaining := dropExpired (nowMs - windowMs (stats old)) logged in
      exists s,
        _deviceStats (updateDeviceStats key newSamples nowMs m) !! key = Some s /\
        windowEvents s = remaining /\
        windowSamples (stats s) = sumSamples remaining /\
        match remaining with
        | [] => windowSamples (stats s) = 0 /\ sampleRateHz (stats s) = 0%Q
        | (oldestMs, _) :: _ =>
            sampleRateHz (stats s)
            = (inject_Z (windowSamples (stats s) * 1000)
               / inject_Z (Z.max 1 (nowMs - oldestMs)))%Q
        end) /\
  (_statsWindowMs (settings newDeviceManager) = 5000 /\
   let m400 :=
     updateDeviceStats "0_a1" 10 400 (updateDeviceStats "0_a1" 10 0 window500) in
   (exists s,
       _deviceStats m400 !! "0_a1"%string = Some s /\
       windowSamples (stats s) = 20 /\
       (sampleRateHz (stats s) == 50)%Q) /\
   (forall later : nat,
       exists s,
         _deviceStats
           (updateDeviceStats "0_a1" 0 (901 + Z.of_nat later) m400)
           !! "0_a1"%string = Some s /\
         windowSamples (stats s) = 0 /\
         sampleRateHz (stats s) = 0%Q)).
Proof.
  split.
  - intros m key newSamples nowMs old logged remaining.
    exists (updateStats old newSamples nowMs).
    split; [apply updateDeviceStats_lookup |].
    unfold updateStats. cbn [windowEvents stats windowSamples sampleRateHz].
    fold logged. fold remaining.
    split; [reflexivity |]. split; [reflexivity |].
    destruct remaining as [| [oldestMs n] rest]; [split; reflexivity | reflexivity].
  - split; [reflexivity |]. cbv zeta. split.
    + eexists. split; [apply updateDeviceStats_lookup |].
      split; vm_compute; reflexivity.
    + intros later. eexists. split; [apply updateDeviceStats_lookup |].
      set (now := 901 + Z.of_nat later).
      assert (Hold :
        getOrCreateDeviceStats "0_a1"
          (updateDeviceStats "0_a1" 10 400 (updateDeviceStats "0_a1" 10 0 window500))
        = mkStatsInternal
            (mkDeviceStats 20 500 20 (inject_Z 20000 / inject_Z 400)%Q
               (Some 400) (Some 400))
            [(0, 10); (400, 10)]).
      { vm_compute. reflexivity. }
      rewrite Hold. unfold updateStats.
      cbn [stats windowEvents windowMs totalSamples lastSampleTimeMs].
      change (0 <? 0) with false. cbv iota.
      assert (Hdrop : dropExpired (now - 500) [(0, 10); (400, 10)] = []).
      { cbn. destruct (Z.ltb_spec 0 (now - 500)); [| lia].
        destruct (Z.ltb_spec 400 (now - 500)); [reflexivity | lia]. }
      rewrite Hdrop. split; reflexivity.
Qed.

End DeviceStatsProps.

(** ** The binary record parser *)

Module BinaryParserProps.
Import Js RaftDeviceStates RaftDeviceManager Scenarios.

Lemma byteAt_range rxMsg i : 0 <= byteAt rxMsg i <= 255.
Proof.
  unfold byteAt. destruct (rxMsg !! Z.to_nat i) as [b |]; cbn; [| lia].
  unfold byte_to_Z. destruct b; cbn; lia.
Qed.

(** Behind the first check of the record loop the nine reads of the
    length prefix and the header are inside the frame. *)
Lemma record_reads_in_range rxMsg p k :
  0 <= p ->
  recordLenLen + recordHeaderLen <= msgLength rxMsg - p ->
  0 <= k < recordLenLen + recordHeaderLen ->
  is_Some (rxMsg !! Z.to_nat (p + k)).
Proof.
  unfold msgLength. intros Hp Hlen Hk. apply lookup_lt_is_Some. lia.
Qed.

Lemma shl_8_byte x : 0 <= x <= 255 -> shl x 8 = x * 256.
Proof.
  intros H. unfold shl, to_int32.
  change (8 mod 32) with 8. rewrite Z.shiftl_mul_pow2 by lia.
  change (2 ^ 8) with 256. change (2 ^ 32) with 4294967296.
  change (2 ^ 31) with 2147483648.
  rewrite Z.mod_small by lia.
  destruct (Z.ltb_spec (x * 256) 2147483648); lia.
Qed.

Lemma recordLenAt_range rxMsg p : 0 <= recordLenAt rxMsg p <= 65535.
Proof.
  unfold recordLenAt.
  pose proof (byteAt_range rxMsg p). pose proof (byteAt_range rxMsg (p + 1)).
  rewrite shl_8_byte by assumption. lia.
Qed.

(** A frame whose records are all complete is a span of records that
    ends at the end of the frame. *)
Lemma everyRecordComplete_span fuel rxMsg : forall p,
  p <= msgLength rxMsg ->
  everyRecordComplete fuel rxMsg p = true ->
  exists recs, RecordsSpan rxMsg p recs (msgLength rxMsg).
Proof.
  induction fuel as [| fuel IH]; intros p Hle; cbn [everyRecordComplete].
  - destruct (Z.ltb_spec p (msgLength rxMsg)); [discriminate |].
    intros _. exists []. replace p with (msgLength rxMsg) by lia. constructor.
  - destruct (Z.ltb_spec p (msgLength rxMsg)) as [Hlt | Hge].
    + intros H. apply andb_prop in H as [H Hrest]. apply andb_prop in H as [Hhdr Hfit].
      apply Z.leb_le in Hhdr. apply Z.leb_le in Hfit.
      assert (Hnext : p + recordLenLen + recordLenAt rxMsg p <= msgLength rxMsg)
        by (unfold recordLenLen in *; lia).
      destruct (IH _ Hnext Hrest) as (recs & Hspan).
      eexists. apply span_record; eassumption.
    + intros _. exists []. replace p with (msgLength rxMsg) by lia. constructor.
Qed.

(** A record of 7 bytes or more that fits the bytes after its prefix
    has its prefix and its header inside the frame. *)
Lemma everyRecordValid_complete fuel rxMsg : forall p,
  everyRecordValid fuel rxMsg p = true -> everyRecordComplete fuel rxMsg p = true.
Proof.
  induction fuel as [| fuel IH]; intros p; cbn [everyRecordValid everyRecordComplete];
    [trivial |].
  destruct (p <? msgLength rxMsg); [| trivial].
  intros H. apply andb_prop in H as [H Hrest]. apply andb_prop in H as [Hmin Hfit].
  rewrite Hfit, (IH _ Hrest), !andb_true_r.
  apply Z.leb_le in Hmin. apply Z.leb_le in Hfit. apply Z.leb_le.
  unfold recordLenLen, recordHeaderLen, busInfoLen, deviceAddrLen, devTypeIdxLen in *.
  lia.
Qed.

(** A span of records ends behind the bytes of its records. *)
Lemma RecordsSpan_end rxMsg p recs q :
  RecordsSpan rxMsg p recs q -> q = p + recordBytes recs.
Proof.
  induction 1 as [p | p recs q _ _ _ _ IH]; cbn [recordBytes fold_right]; [lia |].
  fold (recordBytes recs). lia.
Qed.

Lemma devbinFrame_length rxMsg :
  Z.of_nat (length (devbinFrame rxMsg)) = Z.max 0 (msgLength rxMsg - msgTypeLen).
Proof. unfold devbinFrame, msgLength, msgTypeLen. rewrite length_drop. lia. Qed.

Section WithEnvironment.

Variable msgHandler : option (string -> RestReply).
Variable getPublishTopicName : option (Z -> option string).
Variable processMsgAttrGroup :
  list byte -> Z -> DeviceTimeline -> DeviceTypeResp ->
  gmap string DeviceAttributeState -> Z ->
  Z * DeviceTimeline * gmap string DeviceAttributeState.

Abbreviation processRecord := (processRecord msgHandler processMsgAttrGroup).
Abbreviation processRecords := (processRecords msgHandler processMsgAttrGroup).
Abbreviation recordsLoop := (recordsLoop msgHandler processMsgAttrGroup).
Abbreviation handleClientMsgBinary :=
  (handleClientMsgBinary msgHandler getPublishTopicName processMsgAttrGroup).

(** The poll-data loop moves forward by at least one byte a turn, so the
    turns [processRecord] gives it are enough: more turns change
    nothing. *)
Lemma pollLoop_fuel fuel extra rxMsg pollDataEnd resp cap :
  forall pollDataPos timeline attrs changed,
    pollDataEnd - pollDataPos <= Z.of_nat fuel ->
    pollLoop processMsgAttrGroup (fuel + extra) rxMsg pollDataEnd resp cap
      pollDataPos timeline attrs changed
    = pollLoop processMsgAttrGroup fuel rxMsg pollDataEnd resp cap
        pollDataPos timeline attrs changed.
Proof.
  induction fuel as [| fuel IH]; intros pos tl attrs changed Hfuel.
  - destruct extra as [| extra]; [reflexivity |]. cbn.
    destruct (Z.ltb_spec pos pollDataEnd); [lia | reflexivity].
  - cbn [Nat.add pollLoop].
    destruct (pos <? pollDataEnd); [| reflexivity].
    destruct (msgLength rxMsg <=? pos); [reflexivity |].
    destruct (processMsgAttrGroup rxMsg pos tl resp attrs cap) as [[idx tl'] attrs'].
    destruct (idx <? 0); [reflexivity |].
    destruct (Z.leb_spec idx pos); [reflexivity |].
    apply IH. lia.
Qed.

(** The loop never runs out of the turns [handleClientMsgBinary] gives
    it. *)
Lemma recordsLoop_fuel fuel nowMs caller rxMsg msgPos m :
  msgLength rxMsg - msgPos <= Z.of_nat fuel ->
  fst (fst (recordsLoop fuel nowMs caller rxMsg msgPos m)) <> FrameFuelOut.
Proof.
  revert msgPos m. induction fuel as [| fuel IH]; intros msgPos m Hfuel; cbn.
  - destruct (Z.ltb_spec msgPos (msgLength rxMsg)); [lia | discriminate].
  - destruct (Z.ltb_spec msgPos (msgLength rxMsg)); [| discriminate].
    destruct (_ <? recordLenLen + recordHeaderLen); [discriminate |].
    destruct (_ <? recordLenAt rxMsg msgPos); [discriminate |].
    apply IH. pose proof (recordLenAt_range rxMsg msgPos).
    unfold recordLenLen. lia.
Qed.

(** Over a span of well-formed records the loop runs its body on each
    of them and carries on behind them. *)
Lemma recordsLoop_span rxMsg p recs q :
  RecordsSpan rxMsg p recs q ->
  forall fuel nowMs caller m,
    msgLength rxMsg - p <= Z.of_nat fuel ->
    exists fuel',
      msgLength rxMsg - q <= Z.of_nat fuel' /\
      recordsLoop fuel nowMs caller rxMsg p m
      = recordsLoop fuel' nowMs caller rxMsg q
          (processRecords nowMs caller rxMsg recs m).
Proof.
  induction 1 as [p | p recs q Hlt Hhdr Hfit Hspan IH];
    intros fuel nowMs caller m Hfuel.
  - exists fuel. split; [assumption | reflexivity].
  - destruct fuel as [| fuel]; [lia |].
    pose proof (recordLenAt_range rxMsg p) as Hlen.
    destruct (IH fuel nowMs caller
                (processRecord nowMs caller rxMsg p (recordLenAt rxMsg p) m))
      as (fuel' & Hfuel' & Heq).
    { unfold recordLenLen. lia. }
    exists fuel'. split; [assumption |].
    change (processRecords nowMs caller rxMsg ((p, recordLenAt rxMsg p) :: recs) m)
      with (processRecords nowMs caller rxMsg recs
              (processRecord nowMs caller rxMsg p (recordLenAt rxMsg p) m)).
    rewrite <- Heq. cbn [RaftDeviceManager.recordsLoop].
    destruct (Z.ltb_spec p (msgLength rxMsg)); [| lia].
    destruct (Z.ltb_spec (msgLength rxMsg - p) (recordLenLen + recordHeaderLen));
      [lia |].
    destruct (Z.ltb_spec (msgLength rxMsg - p - recordLenLen) (recordLenAt rxMsg p));
      [lia | reflexivity].
Qed.

Lemma checkEnvelope_start rxMsg start :
  checkEnvelope getPublishTopicName rxMsg = inr start -> start = 2 \/ start = 4.
Proof.
  unfold checkEnvelope, msgTypeLen, devbinEnvelopeLen.
  repeat match goal with
         | |- context [if ?c then _ else _] => destruct c
         end; intros [= <-]; lia.
Qed.

(** A frame shorter than the position of its first record has no
    record to read. *)
Lemma checkEnvelope_short rxMsg start :
  checkEnvelope getPublishTopicName rxMsg = inr start ->
  msgLength rxMsg < start -> start = msgTypeLen.
Proof.
  unfold checkEnvelope, msgTypeLen, devbinEnvelopeLen.
  destruct (Z.leb_spec (2 + 2) (msgLength rxMsg)) as [Hlen | Hlen].
  - repeat match goal with
           | |- context [if ?c then _ else _] => destruct c
           end; intros [= <-]; lia.
  - intros [= <-]. reflexivity.
Qed.

(** C1, for a devbin frame: a message whose envelope is accepted.
    (1) If every record's [recordLen] is at least the documented 7
    bytes and fits the bytes that remain after its 2-byte prefix, the
    frame is processed to its end: it is a span of records, the loop
    body has run on each, and the bytes of the envelope and of the
    records are the bytes of the devbin frame, the message behind its
    2-byte type; for a message that holds those two bytes the position
    reached is its length.  (2) If, behind a span of records, the next
    record claims a [recordLen] larger than the bytes that remain after
    its prefix, processing returns there (at the header check when fewer
    than 9 bytes remain, at the length check otherwise), nothing is
    raised, and the manager is exactly the one the earlier records
    produced. *)
Theorem handleClientMsgBinary_records nowMs rxMsg m start :
  checkEnvelope getPublishTopicName rxMsg = inr start ->
  let caller := Z.to_nat (_debugMsgIndex m) in
  let m0 := with_debugMsgIndex (fun i => i + 1) m in
  (everyRecordValid (length rxMsg) rxMsg start = true ->
   exists recs endPos,
     RecordsSpan rxMsg start recs endPos /\
     handleClientMsgBinary nowMs rxMsg m
     = (FrameDone, endPos,
        processStateCallback
          (removeStaleDevices nowMs (processRecords nowMs caller rxMsg recs m0))) /\
     (start - msgTypeLen) + recordBytes recs = Z.of_nat (length (devbinFrame rxMsg)) /\
     (msgTypeLen <= msgLength rxMsg -> endPos = msgLength rxMsg)) /\
  (forall recs p,
     RecordsSpan rxMsg start recs p ->
     p < msgLength rxMsg ->
     msgLength rxMsg - p - recordLenLen < recordLenAt rxMsg p ->
     handleClientMsgBinary nowMs rxMsg m
     = (if msgLength rxMsg - p <? recordLenLen + recordHeaderLen
        then FrameShortRecord else FrameLengthOverrun,
        p, processRecords nowMs caller rxMsg recs m0)).
Proof.
  intros Henv caller m0.
  pose proof (checkEnvelope_start _ _ Henv) as Hstart.
  assert (Hrun : forall recs p,
            RecordsSpan rxMsg start recs p ->
            exists fuel',
              msgLength rxMsg - p <= Z.of_nat fuel' /\
              handleClientMsgBinary nowMs rxMsg m
              = match recordsLoop fuel' nowMs caller rxMsg p
                        (processRecords nowMs caller rxMsg recs m0) with
                | (FrameDone, endPos, m1) =>
                    (FrameDone, endPos,
                     processStateCallback (removeStaleDevices nowMs m1))
                | stopped => stopped
                end).
  { intros recs p Hspan.
    destruct (recordsLoop_span _ _ _ _ Hspan (length rxMsg) nowMs caller m0)
      as (fuel' & Hfuel' & Heq).
    { unfold msgLength. lia. }
    exists fuel'. split; [exact Hfuel' |].
    unfold RaftDeviceManager.handleClientMsgBinary.
    rewrite Henv. fold caller m0. rewrite Heq. reflexivity. }
  split.
  - intros Hvalid. apply everyRecordValid_complete in Hvalid.
    assert (Hdone : forall recs endPos,
              RecordsSpan rxMsg start recs endPos ->
              msgLength rxMsg <= endPos ->
              handleClientMsgBinary nowMs rxMsg m
              = (FrameDone, endPos,
                 processStateCallback
                   (removeStaleDevices nowMs
                      (processRecords nowMs caller rxMsg recs m0)))).
    { intros recs endPos Hspan Hend.
      destruct (Hrun _ _ Hspan) as (fuel' & _ & ->).
      destruct fuel'; cbn [RaftDeviceManager.recordsLoop];
        (destruct (Z.ltb_spec endPos (msgLength rxMsg)); [lia | reflexivity]). }
    pose proof (devbinFrame_length rxMsg) as Hframe.
    destruct (Z.le_gt_cases start (msgLength rxMsg)) as [Hle | Hgt].
    + destruct (everyRecordComplete_span _ _ _ Hle Hvalid) as (recs & Hspan).
      exists recs, (msgLength rxMsg). split; [exact Hspan |].
      split; [apply Hdone; [exact Hspan | lia] |].
      apply RecordsSpan_end in Hspan. unfold msgTypeLen in *. split; lia.
    + pose proof (checkEnvelope_short _ _ Henv ltac:(lia)) as Hs.
      exists [], start. split; [constructor |].
      split; [apply Hdone; [constructor | lia] |].
      cbn [recordBytes fold_right]. unfold msgTypeLen in *. split; lia.
  - intros recs p Hspan Hlt Hover.
    destruct (Hrun _ _ Hspan) as (fuel' & Hfuel' & ->).
    destruct fuel' as [| fuel']; [lia |].
    cbn [RaftDeviceManager.recordsLoop].
    destruct (Z.ltb_spec p (msgLength rxMsg)); [| lia].
    destruct (Z.ltb_spec (msgLength rxMsg - p) (recordLenLen + recordHeaderLen));
      [reflexivity |].
    destruct (Z.ltb_spec (msgLength rxMsg - p - recordLenLen) (recordLenAt rxMsg p));
      [reflexivity | lia].
Qed.

(** Registration keeps the list of device-removed callbacks free of
    duplicates. *)
Lemma addDeviceRemovedCallback_NoDup cb m :
  NoDup (_deviceRemovedCallbacks (callbacks m)) ->
  NoDup (_deviceRemovedCallbacks (callbacks (addDeviceRemovedCallback cb m))).
Proof.
  intros Hnodup. unfold addDeviceRemovedCallback.
  destruct (includes (_deviceRemovedCallbacks (callbacks m)) cb) eqn:Hin;
    [assumption |].
  cbn. apply NoDup_app. split; [assumption |]. split; [| apply NoDup_singleton].
  intros x Hx Hcb. apply list_elem_of_singleton in Hcb. subst x.
  unfold includes in Hin.
  assert (Hex : existsb (Nat.eqb cb) (_deviceRemovedCallbacks (callbacks m)) = true).
  { apply existsb_exists. exists cb. split; [| apply Nat.eqb_refl].
    apply list_elem_of_In. exact Hx. }
  congruence.
Qed.

(** C4: a record with bit 6 of the status byte set, for a device that
    is in the state store, removes the device from the state store,
    from the statistics and from the last-update times; no other
    device state is touched and no request is made; the trace grows by
    one device-removed event for each registered callback, in
    registration order, each carrying the device state with
    [onlineState] set to [PendingDeletion]. *)
Theorem processRecord_pending_deletion nowMs caller rxMsg msgPos recordLen m d :
  Z.land (recordStatusByte rxMsg msgPos) 0x40 <> 0 ->
  _devicesState m !! recordDeviceKey rxMsg msgPos = Some d ->
  NoDup (_deviceRemovedCallbacks (callbacks m)) ->
  let deviceKey := recordDeviceKey rxMsg msgPos in
  let m' := processRecord nowMs caller rxMsg msgPos recordLen m in
  let fired :=
    map (fun cb => EvDeviceRemoved cb deviceKey (set_onlineState PendingDeletion d))
      (_deviceRemovedCallbacks (callbacks m)) in
  _devicesState m' = delete deviceKey (_devicesState m) /\
  _deviceStats m' = delete deviceKey (_deviceStats m) /\
  _deviceLastUpdateTime m' = delete deviceKey (_deviceLastUpdateTime m) /\
  _devicesState m' !! deviceKey = None /\
  _deviceStats m' !! deviceKey = None /\
  _deviceLastUpdateTime m' !! deviceKey = None /\
  typeCache m' = typeCache m /\
  trace m' = trace m ++ fired /\
  Forall (fun e => removedState e = Some PendingDeletion) fired /\
  (forall cb, In cb (_deviceRemovedCallbacks (callbacks m)) ->
              length (List.filter (removedBy cb) fired) = 1%nat).
Proof.
  intros Hbit Hdev Hnodup deviceKey m' fired.
  assert (Hm' : m' = removeDevice deviceKey
                       (with_lastUpdate (fun t => <[deviceKey := nowMs]> t) m)).
  { subst m'. unfold RaftDeviceManager.processRecord.
    destruct (Z.eqb_spec (Z.land (recordStatusByte rxMsg msgPos) 64) 0) as [E | _];
      [contradiction | reflexivity]. }
  rewrite Hm'. unfold removeDevice. cbn. fold deviceKey in Hdev. rewrite Hdev. cbn.
  rewrite delete_insert_eq.
  repeat split; try apply lookup_delete_eq.
  - subst fired. generalize (_deviceRemovedCallbacks (callbacks m)).
    intros l. induction l; constructor; [reflexivity | assumption].
  - intros cb Hin. subst fired.
    induction (_deviceRemovedCallbacks (callbacks m)) as [| c cs IH]; [destruct Hin |].
    apply NoDup_cons in Hnodup as [Hc Hcs]. cbn.
    destruct (Nat.eqb_spec c cb) as [-> | Hne].
    + cbn. f_equal.
      assert (Hnone : forall l, ~ In cb l ->
                List.filter (removedBy cb)
                  (map (fun cb0 => EvDeviceRemoved cb0 deviceKey
                                     (set_onlineState PendingDeletion d)) l) = []).
      { induction l as [| x l IHl]; [reflexivity |]. intros Hx. cbn.
        destruct (Nat.eqb_spec x cb) as [-> | _].
        - exfalso. apply Hx. left. reflexivity.
        - apply IHl. intros Hl. apply Hx. right. assumption. }
      rewrite Hnone; [reflexivity |].
      intros Hl. apply Hc. rewrite list_elem_of_In. exact Hl.
    + apply IH; [assumption |]. destruct Hin as [Heq | Hin]; [congruence | assumption].
Qed.

End WithEnvironment.

Lemma handleClientMsgBinary_records_witness :
  checkEnvelope None overrunFrame = inr 4 /\
  RecordsSpan overrunFrame 4 [(4, 7)] 13 /\
  handleClientMsgBinary (Some refuse) None noDecode 1000 overrunFrame newDeviceManager
  = (FrameLengthOverrun, 13,
     processRecords (Some refuse) noDecode 1000 0 overrunFrame [(4, 7)]
       (with_debugMsgIndex (fun i => i + 1) newDeviceManager)) /\
  checkEnvelope None deletionFrame = inr 4 /\
  everyRecordValid (length deletionFrame) deletionFrame 4 = true /\
  snd (fst (handleClientMsgBinary (Some refuse) None noDecode 1000 deletionFrame
              oneDevice)) = msgLength deletionFrame.
Proof.
  assert (Hspan : RecordsSpan overrunFrame 4 [(4, 7)] 13).
  { refine (span_record overrunFrame 4 [] 13 _ _ _ (span_here overrunFrame 13));
      vm_compute; congruence. }
  split; [reflexivity |]. split; [exact Hspan |]. split.
  - refine (proj2 (handleClientMsgBinary_records (Some refuse) None noDecode 1000
                     overrunFrame newDeviceManager 4 eq_refl) [(4, 7)] 13 Hspan _ _);
      vm_compute; congruence.
  - split; [reflexivity |]. split; [reflexivity |].
    destruct (proj1 (handleClientMsgBinary_records (Some refuse) None noDecode 1000
                       deletionFrame oneDevice 4 eq_refl) eq_refl)
      as (recs & endPos & _ & -> & _ & Hend).
    apply Hend. vm_compute. congruence.
Defined.

Lemma processRecord_pending_deletion_witness :
  Z.land (recordStatusByte deletionFrame 4) 0x40 <> 0 /\
  _devicesState oneDevice !! "1_76a"%string
  = Some (newDeviceState servoInfo "1" "76a") /\
  _devicesState (processRecord (Some refuse) noDecode 1000 0 deletionFrame 4 7 oneDevice)
    !! "1_76a"%string = None /\
  length (List.filter (removedBy 7)
            (trace (snd (handleClientMsgBinary (Some refuse) None noDecode 1000
                           deletionFrame oneDevice)))) = 1%nat.
Proof.
  assert (Hbit : Z.land (recordStatusByte deletionFrame 4) 0x40 <> 0)
    by (vm_compute; congruence).
  assert (Hnodup : NoDup (_deviceRemovedCallbacks (callbacks oneDevice))).
  { change (NoDup [7%nat; 9%nat]).
    apply (bool_decide_unpack (NoDup [7%nat; 9%nat])). vm_compute. exact I. }
  split; [exact Hbit |]. split; [reflexivity |]. split; [| vm_compute; reflexivity].
  exact (proj1 (proj2 (proj2 (proj2
    (processRecord_pending_deletion (Some refuse) noDecode 1000 0%nat deletionFrame
       4 7 oneDevice (newDeviceState servoInfo "1" "76a") Hbit eq_refl Hnodup))))).
Defined.

End BinaryParserProps.

(** ** The device-type cache *)

Module TypeCacheProps.
Import Js RaftDeviceStates RaftDeviceManager Scenarios.

(** A decimal numeral is not the name of a member of
    [Object.prototype]. *)
Lemma inherited_digit d r :
  0 <= d < 10 -> inherited (String (digitChar d) r) = false.
Proof.
  intros Hd.
  assert (Hcases : d = 0 \/ d = 1 \/ d = 2 \/ d = 3 \/ d = 4 \/ d = 5 \/ d = 6
                   \/ d = 7 \/ d = 8 \/ d = 9) by lia.
  repeat (destruct Hcases as [-> | Hcases]; [reflexivity |]). subst d. reflexivity.
Qed.

Lemma digitsAcc_head fuel : forall n acc,
  (exists d r, 0 <= d < 10 /\ acc = String (digitChar d) r) ->
  exists d r, 0 <= d < 10 /\ digitsAcc fuel 10 n acc = String (digitChar d) r.
Proof.
  induction fuel as [| fuel IH]; intros n acc Hacc; cbn [digitsAcc]; [exact Hacc |].
  assert (Hstep : exists d r, 0 <= d < 10
                    /\ String (digitChar (n mod 10)) acc = String (digitChar d) r).
  { exists (n mod 10), acc. split; [apply Z.mod_pos_bound; lia | reflexivity]. }
  destruct (n / 10 =? 0); [exact Hstep | apply IH; exact Hstep].
Qed.

Lemma inherited_intDigits n : inherited (intDigits 10 n) = false.
Proof.
  assert (Hnat : forall k, inherited (natDigits 10 k) = false).
  { intros k. unfold natDigits. cbn [digitsAcc].
    assert (Hstep : exists d r, 0 <= d < 10
                      /\ String (digitChar (k mod 10)) EmptyString
                         = String (digitChar d) r).
    { exists (k mod 10), EmptyString. split; [apply Z.mod_pos_bound; lia | reflexivity]. }
    destruct (k / 10 =? 0).
    - apply inherited_digit. apply Z.mod_pos_bound. lia.
    - destruct (digitsAcc_head (Z.to_nat (Z.log2 k)) (k / 10) _ Hstep)
        as (d & r & Hd & ->).
      apply inherited_digit. exact Hd. }
  unfold intDigits. destruct (n <? 0); [reflexivity | apply Hnat].
Qed.

(** The record loop asks for a decimal numeral: its call never returns
    an inherited member. *)
Lemma getDeviceTypeInfo_call_decimal msgHandler nowMs caller busName devTypeIdx m name :
  fst (getDeviceTypeInfo_call msgHandler nowMs caller busName
         (intDigits 10 devTypeIdx) m) <> ReturnedMember name.
Proof.
  unfold getDeviceTypeInfo_call, hasProperty.
  rewrite inherited_intDigits.
  destruct (_cachedDeviceTypeRecs (typeCache m) !! intDigits 10 devTypeIdx);
    [discriminate |].
  destruct (_pendingDeviceTypeRequests (typeCache m) !! intDigits 10 devTypeIdx);
    [discriminate |].
  destruct (rateLimited _ _ _); [discriminate |].
  destruct msgHandler; discriminate.
Qed.

Section WithHandler.

Variable msgHandler : option (string -> RestReply).
Variable deviceType : string.

Abbreviation cachedAt m := (_cachedDeviceTypeRecs (typeCache m) !! deviceType).
Abbreviation pendingAt m := (_pendingDeviceTypeRequests (typeCache m) !! deviceType).
Abbreviation call := (getDeviceTypeInfo_call msgHandler).

Lemma call_cached nowMs caller busName m v :
  cachedAt m = Some v ->
  call nowMs caller busName deviceType m
  = (Returned v, emit [EvResolved caller v] m).
Proof.
  intros H. unfold getDeviceTypeInfo_call, hasProperty. rewrite H. reflexivity.
Qed.

(** For the name of an inherited member that is not cached, the call
    returns the member at once; nothing is fetched and nothing is
    recorded. *)
Lemma call_inherited nowMs caller busName m :
  inherited deviceType = true ->
  cachedAt m = None ->
  call nowMs caller busName deviceType m
  = (ReturnedMember deviceType, emit [EvResolvedMember caller deviceType] m).
Proof.
  intros Hname H. unfold getDeviceTypeInfo_call, hasProperty. rewrite H, Hname.
  reflexivity.
Qed.

(** From here on the device type is not the name of an inherited
    member. *)
Hypothesis notInherited : inherited deviceType = false.

Lemma call_pending nowMs caller busName m req :
  cachedAt m = None ->
  pendingAt m = Some req ->
  call nowMs caller busName deviceType m
  = (Suspended,
     with_typeCache
       (set_pending (fun p =>
          <[deviceType := mkPending (reqOwner req) (reqBus req) (reqPromise req)
                            (waitingQueue req ++ [caller])]> p)) m).
Proof.
  intros Hc Hp. unfold getDeviceTypeInfo_call, hasProperty.
  rewrite Hc, notInherited, Hp. reflexivity.
Qed.

(** The first call of a flight issues the request. *)
Lemma call_first nowMs caller busName m :
  cachedAt m = None ->
  pendingAt m = None ->
  rateLimited nowMs deviceType m = false ->
  let m1 := snd (call nowMs caller busName deviceType m) in
  trace m1
  = trace m ++ EvExecuteRequest busName deviceType
      :: (if msgHandler is Some _ then [EvSendREST (typeInfoCmd busName deviceType)] else []) /\
  cachedAt m1 = None /\
  pendingAt m1
  = Some (mkPending caller busName (if msgHandler is Some _ then None else Some None) []).
Proof.
  intros Hc Hp Hr. unfold getDeviceTypeInfo_call, hasProperty.
  rewrite Hc, notInherited, Hp, Hr.
  destruct msgHandler; cbn -[typeInfoCmd].
  - rewrite <- app_assoc. repeat split; [assumption | apply lookup_insert_eq].
  - repeat split; [assumption | apply lookup_insert_eq].
Qed.

Lemma callAll_cons nowMs caller busName calls m :
  callAll msgHandler deviceType ((nowMs, caller, busName) :: calls) m
  = callAll msgHandler deviceType calls
      (snd (call nowMs caller busName deviceType m)).
Proof. reflexivity. Qed.

(** Calls made while the request is pending and nothing is cached queue
    up behind it and do nothing else. *)
Lemma callAll_pending calls : forall m req,
  cachedAt m = None ->
  pendingAt m = Some req ->
  let m' := callAll msgHandler deviceType calls m in
  trace m' = trace m /\
  cachedAt m' = None /\
  pendingAt m'
  = Some (mkPending (reqOwner req) (reqBus req) (reqPromise req)
            (waitingQueue req ++ callers calls)).
Proof.
  induction calls as [| [[nowMs caller] busName] calls IH]; intros m req Hc Hp m';
    subst m'.
  - cbn. rewrite app_nil_r. destruct req. repeat split; assumption.
  - rewrite callAll_cons, (call_pending _ _ _ _ _ Hc Hp). cbn [snd].
    match goal with
    | |- context [callAll _ _ calls ?m1] =>
        destruct (IH m1 (mkPending (reqOwner req) (reqBus req) (reqPromise req)
                           (waitingQueue req ++ [caller])))
          as (Ht & Hc' & Hp')
    end.
    + exact Hc.
    + cbn. apply lookup_insert_eq.
    + cbn in Ht, Hp'. rewrite <- app_assoc in Hp'. repeat split; assumption.
Qed.

(** Calls made once the schema is cached return it at once. *)
Lemma callAll_cached calls : forall m v,
  cachedAt m = Some v ->
  let m' := callAll msgHandler deviceType calls m in
  trace m' = trace m ++ map (fun c => EvResolved c v) (callers calls) /\
  typeCache m' = typeCache m.
Proof.
  induction calls as [| [[nowMs caller] busName] calls IH]; intros m v Hc m';
    subst m'.
  - cbn. rewrite app_nil_r. split; reflexivity.
  - rewrite callAll_cons, (call_cached _ _ _ _ _ Hc). cbn [snd].
    destruct (IH (emit [EvResolved caller v] m) v Hc) as (Ht & Htc).
    cbn in Ht, Htc. rewrite <- app_assoc in Ht. split; assumption.
Qed.

(** The reply settles the promise of the pending request and, when it
    says "ok", caches the schema. *)
Lemma reply_effect reply m req :
  pendingAt m = Some req ->
  reqPromise req = None ->
  let m' := executeDeviceTypeInfoRequest_reply deviceType reply m in
  let r := match reply with RestOk devinfo => devinfo | _ => None end in
  trace m' = trace m /\
  cachedAt m' = (if reply is RestOk devinfo then Some devinfo else cachedAt m) /\
  pendingAt m'
  = Some (mkPending (reqOwner req) (reqBus req) (Some r) (waitingQueue req)).
Proof.
  intros Hp Hnone. unfold executeDeviceTypeInfoRequest_reply. rewrite Hp, Hnone.
  destruct reply; cbn; repeat split; apply lookup_insert_eq.
Qed.

Lemma reply_settled reply m req r :
  pendingAt m = Some req ->
  reqPromise req = Some r ->
  executeDeviceTypeInfoRequest_reply deviceType reply m = m.
Proof.
  intros Hp Hr. unfold executeDeviceTypeInfoRequest_reply. rewrite Hp, Hr. reflexivity.
Qed.

Lemma resume_effect m req r :
  pendingAt m = Some req ->
  reqPromise req = Some r ->
  let m' := getDeviceTypeInfo_resume deviceType m in
  trace m'
  = trace m ++ EvResolved (reqOwner req) r
      :: map (fun c => EvResolved c r) (waitingQueue req) /\
  pendingAt m' = None.
Proof.
  intros Hp Hr. unfold getDeviceTypeInfo_resume. rewrite Hp, Hr. cbn.
  split; [reflexivity | apply lookup_delete_eq].
Qed.

Lemma requestsExecuted_resolved r cs :
  requestsExecuted (map (fun c => EvResolved c r) cs) = [].
Proof. induction cs; [reflexivity | exact IHcs]. Qed.

Lemma requestsSent_resolved r cs :
  requestsSent (map (fun c => EvResolved c r) cs) = [].
Proof. induction cs; [reflexivity | exact IHcs]. Qed.

Lemma memberResolutions_resolved r cs :
  memberResolutions (map (fun c => EvResolved c r) cs) = [].
Proof. induction cs; [reflexivity | exact IHcs]. Qed.

Lemma resolutions_app evs1 evs2 :
  resolutions (evs1 ++ evs2) = resolutions evs1 ++ resolutions evs2.
Proof. apply omap_app. Qed.

Lemma resolutions_resolved r cs :
  resolutions (map (fun c => EvResolved c r) cs) = map (fun c => (c, r)) cs.
Proof. induction cs; [reflexivity | cbn; f_equal; exact IHcs]. Qed.

(** What a flight adds to the trace, whatever the order of the
    resolutions: the call of [executeDeviceTypeInfoRequest], the command
    it sends when there is a message handler, and resolutions. *)
Lemma flight_trace busName r (before owner behind : list nat) :
  let sent := if msgHandler is Some _
              then [EvSendREST (typeInfoCmd busName deviceType)] else [] in
  let new := (EvExecuteRequest busName deviceType :: sent)
             ++ map (fun c => EvResolved c r) before
             ++ map (fun c => EvResolved c r) owner
             ++ map (fun c => EvResolved c r) behind in
  requestsExecuted new = [(busName, deviceType)] /\
  requestsSent new
  = (if msgHandler is Some _ then [typeInfoCmd busName deviceType] else []) /\
  memberResolutions new = [] /\
  resolutions new = map (fun c => (c, r)) (before ++ owner ++ behind).
Proof.
  intros sent new. subst new.
  unfold requestsExecuted, requestsSent, memberResolutions.
  rewrite !resolutions_app, !omap_app, !resolutions_resolved.
  fold (requestsExecuted (map (fun c => EvResolved c r) before)).
  fold (requestsExecuted (map (fun c => EvResolved c r) owner)).
  fold (requestsExecuted (map (fun c => EvResolved c r) behind)).
  fold (requestsSent (map (fun c => EvResolved c r) before)).
  fold (requestsSent (map (fun c => EvResolved c r) owner)).
  fold (requestsSent (map (fun c => EvResolved c r) behind)).
  fold (memberResolutions (map (fun c => EvResolved c r) before)).
  fold (memberResolutions (map (fun c => EvResolved c r) owner)).
  fold (memberResolutions (map (fun c => EvResolved c r) behind)).
  rewrite !requestsExecuted_resolved, !requestsSent_resolved,
    !memberResolutions_resolved, !app_nil_r, !map_app.
  subst sent. destruct msgHandler; repeat split; reflexivity.
Qed.

(** C2, as the code has it: for a device type that is not in the cache
    object (nothing is cached under it and it is not the name of an
    inherited member), has no request pending and is not rate limited
    when the first call arrives, any number of calls made while the
    request is in flight (before or after its reply arrives, until the
    first caller is resumed) cause exactly one call of
    [executeDeviceTypeInfoRequest], which sends exactly one request when
    there is a message handler and none when there is not; the promise
    of every caller is resolved exactly once, all with the value the
    request settled with; and the pending entry is deleted. *)
Theorem getDeviceTypeInfo_single_flight
    (nowMs : Z) (caller : nat) (busName : string)
    (during after : list (Z * nat * string)) (reply : RestReply)
    (m : DeviceManager) :
  cachedAt m = None ->
  pendingAt m = None ->
  rateLimited nowMs deviceType m = false ->
  let m' := singleFlight msgHandler deviceType (nowMs, caller, busName)
              during reply after m in
  let r := settledWith msgHandler reply in
  exists new,
    trace m' = trace m ++ new /\
    requestsExecuted new = [(busName, deviceType)] /\
    requestsSent new
    = (if msgHandler is Some _ then [typeInfoCmd busName deviceType] else []) /\
    resolutions new
      ≡ₚ map (fun c => (c, r)) (caller :: callers during ++ callers after) /\
    memberResolutions new = [] /\
    pendingAt m' = None.
Proof.
  intros Hc Hp Hr m' r. subst m'. unfold singleFlight.
  rewrite callAll_cons.
  destruct (call_first nowMs caller busName m Hc Hp Hr) as (Ht1 & Hc1 & Hp1).
  set (m1 := snd (call nowMs caller busName deviceType m)) in *.
  destruct (callAll_pending during m1 _ Hc1 Hp1) as (Ht2 & Hc2 & Hp2).
  set (m2 := callAll msgHandler deviceType during m1) in *.
  cbn [reqOwner reqBus reqPromise waitingQueue app] in Hp2.
  set (sent := if msgHandler is Some _
               then [EvSendREST (typeInfoCmd busName deviceType)] else []) in *.
  assert (Hsettled :
    exists m3,
      executeDeviceTypeInfoRequest_reply deviceType reply m2 = m3 /\
      trace m3 = trace m2 /\
      pendingAt m3 = Some (mkPending caller busName (Some r) (callers during)) /\
      (cachedAt m3 = None \/ cachedAt m3 = Some r)).
  { eexists. split; [reflexivity |]. subst r. unfold settledWith.
    destruct msgHandler as [send |].
    - destruct (reply_effect reply m2 _ Hp2 eq_refl) as (Ht3 & Hc3 & Hp3).
      cbn [reqOwner reqBus reqPromise waitingQueue] in Hp3.
      split; [exact Ht3 |]. split; [exact Hp3 |].
      rewrite Hc3. destruct reply; [right; reflexivity | left; exact Hc2 ..].
    - rewrite (reply_settled reply m2 _ None Hp2 eq_refl).
      split; [reflexivity |]. split; [exact Hp2 | left; exact Hc2]. }
  destruct Hsettled as (m3 & -> & Ht3 & Hp3 & Hc3).
  subst sent.
  destruct Hc3 as [Hc3 | Hc3].
  - destruct (callAll_pending after m3 _ Hc3 Hp3) as (Ht4 & _ & Hp4).
    cbn [reqOwner reqBus reqPromise waitingQueue] in Hp4.
    destruct (resume_effect _ _ r Hp4 eq_refl) as (Ht5 & Hp5).
    cbn [reqOwner waitingQueue] in Ht5.
    destruct (flight_trace busName r [] [caller] (callers during ++ callers after))
      as (He & Hs & Hm & Hres).
    exists ((EvExecuteRequest busName deviceType
               :: (if msgHandler is Some _
                   then [EvSendREST (typeInfoCmd busName deviceType)] else []))
            ++ map (fun c => EvResolved c r) []
            ++ map (fun c => EvResolved c r) [caller]
            ++ map (fun c => EvResolved c r) (callers during ++ callers after)).
    split.
    { rewrite Ht5, Ht4, Ht3, Ht2, Ht1, <- app_assoc. reflexivity. }
    repeat split; [exact He | exact Hs | | exact Hm | exact Hp5].
    rewrite Hres. reflexivity.
  - destruct (callAll_cached after m3 r Hc3) as (Ht4 & Htc4).
    assert (Hp4 : pendingAt (callAll msgHandler deviceType after m3)
                  = Some (mkPending caller busName (Some r) (callers during)))
      by (rewrite Htc4; exact Hp3).
    destruct (resume_effect _ _ r Hp4 eq_refl) as (Ht5 & Hp5).
    cbn [reqOwner waitingQueue] in Ht5.
    destruct (flight_trace busName r (callers after) [caller] (callers during))
      as (He & Hs & Hm & Hres).
    exists ((EvExecuteRequest busName deviceType
               :: (if msgHandler is Some _
                   then [EvSendREST (typeInfoCmd busName deviceType)] else []))
            ++ map (fun c => EvResolved c r) (callers after)
            ++ map (fun c => EvResolved c r) [caller]
            ++ map (fun c => EvResolved c r) (callers during)).
    split.
    { rewrite Ht5, Ht4, Ht3, Ht2, Ht1, <- !app_assoc. reflexivity. }
    repeat split; [exact He | exact Hs | | exact Hm | exact Hp5].
    rewrite Hres. apply Permutation_map.
    rewrite (Permutation_app_comm (callers after)). cbn [app].
    rewrite (Permutation_app_comm (callers during)). reflexivity.
Qed.

End WithHandler.

Lemma getDeviceTypeInfo_single_flight_witness :
  inherited "12" = false /\
  rateLimited 0 "12" newDeviceManager = false /\
  exists new,
    trace (singleFlight (Some accept) "12" (0, 1%nat, "bus0"%string)
             (drop 1 (fiveCalls 0)) (RestOk (Some servoInfo)) [] newDeviceManager)
    = trace newDeviceManager ++ new /\
    requestsSent new = [typeInfoCmd "bus0" "12"] /\
    resolutions new
      ≡ₚ map (fun c => (c, Some servoInfo)) [1; 2; 3; 4; 5]%nat.
Proof.
  split; [reflexivity |]. split; [reflexivity |].
  destruct (getDeviceTypeInfo_single_flight (Some accept) "12" eq_refl 0 1%nat "bus0"
              (drop 1 (fiveCalls 0)) [] (RestOk (Some servoInfo)) newDeviceManager
              eq_refl eq_refl eq_refl) as (new & Ht & _ & Hs & Hres & _).
  exists new. split; [exact Ht |]. split; [exact Hs | exact Hres].
Defined.

(** C2 as the specification words it fails for a device type whose
    earlier fetch failed less than the retry interval ago: nothing is
    cached, five calls arrive together, and no request is sent. *)
Lemma getDeviceTypeInfo_rate_limited_no_fetch :
  ~ (_cachedDeviceTypeRecs (typeCache afterFailedFetch) !! "12"%string = None ->
     length (requestsSent
               (trace (singleFlight (Some refuse) "12" (1000, 1%nat, "bus0"%string)
                         (drop 1 (fiveCalls 1000)) RestNotOk [] afterFailedFetch)))
     = S (length (requestsSent (trace afterFailedFetch)))).
Proof.
  intros H. specialize (H eq_refl). vm_compute in H. discriminate H.
Qed.

End TypeCacheProps.

(** ** The write path *)

Module ActionProps.
Import Js RaftDeviceStates RaftDeviceManager Scenarios.

Section WithEnvironment.

Variable msgHandler : option (string -> RestReply).
Variable structPack : string -> list Q -> list byte.

Abbreviation actionWriteBytes := (actionWriteBytes structPack).
Abbreviation actionCmd := (actionCmd structPack).
Abbreviation sendAction := (sendAction msgHandler structPack).
Abbreviation sendEach := (sendEach msgHandler structPack).
Abbreviation sendCompoundAction := (sendCompoundAction msgHandler structPack).

Lemma truthyStr_Some tc : tc <> EmptyString -> truthyStr (Some tc) = true.
Proof. destruct tc; [congruence | reflexivity]. Qed.

(** C9, as the code has it: for an action with a type code, a list of
    exactly one value is packed after the inverse conversion (subtract
    sub, then multiply by mul); a list of any other length is packed as
    it is, without conversion.  The bytes go, in hex between the declared
    prefix and postfix, into the one command [sendAction] sends. *)
Theorem sendAction_conversion (deviceKey : string) (action : DeviceTypeAction)
    (typeCode : string) (data : list Q) (m : DeviceManager) :
  act_t action = Some typeCode ->
  typeCode <> EmptyString ->
  (forall value, data = [value] ->
     actionWriteBytes action data
     = structPack typeCode [inverseConversion action value]) /\
  (length data <> 1%nat ->
     actionWriteBytes action data = structPack typeCode data) /\
  actionCmd deviceKey action data
  = ("devman/cmdraw?bus=" ++ fst (parseDeviceKey deviceKey)
     ++ "&addr=" ++ snd (parseDeviceKey deviceKey)
     ++ "&hexWr=" ++ orEmpty (act_w action)
     ++ toHex (actionWriteBytes action data) ++ orEmpty (act_wz action))%string /\
  (forall send, msgHandler = Some send ->
     trace (snd (sendAction deviceKey action data m))
     = trace m ++ [EvSendREST (actionCmd deviceKey action data)]).
Proof.
  intros Ht Hne. pose proof (truthyStr_Some typeCode Hne) as Htruthy.
  repeat split.
  - intros value ->. unfold RaftDeviceManager.actionWriteBytes, inverseConversion.
    rewrite Ht, Htruthy. reflexivity.
  - intros Hlen. unfold RaftDeviceManager.actionWriteBytes.
    rewrite Ht, Htruthy.
    destruct data as [| v [| w rest]]; [reflexivity | | reflexivity].
    cbn in Hlen. congruence.
  - unfold RaftDeviceManager.actionCmd. destruct (parseDeviceKey deviceKey).
    reflexivity.
  - intros send ->. unfold RaftDeviceManager.sendAction.
    destruct (send _); reflexivity.
Qed.

Lemma sendAction_ok send deviceKey action data m :
  msgHandler = Some send ->
  (forall cmd, exists devinfo, send cmd = RestOk devinfo) ->
  fst (sendAction deviceKey action data m) = true.
Proof.
  intros -> Hok. unfold RaftDeviceManager.sendAction.
  destruct (Hok (actionCmd deviceKey action data)) as (devinfo & ->). reflexivity.
Qed.

Lemma sendEach_all_ok send deviceKey action data : forall dataIdx m,
  msgHandler = Some send ->
  (forall cmd, exists devinfo, send cmd = RestOk devinfo) ->
  fst (sendEach deviceKey action dataIdx data true m) = true.
Proof.
  induction data as [| item rest IH]; intros dataIdx m Hh Hok; [reflexivity |].
  cbn [RaftDeviceManager.sendEach].
  pose proof (sendAction_ok send deviceKey action (inject_Z dataIdx :: item) m Hh Hok)
    as Hsent.
  destruct (sendAction deviceKey action (inject_Z dataIdx :: item) m) as [ok m1].
  cbn in Hsent. subst ok. apply IH; assumption.
Qed.

(** C10: for an action whose [concat] is unset or false and a non-empty
    list of per-index data, [sendCompoundAction] returns false; it does
    so even when the message handler answers "ok" to every command, so
    that every [sendAction] of the loop returned true and [allOk] is
    true when the loop ends. *)
Theorem sendCompoundAction_without_concat_false (deviceKey : string)
    (action : DeviceTypeAction) (data : list (list Q)) (m : DeviceManager) :
  default false (act_concat action) = false ->
  data <> [] ->
  fst (sendCompoundAction deviceKey action data m) = false /\
  (forall send, msgHandler = Some send ->
     (forall cmd, exists devinfo, send cmd = RestOk devinfo) ->
     fst (sendEach deviceKey action 0 data true m) = true).
Proof.
  intros Hconcat _. split.
  - unfold RaftDeviceManager.sendCompoundAction. rewrite Hconcat.
    destruct (sendEach deviceKey action 0 data true m). reflexivity.
  - intros send Hh Hok. apply (sendEach_all_ok send); assumption.
Qed.

End WithEnvironment.

Lemma sendAction_conversion_witness :
  act_t scaledAction = Some "B"%string /\
  actionWriteBytes packBytes scaledAction [3%Q] = packBytes "B" [inverseConversion scaledAction 3%Q] /\
  actionWriteBytes packBytes scaledAction [3%Q; 4%Q] = packBytes "B" [3%Q; 4%Q].
Proof.
  assert (Hne : "B"%string <> EmptyString) by congruence.
  pose proof (sendAction_conversion (Some accept) packBytes "1_76a" scaledAction "B"
                [3%Q] newDeviceManager eq_refl Hne) as (H1 & _).
  pose proof (sendAction_conversion (Some accept) packBytes "1_76a" scaledAction "B"
                [3%Q; 4%Q] newDeviceManager eq_refl Hne) as (_ & H2 & _).
  split; [reflexivity |]. split; [apply H1; reflexivity | apply H2; cbn; congruence].
Defined.

(** C9 as the specification words it fails for a list of two values:
    with sub = 1 and mul = 2 the values 3 and 4 are packed as they are,
    not as 4 and 6. *)
Lemma sendAction_two_values_not_converted :
  ~ (actionWriteBytes packBytes scaledAction [3%Q; 4%Q]
     = packBytes "B" (map (inverseConversion scaledAction) [3%Q; 4%Q])).
Proof. vm_compute. discriminate. Qed.

Lemma sendCompoundAction_without_concat_false_witness :
  default false (act_concat scaledAction) = false /\
  fst (sendAction (Some accept) packBytes "1_76a" scaledAction [0%Q; 5%Q]
         newDeviceManager) = true /\
  fst (sendCompoundAction (Some accept) packBytes "1_76a" scaledAction
         [[5%Q]; [6%Q]] newDeviceManager) = false.
Proof.
  assert (Hne : [[5%Q]; [6%Q]] <> []) by congruence.
  split; [reflexivity |]. split; [reflexivity |].
  exact (proj1 (sendCompoundAction_without_concat_false (Some accept) packBytes
                  "1_76a" scaledAction [[5%Q]; [6%Q]] newDeviceManager eq_refl Hne)).
Defined.

End ActionProps.

(** ** Markers of a JSON device entry *)

Module MarkerProps.
Import Js RaftDeviceStates RaftDeviceManager Scenarios.

Lemma getProp_None entries k :
  ~ In k (map fst entries) -> getProp entries k = None.
Proof.
  induction entries as [| [k' v] entries IH]; [reflexivity |].
  cbn. intros Hk. destruct (String.eqb_spec k' k) as [-> | _].
  - exfalso. apply Hk. left. reflexivity.
  - apply IH. intros Hin. apply Hk. right. exact Hin.
Qed.

(** The loop of [extractMarkers] over an entry whose keys are all
    different, from an object that has no own [__proto__] and, unless
    the key is behind it, its first prototype. *)
Lemma extractMarkers_fold entries : forall acc : MarkerObject,
  NoDup (map fst entries) ->
  markerProps acc !! "__proto__"%string = None ->
  markerProto acc = None \/ ~ In "__proto__"%string (map fst entries) ->
  let markers :=
    fold_left
      (fun markers '(key, value) =>
         if keptAsMarker key then setMarker key value markers else markers)
      entries acc in
  (forall k,
     markerProps markers !! k
     = if keptAsMarker k && negb (String.eqb k "__proto__")
       then match getProp entries k with
            | Some v => Some v
            | None => markerProps acc !! k
            end
       else markerProps acc !! k) /\
  markerProto markers
  = match getProp entries "__proto__" with
    | Some v => if isObjectOrNull v then Some v else markerProto acc
    | None => markerProto acc
    end.
Proof.
  induction entries as [| [key value] entries IH]; intros acc Hnodup Hown Hproto.
  - cbn. split; [| reflexivity]. intros k.
    destruct (keptAsMarker k && negb (String.eqb k "__proto__")); reflexivity.
  - cbn [map fst] in Hnodup. apply NoDup_cons in Hnodup as [Hkey Hnodup].
    rewrite list_elem_of_In in Hkey.
    cbn [fold_left getProp].
    destruct (keptAsMarker key) eqn:Hkept.
    + destruct (String.eqb_spec key "__proto__") as [-> | Hne].
      * assert (Hfirst : markerProto acc = None).
        { destruct Hproto as [H | H]; [exact H |]. exfalso. apply H. left. reflexivity. }
        assert (Hset : setMarker "__proto__" value acc
                       = if isObjectOrNull value
                         then mkMarkers (markerProps acc) (Some value) else acc).
        { unfold setMarker, reachesProtoAccessor. rewrite Hown, Hfirst. reflexivity. }
        rewrite Hset.
        set (acc' := if isObjectOrNull value
                     then mkMarkers (markerProps acc) (Some value) else acc).
        assert (Hprops : markerProps acc' = markerProps acc)
          by (subst acc'; destruct (isObjectOrNull value); reflexivity).
        destruct (IH acc' Hnodup) as (IHprops & IHproto).
        { rewrite Hprops. exact Hown. }
        { right. exact Hkey. }
        split.
        -- intros k. rewrite IHprops, Hprops.
           destruct (String.eqb_spec "__proto__" k) as [<- | Hk].
           ++ rewrite andb_false_r. reflexivity.
           ++ reflexivity.
        -- rewrite IHproto, (getProp_None _ _ Hkey). subst acc'.
           destruct (isObjectOrNull value); reflexivity.
      * assert (Hset : setMarker key value acc
                       = mkMarkers (<[key := value]> (markerProps acc))
                           (markerProto acc)).
        { unfold setMarker. destruct (String.eqb_spec key "__proto__"); [contradiction |].
          reflexivity. }
        rewrite Hset.
        destruct (IH (mkMarkers (<[key := value]> (markerProps acc)) (markerProto acc))
                    Hnodup) as (IHprops & IHproto).
        { cbn. rewrite lookup_insert_ne by exact Hne. exact Hown. }
        { destruct Hproto as [H | H]; [left; exact H |].
          right. intros Hin. apply H. right. exact Hin. }
        split.
        -- intros k. rewrite IHprops. cbn [markerProps].
           destruct (String.eqb_spec key k) as [<- | Hk].
           ++ rewrite (getProp_None _ _ Hkey), lookup_insert_eq, Hkept.
              destruct (String.eqb_spec key "__proto__"); [contradiction |].
              reflexivity.
           ++ rewrite lookup_insert_ne by exact Hk. reflexivity.
        -- rewrite IHproto. cbn [markerProto].
           destruct (String.eqb_spec key "__proto__"); [contradiction | reflexivity].
    + assert (Hne : key <> "__proto__"%string) by (intros ->; discriminate Hkept).
      destruct (IH acc Hnodup Hown) as (IHprops & IHproto).
      { destruct Hproto as [H | H]; [left; exact H |].
        right. intros Hin. apply H. right. exact Hin. }
      split.
      * intros k. rewrite IHprops.
        destruct (String.eqb_spec key k) as [<- | Hk]; [| reflexivity].
        rewrite Hkept. reflexivity.
      * rewrite IHproto.
        destruct (String.eqb_spec key "__proto__"); [contradiction | reflexivity].
Qed.

(** C8, the code at a device entry that names its type by [_i]: the
    reserved key is kept as a marker, and the decoded-data event of the
    entry carries it, with the offline-buffer flag set to false. *)
Theorem extractMarkers_keeps_type_index :
  getProp [("_i"%string, JNumber 5); ("x1"%string, JString "0100")] "_i"
  = Some (JNumber 5) /\
  markerProps (extractMarkers typeIndexEntry) !! "_i"%string = Some (JNumber 5) /\
  markerProps (extractMarkers typeIndexEntry) !! "x1"%string = None /\
  (fun decoded =>
     (dd_markers decoded ≫= (fun markers => markerProps markers !! "_i"%string),
      dd_fromOfflineBuffer decoded))
    <$> omap decodedOf (trace indexedReport)
  = [(Some (JNumber 5), Some false)].
Proof. repeat split; vm_compute; reflexivity. Qed.

End MarkerProps.

(** ** The bounded history *)

Module HistoryProps.
Import Js RaftDeviceStates RaftDeviceManager RaftAttributeHandler Scenarios.

(** *** The cap the record loop passes on *)








(** *** The bounded history *)














End HistoryProps.

(** ** Display formatting *)

Module FormatProps.
Import Js RaftDeviceStates Scenarios.

Open Scope string_scope.

#[local] Arguments String.append !_ _ / : simpl nomatch.

(** *** Strings *)

Lemma length_append (a b : string) :
  String.length (a ++ b) = (String.length a + String.length b)%nat.
Proof.
  induction a as [| c a IH]; [reflexivity |].
  simpl. f_equal. exact IH.
Qed.

Lemma substring_all (s : string) : String.substring 0 (String.length s) s = s.
Proof. induction s as [| c s IH]; simpl; [reflexivity | rewrite IH; reflexivity]. Qed.

Lemma substring_prefix (a b : string) :
  String.substring 0 (String.length a) (a ++ b) = a.
Proof.
  induction a as [| c a IH]; simpl.
  - destruct b; reflexivity.
  - rewrite IH. reflexivity.
Qed.

Lemma append_assoc (a b c : string) : (a ++ b) ++ c = a ++ (b ++ c).
Proof. induction a as [| x a IH]; simpl; [reflexivity | rewrite IH; reflexivity]. Qed.

Lemma append_empty_r (a : string) : a ++ "" = a.
Proof. induction a as [| x a IH]; simpl; [reflexivity | rewrite IH; reflexivity]. Qed.

Lemma slice_tail (c : ascii) (s : string) : slice (String c s) 1 None = s.
Proof.
  unfold slice, relIndex. simpl String.length.
  change (1 <? 0)%Z with false. cbv iota.
  change (Z.to_nat 1) with 1%nat.
  change (Nat.min 1 (S (String.length s))) with 1%nat.
  simpl. rewrite Nat.sub_0_r. apply substring_all.
Qed.

Lemma slice_init (s : string) (c : ascii) :
  slice (s ++ String c "") 0 (Some (-1)) = s.
Proof.
  unfold slice, relIndex. rewrite length_append. simpl String.length.
  change (0 <? 0)%Z with false. change (-1 <? 0)%Z with true. cbv iota.
  change (Nat.min (Z.to_nat 0) (String.length s + 1)) with 0%nat.
  replace (Z.to_nat (Z.max (Z.of_nat (String.length s + 1) + -1) 0))
    with (String.length s) by lia.
  rewrite Nat.sub_0_r. apply substring_prefix.
Qed.

Lemma eqb_snoc_empty (r : string) (c : ascii) :
  String.eqb (r ++ String c "") "" = false.
Proof. destruct r; reflexivity. Qed.

Lemma endsWith_snoc (s : string) (c c' : ascii) :
  endsWith (s ++ String c "") (String c' "") = Ascii.eqb c c'.
Proof.
  induction s as [| a r IH].
  - simpl. destruct (Ascii.eqb c c'); reflexivity.
  - simpl. rewrite IH, (eqb_snoc_empty r c).
    destruct (Ascii.eqb a c'); reflexivity.
Qed.

(** *** Decimal numerals and [parseInt] *)

Lemma parseDigits_digit (c : ascii) (r : string) (acc : option Z) (v : Z) :
  digitValue c = Some v ->
  parseDigits (String c r) acc = parseDigits r (Some (10 * default 0%Z acc + v)%Z).
Proof. intros H. simpl. rewrite H. reflexivity. Qed.

Lemma parseDigits_stop (c : ascii) (r : string) (acc : option Z) :
  digitValue c = None -> parseDigits (String c r) acc = acc.
Proof. intros H. simpl. rewrite H. reflexivity. Qed.

Ltac digit_step IH c k :=
  rewrite (parseDigits_digit c _ _ k eq_refl); simpl Nat.of_uint_acc;
  rewrite <- IH; f_equal; f_equal; cbn [default]; unfold id;
  rewrite Nat.tail_mul_spec; lia.

Lemma parseDigits_uint (d : Decimal.uint) : forall (rest : string) (a : nat),
  parseDigits (NilEmpty.string_of_uint d ++ rest) (Some (Z.of_nat a))
  = parseDigits rest (Some (Z.of_nat (Nat.of_uint_acc d a))).
Proof.
  induction d as [| d IH | d IH | d IH | d IH | d IH | d IH | d IH | d IH | d IH | d IH];
    intros rest a; simpl NilEmpty.string_of_uint; simpl String.append.
  - reflexivity.
  - digit_step IH "0"%char 0%Z.
  - digit_step IH "1"%char 1%Z.
  - digit_step IH "2"%char 2%Z.
  - digit_step IH "3"%char 3%Z.
  - digit_step IH "4"%char 4%Z.
  - digit_step IH "5"%char 5%Z.
  - digit_step IH "6"%char 6%Z.
  - digit_step IH "7"%char 7%Z.
  - digit_step IH "8"%char 8%Z.
  - digit_step IH "9"%char 9%Z.
Qed.

Ltac first_digit c k :=
  unfold parseInt10; simpl NilEmpty.string_of_uint; simpl String.append;
  simpl trimStart; cbv iota;
  rewrite (parseDigits_digit c _ _ k eq_refl);
  change (Some (10 * default 0%Z None + k)%Z) with (Some (Z.of_nat (Z.to_nat k)));
  rewrite parseDigits_uint; reflexivity.

Lemma parseInt10_uint (d : Decimal.uint) (rest : string) :
  d <> Decimal.Nil ->
  parseInt10 (NilEmpty.string_of_uint d ++ rest)
  = parseDigits rest (Some (Z.of_nat (Nat.of_uint d))).
Proof.
  intros Hd. destruct d; [congruence | ..].
  - first_digit "0"%char 0%Z.
  - first_digit "1"%char 1%Z.
  - first_digit "2"%char 2%Z.
  - first_digit "3"%char 3%Z.
  - first_digit "4"%char 4%Z.
  - first_digit "5"%char 5%Z.
  - first_digit "6"%char 6%Z.
  - first_digit "7"%char 7%Z.
  - first_digit "8"%char 8%Z.
  - first_digit "9"%char 9%Z.
Qed.

Lemma to_uint_unorm (n : nat) : Nat.to_uint n = Decimal.unorm (Nat.to_uint n).
Proof. rewrite <- Unsigned.to_of, Unsigned.of_to. reflexivity. Qed.

Lemma to_uint_nonnil (n : nat) : Nat.to_uint n <> Decimal.Nil.
Proof. rewrite to_uint_unorm. apply unorm_nonnil. Qed.

(** Only the numeral of 0 starts with the digit 0. *)
Lemma to_uint_D0 (n : nat) (d : Decimal.uint) :
  Nat.to_uint n = Decimal.D0 d -> n = 0%nat.
Proof.
  intros H. rewrite <- (Unsigned.of_to n), H.
  destruct d; [reflexivity | exfalso ..];
    pose proof (to_uint_unorm n) as Hn; rewrite H, unorm_D0 in Hn;
    match type of Hn with
    | Decimal.D0 ?x = _ =>
        assert (Hx : x <> Decimal.Nil) by discriminate;
        pose proof (nb_digits_unorm x Hx) as Hle;
        rewrite <- Hn in Hle; simpl in Hle; lia
    end.
Qed.

Lemma parseInt10_decimal (n : nat) (rest : string) :
  parseInt10 (decimal n ++ rest) = parseDigits rest (Some (Z.of_nat n)).
Proof.
  unfold decimal. rewrite parseInt10_uint by apply to_uint_nonnil.
  rewrite Unsigned.of_to. reflexivity.
Qed.

Lemma parseInt10_zero_decimal (n : nat) (rest : string) :
  parseInt10 ("0" ++ decimal n ++ rest) = parseDigits rest (Some (Z.of_nat n)).
Proof.
  unfold decimal.
  change ("0" ++ NilEmpty.string_of_uint (Nat.to_uint n) ++ rest)
    with (NilEmpty.string_of_uint (Decimal.D0 (Nat.to_uint n)) ++ rest).
  rewrite parseInt10_uint by discriminate.
  change (Nat.of_uint (Decimal.D0 (Nat.to_uint n))) with (Nat.of_uint (Nat.to_uint n)).
  rewrite Unsigned.of_to. reflexivity.
Qed.

(** *** Splitting at the dot *)

Lemma split_noDot (s : string) : noDot s = true -> split "." s = [s].
Proof.
  induction s as [| c r IH]; simpl; [reflexivity |].
  intros H. apply andb_prop in H as [Hc Hr].
  apply negb_true_iff in Hc. rewrite Hc, (IH Hr). reflexivity.
Qed.

Lemma split_at_dot (a b : string) :
  noDot a = true -> split "." (a ++ String "." b) = a :: split "." b.
Proof.
  induction a as [| c r IH]; simpl; [reflexivity |].
  intros H. apply andb_prop in H as [Hc Hr].
  apply negb_true_iff in Hc. rewrite Hc, (IH Hr). reflexivity.
Qed.

Lemma noDot_append (a b : string) : noDot (a ++ b) = noDot a && noDot b.
Proof.
  induction a as [| c r IH]; simpl; [reflexivity |].
  rewrite IH. apply andb_assoc.
Qed.

Lemma noDot_uint (d : Decimal.uint) : noDot (NilEmpty.string_of_uint d) = true.
Proof. induction d; simpl; assumption || reflexivity. Qed.

Lemma noDot_flags (f : FormatSpec) : noDot (formatFlags f) = true.
Proof.
  unfold formatFlags. rewrite noDot_append.
  destruct (zeroFlag f), (fieldWidth f); simpl; try reflexivity; apply noDot_uint.
Qed.

(** *** The width and the fill character *)

Lemma parseInt10_flags (f : FormatSpec) (rest : string) :
  (forall acc, parseDigits rest acc = acc) ->
  parseInt10 rest = None ->
  parseInt10 (formatFlags f ++ rest) = flagsWidth f.
Proof.
  intros Hstop Hnan. unfold formatFlags, flagsWidth.
  destruct (zeroFlag f), (fieldWidth f) as [w |].
  - rewrite append_assoc, parseInt10_zero_decimal. apply Hstop.
  - change (("0" ++ "") ++ rest) with (String "0" rest).
    unfold parseInt10. simpl trimStart. cbv iota.
    rewrite (parseDigits_digit "0"%char _ _ 0%Z eq_refl). apply Hstop.
  - simpl. rewrite parseInt10_decimal. apply Hstop.
  - simpl. exact Hnan.
Qed.

Lemma pad_width (f : FormatSpec) (s : string) (c : ascii) :
  (if truthyNum (flagsWidth f) then padStart s (flagsWidth f) c else s)
  = padStart s (Z.of_nat <$> fieldWidth f) c.
Proof.
  unfold flagsWidth. destruct (fieldWidth f) as [[| w] |]; simpl.
  - reflexivity.
  - reflexivity.
  - destruct (zeroFlag f); reflexivity.
Qed.

Lemma prefix_empty (s : string) : String.prefix "" s = true.
Proof. destruct s; reflexivity. Qed.

Lemma pad_fill (f : FormatSpec) (rest s : string) :
  startsWith rest "0" = false ->
  padStart s (flagsWidth f)
    (if startsWith (formatFlags f ++ rest) "0" then "0"%char else " "%char)
  = padStart s (Z.of_nat <$> fieldWidth f)
      (if zeroFlag f then "0"%char else " "%char).
Proof.
  intros Hrest. unfold flagsWidth, formatFlags, startsWith in *.
  destruct (zeroFlag f), (fieldWidth f) as [w |]; simpl; rewrite ?prefix_empty.
  - reflexivity.
  - reflexivity.
  - unfold decimal. destruct (Nat.to_uint w) eqn:E; simpl; rewrite ?prefix_empty;
      try reflexivity.
    + exfalso. exact (to_uint_nonnil w E).
    + apply to_uint_D0 in E. subst w. reflexivity.
  - rewrite Hrest. reflexivity.
Qed.

Lemma cmap_ext {A B} (g h : A -> B) (c : Completion A) :
  (forall a, g a = h a) -> cmap g c = cmap h c.
Proof. intros H. destruct c; simpl; [rewrite H |]; reflexivity. Qed.

(** *** The conversions *)

Section WithNumberToString.

Variable numberToString : Q -> string.

Abbreviation formatted := (deviceAttrGetLatestFormatted numberToString).
Abbreviation formatValue := (formatValue numberToString).

Lemma latest_lookup (vs : list Q) (v : Q) :
  (vs ++ [v])%list !! (length (vs ++ [v])%list - 1)%nat = Some v.
Proof.
  rewrite length_app. simpl length.
  replace (length vs + 1 - 1)%nat with (length vs) by lia.
  apply list_lookup_middle. reflexivity.
Qed.

Lemma formatted_latest (a : DeviceAttributeState) (vs : list Q) (v : Q)
    (f : FormatSpec) :
  formatted (withHistory (vs ++ [v])%list (formatText f) a) = formatValue v (formatBody f).
Proof.
  unfold deviceAttrGetLatestFormatted, withHistory.
  cbn [values format].
  rewrite latest_lookup.
  destruct (length (vs ++ [v])%list) eqn:E.
  { rewrite length_app in E. simpl in E. lia. }
  unfold formatText at 1. simpl (String.length _ =? 0)%nat.
  cbn [Nat.eqb]. cbv iota.
  assert (Hstart : startsWith (formatText f) "%" = true).
  { unfold formatText, startsWith. simpl. apply prefix_empty. }
  rewrite Hstart. unfold formatText. rewrite slice_tail. reflexivity.
Qed.

Lemma body_snoc (f : FormatSpec) :
  formatBody f
  = (formatFlags f ++ formatPrecision f) ++ String (conversion f) "".
Proof. unfold formatBody. rewrite append_assoc. reflexivity. Qed.

Lemma endsWith_body (f : FormatSpec) (c : ascii) :
  endsWith (formatBody f) (String c "") = Ascii.eqb (conversion f) c.
Proof. rewrite body_snoc. apply endsWith_snoc. Qed.

Lemma parseInt10_flags_precision (f : FormatSpec) :
  parseInt10 (formatFlags f ++ formatPrecision f) = flagsWidth f.
Proof.
  apply parseInt10_flags; unfold formatPrecision; destruct (precision f);
    intros; reflexivity.
Qed.

Lemma startsWith_precision_conv (f : FormatSpec) :
  conversion f <> "0"%char ->
  startsWith (formatPrecision f ++ String (conversion f) "") "0" = false.
Proof.
  intros Hc. unfold formatPrecision, startsWith.
  destruct (precision f); [reflexivity |].
  change ("" ++ String (conversion f) "") with (String (conversion f) "").
  cbn [String.prefix].
  destruct (ascii_dec "0" (conversion f)) as [E | _]; [congruence | reflexivity].
Qed.

(** The integer conversions: the digits of the floored value in the
    given radix, padded to the width with the fill the zero flag
    selects. *)
Lemma formatValue_integer (v : Q) (f : FormatSpec) (radix : Z) :
  conversion f <> "0"%char ->
  Normal (padStart (intToString numberToString radix (mathFloor v))
            (parseInt10 (slice (formatBody f) 0 (Some (-1)%Z)))
            (if startsWith (formatBody f) "0" then "0"%char else " "%char))
  = Normal (padStart (intToString numberToString radix (mathFloor v))
              (Z.of_nat <$> fieldWidth f)
              (if zeroFlag f then "0"%char else " "%char)).
Proof.
  intros Hc. rewrite body_snoc at 1. rewrite slice_init, parseInt10_flags_precision.
  unfold formatBody. rewrite (pad_fill f _ _ (startsWith_precision_conv f Hc)).
  reflexivity.
Qed.

(** The conversion [f]: [v.toFixed(precision)], precision 0 when none
    is given, padded on the left with spaces to the width, with or
    without the zero flag. *)
Lemma formatted_fixed (a : DeviceAttributeState) (vs : list Q) (v : Q)
    (z : bool) (w p : option nat) :
  formatted (withHistory (vs ++ [v])%list (formatText (mkFormat z w p "f")) a)
  = cmap (fun s => padStart s (Z.of_nat <$> w) " ")
      (toFixed numberToString v (Some (Z.of_nat (default 0%nat p)))).
Proof.
  rewrite formatted_latest.
  unfold RaftDeviceStates.formatValue. rewrite endsWith_body.
  cbn [conversion]. change (Ascii.eqb "f" "f") with true. cbv iota.
  set (f := mkFormat z w p "f").
  assert (Hparts :
    let parts := split "." (formatBody f) in
    parseInt10 (default "" (parts !! 0%nat)) = flagsWidth f /\
    (if (length parts =? 2)%nat then parseInt10 (default "" (parts !! 1%nat))
     else Some 0%Z) = Some (Z.of_nat (default 0%nat p))).
  { unfold formatBody, formatPrecision. subst f. cbn [precision conversion].
    destruct p as [q |].
    - change (String "." (decimal q) ++ "f") with (String "." (decimal q ++ "f")).
      rewrite split_at_dot by apply noDot_flags.
      rewrite split_noDot
        by (unfold decimal; rewrite noDot_append, noDot_uint; reflexivity).
      cbn [length Nat.eqb lookup list_lookup default from_option id].
      split.
      + rewrite <- (append_empty_r (formatFlags _)).
        apply parseInt10_flags; intros; reflexivity.
      + rewrite parseInt10_decimal. reflexivity.
    - change ("" ++ "f") with "f".
      rewrite split_noDot by (rewrite noDot_append, noDot_flags; reflexivity).
      cbn [length Nat.eqb lookup list_lookup default from_option id].
      split; [| reflexivity].
      apply parseInt10_flags; intros; reflexivity. }
  cbv zeta in Hparts. destruct Hparts as (Hwidth & Hplaces).
  rewrite Hwidth, Hplaces. apply cmap_ext. intros s.
  apply (pad_width f).
Qed.

(** [toFixed] by the range of its arguments. *)
Lemma toFixed_cases (v : Q) (places : nat) :
  ((places <= 100)%nat -> (Qabs v < inject_Z (pow10 21))%Q ->
   toFixed numberToString v (Some (Z.of_nat places))
   = Normal (fixedDigits v (Z.of_nat places))) /\
  ((100 < places)%nat ->
   toFixed numberToString v (Some (Z.of_nat places)) = ThrowRangeError) /\
  ((places <= 100)%nat -> (inject_Z (pow10 21) <= Qabs v)%Q ->
   toFixed numberToString v (Some (Z.of_nat places))
   = Normal (toString numberToString v)).
Proof.
  unfold toFixed. change (default 0%Z (Some (Z.of_nat places))) with (Z.of_nat places).
  repeat split.
  - intros Hp Hv.
    destruct (Z.ltb_spec (Z.of_nat places) 0); [lia |].
    destruct (Z.ltb_spec 100 (Z.of_nat places)); [lia |]. cbn [orb].
    destruct (Qle_bool (inject_Z (pow10 21)) (Qabs v)) eqn:E; [| reflexivity].
    apply Qle_bool_iff in E. exfalso. exact (Qlt_not_le _ _ Hv E).
  - intros Hp.
    destruct (Z.ltb_spec (Z.of_nat places) 0); [reflexivity |].
    destruct (Z.ltb_spec 100 (Z.of_nat places)); [reflexivity | lia].
  - intros Hp Hv.
    destruct (Z.ltb_spec (Z.of_nat places) 0); [lia |].
    destruct (Z.ltb_spec 100 (Z.of_nat places)); [lia |]. cbn [orb].
    apply Qle_bool_iff in Hv. rewrite Hv. reflexivity.
Qed.

(** C7, as the code has it.  With no value history the text is "N/A".
    Otherwise, for the latest value [v] and a format
    %[0][width][.precision]conv: [f] gives, for a precision of at most
    100 (0 when none is given) and a value below 1e21 in magnitude, the
    fixed-point text of [v] with that many decimals, padded on the left
    with spaces to the width, with or without the zero flag; a precision
    above 100 raises a RangeError, and from 1e21 on the text is that of
    the plain [toString]; [x] gives the lowercase hex digits of the
    floored value padded to the width with '0' under the zero flag and
    with spaces otherwise; [d] gives, for a floored value below 1e21 in
    magnitude, its decimal digits with the same padding, and from 1e21
    on the text of the plain [toString]; [b] gives "no" when the floored
    value is 0 and "yes" otherwise.  So 3.14159 under "%06.2f" is
    "  3.14", 255 under "%04x" is "00ff" and 0 under "%b" is "no". *)
Theorem deviceAttrGetLatestFormatted_conversions :
  (forall (a : DeviceAttributeState) (fmt : string),
      formatted (withHistory [] fmt a) = Normal "N/A") /\
  (forall (a : DeviceAttributeState) (vs : list Q) (v : Q)
          (z : bool) (w p : option nat),
      let text :=
        formatted (withHistory (vs ++ [v])%list (formatText (mkFormat z w p "f")) a) in
      let places := default 0%nat p in
      ((places <= 100)%nat -> (Qabs v < inject_Z (pow10 21))%Q ->
       text = Normal (padStart (fixedDigits v (Z.of_nat places)) (Z.of_nat <$> w) " ")) /\
      ((100 < places)%nat -> text = ThrowRangeError) /\
      ((places <= 100)%nat -> (inject_Z (pow10 21) <= Qabs v)%Q ->
       text = Normal (padStart (toString numberToString v) (Z.of_nat <$> w) " "))) /\
  (forall (a : DeviceAttributeState) (vs : list Q) (v : Q)
          (z : bool) (w p : option nat),
      formatted (withHistory (vs ++ [v])%list (formatText (mkFormat z w p "x")) a)
      = Normal (padStart (intDigits 16 (mathFloor v))
                  (Z.of_nat <$> w) (if z then "0"%char else " "%char))) /\
  (forall (a : DeviceAttributeState) (vs : list Q) (v : Q)
          (z : bool) (w p : option nat),
      let text :=
        formatted (withHistory (vs ++ [v])%list (formatText (mkFormat z w p "d")) a) in
      ((Z.abs (mathFloor v) < pow10 21)%Z ->
       text = Normal (padStart (intDigits 10 (mathFloor v))
                        (Z.of_nat <$> w) (if z then "0"%char else " "%char))) /\
      ((pow10 21 <= Z.abs (mathFloor v))%Z ->
       text = Normal (padStart (numberToString (inject_Z (mathFloor v)))
                        (Z.of_nat <$> w) (if z then "0"%char else " "%char)))) /\
  (forall (a : DeviceAttributeState) (vs : list Q) (v : Q)
          (z : bool) (w p : option nat),
      formatted (withHistory (vs ++ [v])%list (formatText (mkFormat z w p "b")) a)
      = Normal (if (mathFloor v =? 0)%Z then "no" else "yes")) /\
  (forall a : DeviceAttributeState,
      formatted (withHistory [(314159 # 100000)%Q] "%06.2f" a) = Normal "  3.14" /\
      formatted (withHistory [255%Q] "%04x" a) = Normal "00ff" /\
      formatted (withHistory [0%Q] "%b" a) = Normal "no").
Proof.
  split; [intros a fmt; reflexivity |].
  split.
  { intros a vs v z w p text places. subst text. rewrite formatted_fixed.
    fold places. destruct (toFixed_cases v places) as (Hin & Hthrow & Hbig).
    repeat split.
    - intros Hp Hv. rewrite (Hin Hp Hv). reflexivity.
    - intros Hp. rewrite (Hthrow Hp). reflexivity.
    - intros Hp Hv. rewrite (Hbig Hp Hv). reflexivity. }
  split.
  { intros a vs v z w p. rewrite formatted_latest.
    unfold RaftDeviceStates.formatValue. rewrite !endsWith_body.
    cbn [conversion]. change (Ascii.eqb "x" "f") with false.
    change (Ascii.eqb "x" "x") with true. cbv iota.
    apply (formatValue_integer v (mkFormat z w p "x") 16). discriminate. }
  split.
  { intros a vs v z w p text. subst text.
    assert (Hd : formatted (withHistory (vs ++ [v])%list
                              (formatText (mkFormat z w p "d")) a)
                 = Normal (padStart (intToString numberToString 10 (mathFloor v))
                             (Z.of_nat <$> w) (if z then "0"%char else " "%char))).
    { rewrite formatted_latest.
      unfold RaftDeviceStates.formatValue. rewrite !endsWith_body.
      cbn [conversion]. change (Ascii.eqb "d" "f") with false.
      change (Ascii.eqb "d" "x") with false.
      change (Ascii.eqb "d" "d") with true. cbv iota.
      apply (formatValue_integer v (mkFormat z w p "d") 10). discriminate. }
    rewrite Hd. unfold intToString. change (10 =? 10)%Z with true. cbn [andb].
    split; intros Hv.
    - destruct (Z.leb_spec (pow10 21) (Z.abs (mathFloor v))); [lia | reflexivity].
    - destruct (Z.leb_spec (pow10 21) (Z.abs (mathFloor v))); [reflexivity | lia]. }
  split.
  { intros a vs v z w p. rewrite formatted_latest.
    unfold RaftDeviceStates.formatValue. rewrite !endsWith_body.
    cbn [conversion]. change (Ascii.eqb "b" "f") with false.
    change (Ascii.eqb "b" "x") with false. change (Ascii.eqb "b" "d") with false.
    change (Ascii.eqb "b" "b") with true. cbv iota. reflexivity. }
  intros a. repeat split; vm_compute; reflexivity.
Qed.

End WithNumberToString.

Lemma deviceAttrGetLatestFormatted_conversions_witness :
  (2 <= 100)%nat /\
  (Qabs (314159 # 100000) < inject_Z (pow10 21))%Q /\
  deviceAttrGetLatestFormatted noExponent
    (withHistory [(314159 # 100000)%Q] "%06.2f" freshAttr)
  = Normal "  3.14".
Proof.
  assert (Hp : (2 <= 100)%nat) by lia.
  assert (Hv : (Qabs (314159 # 100000) < inject_Z (pow10 21))%Q) by reflexivity.
  split; [exact Hp |]. split; [exact Hv |].
  destruct deviceAttrGetLatestFormatted_conversions with (numberToString := noExponent)
    as (_ & Hf & _).
  exact (proj1 (Hf freshAttr [] (314159 # 100000)%Q true (Some 6%nat) (Some 2%nat))
           Hp Hv).
Defined.

(** C7 as the specification words it fails for a precision above 100:
    under "%.101f" the value 1 is not rendered at all, a RangeError is
    raised. *)
Lemma deviceAttrGetLatestFormatted_precision_101 :
  ~ (exists text,
       deviceAttrGetLatestFormatted noExponent (withHistory [1%Q] "%.101f" freshAttr)
       = Normal text).
Proof. intros (text & H). vm_compute in H. discriminate H. Qed.

End FormatProps.

(** ** Device keys *)

Module DeviceKeyProps.
Import Js RaftDeviceStates.

Open Scope string_scope.

#[local] Arguments String.append !_ _ / : simpl nomatch.

Lemma indexOfChar_append (c : ascii) (a rest : string) :
  indexOfChar c a = None ->
  indexOfChar c (a ++ String c rest) = Some (String.length a).
Proof.
  induction a as [| x a IH]; simpl.
  - intros _. rewrite Ascii.eqb_refl. reflexivity.
  - destruct (Ascii.eqb x c); [discriminate |].
    destruct (indexOfChar c a); [discriminate |].
    intros _. rewrite IH by reflexivity. reflexivity.
Qed.

Lemma substring_skip (a b : string) (n m : nat) :
  String.substring (String.length a + n) m (a ++ b) = String.substring n m b.
Proof. induction a as [| x a IH]; simpl; [reflexivity | exact IH]. Qed.

(** The part of a key in front of its first separator holds no
    separator, and the key is that part, the separator and the rest. *)
Lemma indexOfChar_split (c : ascii) (s : string) (n : nat) :
  indexOfChar c s = Some n ->
  indexOfChar c (String.substring 0 n s) = None /\
  s = String.substring 0 n s ++ String c
        (String.substring (n + 1) (String.length s - (n + 1)) s).
Proof.
  revert n. induction s as [| x s IH]; intros n; simpl; [discriminate |].
  destruct (Ascii.eqb_spec x c) as [-> | Hne].
  - intros [= <-]. simpl. rewrite Nat.sub_0_r, FormatProps.substring_all.
    split; reflexivity.
  - destruct (indexOfChar c s) as [k |] eqn:Hk; [| discriminate].
    intros [= <-]. destruct (IH k eq_refl) as (Hnone & Heq). simpl.
    destruct (Ascii.eqb_spec x c) as [| _]; [contradiction |].
    rewrite Hnone. split; [reflexivity |]. f_equal. exact Heq.
Qed.

(** X1: a key built from a bus name without an underscore and any
    address parses back into that bus name and that address. *)
Theorem parseDeviceKey_getDeviceKey (bus addr : string) :
  indexOfChar "_" bus = None ->
  parseDeviceKey (getDeviceKey bus addr) = (bus, addr).
Proof.
  intros Hbus. unfold parseDeviceKey, getDeviceKey. simpl.
  rewrite (indexOfChar_append "_" bus addr Hbus).
  rewrite FormatProps.substring_prefix. f_equal.
  rewrite FormatProps.length_append. simpl String.length.
  replace (String.length bus + S (String.length addr) - (String.length bus + 1))%nat
    with (String.length addr) by lia.
  rewrite substring_skip. simpl. apply FormatProps.substring_all.
Qed.

Lemma parseDeviceKey_getDeviceKey_witness :
  indexOfChar "_" "1" = None /\
  parseDeviceKey (getDeviceKey "1" "76a") = ("1", "76a").
Proof.
  split; [reflexivity |]. apply (parseDeviceKey_getDeviceKey "1" "76a"). reflexivity.
Defined.

(** X2: [parseDeviceKey] cuts a key at its first underscore and loses
    nothing: the bus part holds no underscore and the key is rebuilt by
    [getDeviceKey] from the two parts; a key without an underscore is
    all bus, with an empty address. *)
Theorem getDeviceKey_parseDeviceKey (key : string) :
  indexOfChar "_" (fst (parseDeviceKey key)) = None /\
  match indexOfChar "_" key with
  | Some _ =>
      getDeviceKey (fst (parseDeviceKey key)) (snd (parseDeviceKey key)) = key
  | None => parseDeviceKey key = (key, "")
  end.
Proof.
  unfold parseDeviceKey.
  destruct (indexOfChar "_" key) as [sep |] eqn:Hsep; cbn [fst snd].
  - destruct (indexOfChar_split _ _ _ Hsep) as (Hnone & Heq).
    split; [exact Hnone |]. unfold getDeviceKey. simpl. symmetry. exact Heq.
  - split; [exact Hsep | reflexivity].
Qed.

End DeviceKeyProps.

(** ** Hexadecimal strings *)

Module HexProps.
Import Js RaftDeviceStates RaftDeviceManager.

Open Scope string_scope.

#[local] Arguments String.append !_ _ / : simpl nomatch.

(** The two digits [toHex] writes for a byte, read back by [parseInt]
    and stored in a byte array, are that byte. *)
Lemma byte_hex_digits (b : byte) :
  String.length (padStart (intDigits 16 (byte_to_Z b)) (Some 2%Z) "0") = 2%nat /\
  toUint8 (parseInt16 (padStart (intDigits 16 (byte_to_Z b)) (Some 2%Z) "0")) = b.
Proof. destruct b; vm_compute; split; reflexivity. Qed.

Lemma byte_hex_pair (b : byte) :
  exists c1 c2 : ascii,
    padStart (intDigits 16 (byte_to_Z b)) (Some 2%Z) "0" = String c1 (String c2 "") /\
    toUint8 (parseInt16 (String c1 (String c2 ""))) = b.
Proof.
  destruct (byte_hex_digits b) as (Hlen & Hb).
  destruct (padStart _ _ _) as [| c1 [| c2 [| c3 s]]]; try discriminate Hlen.
  exists c1, c2. split; [reflexivity | exact Hb].
Qed.

Lemma toHex_cons (b : byte) (data : list byte) :
  toHex (b :: data)
  = padStart (intDigits 16 (byte_to_Z b)) (Some 2%Z) "0" ++ toHex data.
Proof. reflexivity. Qed.

Lemma substring_0_0 (s : string) : String.substring 0 0 s = "".
Proof. destruct s; reflexivity. Qed.

Lemma half_SS (n : nat) : (S (S n) / 2 = S (n / 2))%nat.
Proof.
  change (S (S n)) with (1 * 2 + n)%nat. rewrite Nat.div_add_l by lia. reflexivity.
Qed.

(** [hexToBytes] reads a string two characters at a time. *)
Lemma hexToBytes_pair (c1 c2 : ascii) (s : string) :
  hexToBytes (String c1 (String c2 s))
  = toUint8 (parseInt16 (String c1 (String c2 ""))) :: hexToBytes s.
Proof.
  unfold hexToBytes, substr. simpl String.length. rewrite half_SS.
  cbn [seq map]. f_equal.
  - simpl. rewrite substring_0_0. reflexivity.
  - rewrite <- seq_shift, map_map. apply map_ext. intros i. reflexivity.
Qed.

Lemma toHex_length (data : list byte) :
  String.length (toHex data) = (2 * length data)%nat.
Proof.
  induction data as [| b data IH]; [reflexivity |].
  rewrite toHex_cons. destruct (byte_hex_pair b) as (c1 & c2 & -> & _).
  simpl. rewrite IH. lia.
Qed.

(** X3: [toHex] writes two characters for every byte, and
    [hexToBytes] reads back the bytes [toHex] wrote. *)
Theorem hexToBytes_toHex (data : list byte) :
  String.length (toHex data) = (2 * length data)%nat /\
  hexToBytes (toHex data) = data.
Proof.
  split; [apply toHex_length |].
  induction data as [| b data IH]; [reflexivity |].
  rewrite toHex_cons. destruct (byte_hex_pair b) as (c1 & c2 & -> & Hb).
  simpl. rewrite hexToBytes_pair, Hb, IH. reflexivity.
Qed.

(** X4: a last character without a partner is dropped: a string of odd
    length gives the bytes of the string without its last character. *)
Theorem hexToBytes_odd_tail (n : nat) : forall (s : string) (c : ascii),
  String.length s = (2 * n)%nat ->
  hexToBytes (s ++ String c "") = hexToBytes s.
Proof.
  induction n as [| n IH]; intros s c Hlen.
  - destruct s; [reflexivity | discriminate].
  - destruct s as [| c1 [| c2 s]]; try (simpl in Hlen; lia).
    simpl. rewrite !hexToBytes_pair. f_equal. apply IH.
    simpl in Hlen. lia.
Qed.

Lemma hexToBytes_odd_tail_witness :
  String.length "0a1b" = (2 * 2)%nat /\
  hexToBytes ("0a1b" ++ String "7" "") = hexToBytes "0a1b".
Proof. split; [reflexivity |]. apply (hexToBytes_odd_tail 2 "0a1b" "7"). reflexivity. Defined.

End HexProps.

(** ** Frames and record headers *)

Module FrameProps.
Import Js RaftPublish RaftDeviceStates RaftDeviceManager.

Lemma shl_16_byte x : 0 <= x <= 255 -> shl x 16 = x * 65536.
Proof.
  intros H. unfold shl, to_int32.
  change (16 mod 32) with 16. rewrite Z.shiftl_mul_pow2 by lia.
  change (2 ^ 16) with 65536. change (2 ^ 32) with 4294967296.
  change (2 ^ 31) with 2147483648.
  rewrite Z.mod_small by lia.
  destruct (Z.ltb_spec (x * 65536) 2147483648); lia.
Qed.

Lemma shl_24_byte x : 0 <= x <= 255 -> shl x 24 = to_int32 (x * 16777216).
Proof.
  intros H. unfold shl. change (24 mod 32) with 24.
  rewrite Z.shiftl_mul_pow2 by lia. reflexivity.
Qed.

Lemma to_int32_high x y :
  0 <= x <= 255 -> 0 <= y < 16777216 ->
  to_int32 (x * 16777216) + y = to_int32 (x * 16777216 + y) /\
  (to_int32 (x * 16777216 + y) < 0 <-> 128 <= x).
Proof.
  intros Hx Hy. unfold to_int32.
  change (2 ^ 32) with 4294967296. change (2 ^ 31) with 2147483648.
  rewrite !Z.mod_small by lia.
  destruct (Z.ltb_spec (x * 16777216) 2147483648);
    destruct (Z.ltb_spec (x * 16777216 + y) 2147483648); lia.
Qed.

(** X5: the fields of a record header are big-endian: the length
    prefix and the type index are the unsigned 16-bit values of their two
    bytes, and the device address is the signed 32-bit value of its four
    bytes, negative exactly when the first of them is 0x80 or more. *)
Theorem record_header_big_endian (rxMsg : list byte) (msgPos : Z) :
  let b k := byteAt rxMsg (msgPos + k) in
  recordLenAt rxMsg msgPos = b 0 * 256 + b 1 /\
  recordStatusByte rxMsg msgPos = b 2 /\
  recordDevAddr rxMsg msgPos
  = to_int32 (b 3 * 16777216 + b 4 * 65536 + b 5 * 256 + b 6) /\
  (recordDevAddr rxMsg msgPos < 0 <-> 128 <= b 3) /\
  recordDevTypeIdx rxMsg msgPos = b 7 * 256 + b 8 /\
  0 <= recordDevTypeIdx rxMsg msgPos <= 65535.
Proof.
  intros b. subst b. cbv beta.
  unfold recordLenAt, recordStatusByte, recordDevAddr, recordDevTypeIdx,
    recordLenLen, busInfoLen, deviceAddrLen.
  rewrite Z.add_0_r.
  replace (msgPos + 2 + 1) with (msgPos + 3) by lia.
  replace (msgPos + 3 + 1) with (msgPos + 4) by lia.
  replace (msgPos + 3 + 2) with (msgPos + 5) by lia.
  replace (msgPos + 3 + 3) with (msgPos + 6) by lia.
  replace (msgPos + 3 + 4) with (msgPos + 7) by lia.
  replace (msgPos + 7 + 1) with (msgPos + 8) by lia.
  pose proof (BinaryParserProps.byteAt_range rxMsg msgPos).
  pose proof (BinaryParserProps.byteAt_range rxMsg (msgPos + 1)).
  pose proof (BinaryParserProps.byteAt_range rxMsg (msgPos + 3)) as H3.
  pose proof (BinaryParserProps.byteAt_range rxMsg (msgPos + 4)) as H4.
  pose proof (BinaryParserProps.byteAt_range rxMsg (msgPos + 5)) as H5.
  pose proof (BinaryParserProps.byteAt_range rxMsg (msgPos + 6)) as H6.
  pose proof (BinaryParserProps.byteAt_range rxMsg (msgPos + 7)).
  pose proof (BinaryParserProps.byteAt_range rxMsg (msgPos + 8)).
  rewrite !BinaryParserProps.shl_8_byte, shl_16_byte, shl_24_byte by assumption.
  set (y := byteAt rxMsg (msgPos + 4) * 65536 + byteAt rxMsg (msgPos + 5) * 256
            + byteAt rxMsg (msgPos + 6)).
  destruct (to_int32_high (byteAt rxMsg (msgPos + 3)) y H3) as (Hsum & Hneg);
    [subst y; lia |].
  replace (to_int32 (byteAt rxMsg (msgPos + 3) * 16777216)
           + byteAt rxMsg (msgPos + 4) * 65536 + byteAt rxMsg (msgPos + 5) * 256
           + byteAt rxMsg (msgPos + 6))
    with (to_int32 (byteAt rxMsg (msgPos + 3) * 16777216) + y) by (subst y; lia).
  replace (byteAt rxMsg (msgPos + 3) * 16777216 + byteAt rxMsg (msgPos + 4) * 65536
           + byteAt rxMsg (msgPos + 5) * 256 + byteAt rxMsg (msgPos + 6))
    with (byteAt rxMsg (msgPos + 3) * 16777216 + y) by (subst y; lia).
  rewrite Hsum. repeat split; try lia; apply Hneg.
Qed.

Lemma checkEnvelope_early getPublishTopicName rxMsg early :
  checkEnvelope getPublishTopicName rxMsg = inl early ->
  early = FrameBadMagic \/ early = FrameOtherTopic.
Proof.
  unfold checkEnvelope.
  repeat match goal with
         | |- context [if ?c then _ else _] => destruct c
         end; intros [= <-]; auto.
Qed.

Section WithEnvironment.

Variable msgHandler : option (string -> RestReply).
Variable getPublishTopicName : option (Z -> option string).
Variable processMsgAttrGroup :
  list byte -> Z -> DeviceTimeline -> DeviceTypeResp ->
  gmap string DeviceAttributeState -> Z ->
  Z * DeviceTimeline * gmap string DeviceAttributeState.

Abbreviation recordsLoop := (recordsLoop msgHandler processMsgAttrGroup).
Abbreviation handleClientMsgBinary :=
  (handleClientMsgBinary msgHandler getPublishTopicName processMsgAttrGroup).

(** The record loop only moves forward and stops inside the frame. *)
Lemma recordsLoop_position fuel nowMs caller rxMsg : forall msgPos m,
  let endPos := snd (fst (recordsLoop fuel nowMs caller rxMsg msgPos m)) in
  msgPos <= endPos /\ endPos <= Z.max msgPos (msgLength rxMsg).
Proof.
  induction fuel as [| fuel IH]; intros msgPos m; cbn.
  - destruct (msgPos <? msgLength rxMsg); cbn; lia.
  - destruct (Z.ltb_spec msgPos (msgLength rxMsg)); [| cbn; lia].
    destruct (_ <? recordLenLen + recordHeaderLen); [cbn; lia |].
    destruct (Z.ltb_spec (msgLength rxMsg - msgPos - recordLenLen)
                (recordLenAt rxMsg msgPos)); [cbn; lia |].
    pose proof (BinaryParserProps.recordLenAt_range rxMsg msgPos).
    match goal with
    | |- context [RaftDeviceManager.recordsLoop _ _ fuel _ _ _ ?p ?m1] =>
        specialize (IH p m1)
    end.
    cbv zeta in IH. unfold recordLenLen in *. lia.
Qed.

(** X6: [handleClientMsgBinary] returns on every frame: the record
    loop, which moves forward by at least the two bytes of a length
    prefix every turn, needs no more turns than the frame has bytes.
    The position it stops at is from 2 on and, for a frame of two bytes
    or more, inside the frame. *)
Theorem handleClientMsgBinary_returns nowMs rxMsg m :
  let '(outcome, endPos, _) := handleClientMsgBinary nowMs rxMsg m in
  outcome <> FrameFuelOut /\
  2 <= endPos /\ endPos <= Z.max 2 (msgLength rxMsg).
Proof.
  unfold RaftDeviceManager.handleClientMsgBinary.
  destruct (checkEnvelope getPublishTopicName rxMsg) as [early | start] eqn:Henv.
  - destruct (checkEnvelope_early _ _ _ Henv) as [-> | ->];
      (split; [discriminate | unfold msgTypeLen; lia]).
  - pose proof (BinaryParserProps.checkEnvelope_start _ _ _ Henv) as Hstart.
    assert (Hlen : start <= Z.max 2 (msgLength rxMsg)).
    { revert Henv. unfold checkEnvelope, msgTypeLen, devbinEnvelopeLen.
      destruct (Z.leb_spec (2 + 2) (msgLength rxMsg)).
      - repeat match goal with
               | |- context [if ?c then _ else _] => destruct c
               end; intros [= <-]; lia.
      - intros [= <-]. lia. }
    set (m0 := with_debugMsgIndex (fun i => i + 1) m).
    pose proof (BinaryParserProps.recordsLoop_fuel msgHandler processMsgAttrGroup
                  (length rxMsg) nowMs (Z.to_nat (_debugMsgIndex m)) rxMsg start m0)
      as Hfuel.
    pose proof (recordsLoop_position (length rxMsg) nowMs
                  (Z.to_nat (_debugMsgIndex m)) rxMsg start m0) as Hpos.
    cbv zeta in Hpos.
    destruct (recordsLoop (length rxMsg) nowMs (Z.to_nat (_debugMsgIndex m)) rxMsg
                start m0) as [[outcome endPos] m1].
    cbn [fst snd] in Hfuel, Hpos.
    assert (Hout : outcome <> FrameFuelOut) by (apply Hfuel; unfold msgLength; lia).
    destruct outcome; (split; [first [discriminate | exact Hout] | lia]).
Qed.

End WithEnvironment.

(** X7: on a frame of four bytes or more that does not start a JSON
    text, [inspectPublishFrame] and the envelope check of
    [handleClientMsgBinary] agree: the payload offset the first reports
    is the position at which the second starts to read records, and a
    frame the first reports without an offset is the one the second
    drops for its magic byte. *)
Theorem checkEnvelope_inspectPublishFrame
    (utf8Decode : list byte -> string) (jsonParse : string -> option JsonValue)
    (topicLookup : option (Q -> option string))
    (getPublishTopicName : option (Z -> option string)) (rxMsg : list byte) :
  (4 <= length rxMsg)%nat ->
  byteAt rxMsg 2 <> 0x7B ->
  let meta := inspectPublishFrame utf8Decode jsonParse rxMsg topicLookup in
  frameType meta = FrameBinary /\
  match checkEnvelope getPublishTopicName rxMsg with
  | inr start =>
      binaryPayloadOffset meta = Some (Z.to_nat start) /\
      binaryHasEnvelope meta = Some (start =? 4)
  | inl FrameBadMagic =>
      binaryPayloadOffset meta = None /\ binaryHasEnvelope meta = Some true
  | inl _ =>
      binaryPayloadOffset meta = Some 4%nat /\ binaryHasEnvelope meta = Some true
  end.
Proof.
  intros Hlen Hjson meta. subst meta.
  destruct (lookup_lt_is_Some_2 rxMsg 2 ltac:(lia)) as (b0 & Hb0).
  assert (Hbyte : byteAt rxMsg 2 = byte_to_Z b0).
  { unfold byteAt. change (Z.to_nat 2) with 2%nat. rewrite Hb0. reflexivity. }
  rewrite Hbyte in Hjson.
  unfold inspectPublishFrame, checkEnvelope, RAFT_PUBLISH_PREFIX_LEN,
    msgTypeLen, devbinEnvelopeLen, msgLength, DEVBIN_MAGIC_MIN, DEVBIN_MAGIC_MAX,
    devbinMagicMin, devbinMagicMax.
  destruct (Nat.ltb_spec (length rxMsg) 2); [lia |].
  destruct (Nat.leb_spec (length rxMsg) 2); [lia |].
  destruct (Z.leb_spec (2 + 2) (Z.of_nat (length rxMsg))); [| lia].
  rewrite Hb0, Hbyte.
  destruct (Z.eqb_spec (byte_to_Z b0) 123); [contradiction |].
  destruct (Z.land (byte_to_Z b0) 240 =? 208).
  - destruct ((byte_to_Z b0 <? 219) || (223 <? byte_to_Z b0)).
    + split; [reflexivity |]. split; reflexivity.
    + split; [reflexivity |].
      destruct (if negb (byteAt rxMsg (2 + 1) =? 255) then _ else false);
        split; reflexivity.
  - split; [reflexivity |]. split; reflexivity.
Qed.

Lemma checkEnvelope_inspectPublishFrame_witness :
  (4 <= length [x00; x80; xdb; xff; x00; x07])%nat /\
  byteAt [x00; x80; xdb; xff; x00; x07] 2 <> 0x7B /\
  checkEnvelope None [x00; x80; xdb; xff; x00; x07] = inr 4 /\
  binaryPayloadOffset
    (inspectPublishFrame (fun _ => EmptyString) (fun _ => None)
       [x00; x80; xdb; xff; x00; x07] None) = Some 4%nat.
Proof.
  assert (Hlen : (4 <= length [x00; x80; xdb; xff; x00; x07])%nat) by (cbn; lia).
  assert (Hb : byteAt [x00; x80; xdb; xff; x00; x07] 2 <> 0x7B)
    by (vm_compute; congruence).
  split; [exact Hlen |]. split; [exact Hb |]. split; [reflexivity |].
  exact (proj1 (proj2 (checkEnvelope_inspectPublishFrame (fun _ => EmptyString)
                  (fun _ => None) None None [x00; x80; xdb; xff; x00; x07] Hlen Hb))).
Defined.

End FrameProps.

(** ** Registration of callbacks *)

Module RegistrationProps.
Import Js RaftDeviceStates RaftDeviceManager.

Lemma includes_spec l cb : includes l cb = true <-> In cb l.
Proof.
  unfold includes. rewrite existsb_exists. split.
  - intros (x & Hx & Heq). apply Nat.eqb_eq in Heq. subst x. exact Hx.
  - intros H. exists cb. split; [exact H | apply Nat.eqb_refl].
Qed.

Lemma includes_addL l cb c :
  includes (addL l cb) c = Nat.eqb c cb || includes l c.
Proof.
  apply eq_true_iff_eq. rewrite orb_true_iff, Nat.eqb_eq, !includes_spec.
  unfold addL. destruct (includes l cb) eqn:Hin.
  - apply includes_spec in Hin. split; [auto | intros [-> | H]; assumption].
  - rewrite in_app_iff. cbn. split.
    + intros [H | [-> | []]]; auto.
    + intros [-> | H]; auto.
Qed.

Lemma includes_removeL l cb c :
  includes (removeL l cb) c = negb (Nat.eqb c cb) && includes l c.
Proof.
  apply eq_true_iff_eq. rewrite andb_true_iff, negb_true_iff, Nat.eqb_neq, !includes_spec.
  unfold removeL. rewrite filter_In, negb_true_iff, Nat.eqb_neq. tauto.
Qed.

Lemma NoDup_addL l cb : NoDup l -> NoDup (addL l cb).
Proof.
  intros H. unfold addL. destruct (includes l cb) eqn:Hin; [exact H |].
  apply NoDup_app. split; [exact H |]. split; [| apply NoDup_singleton].
  intros x Hx Hcb. apply list_elem_of_singleton in Hcb. subst x.
  apply list_elem_of_In, includes_spec in Hx. congruence.
Qed.

Lemma NoDup_removeL l cb : NoDup l -> NoDup (removeL l cb).
Proof.
  intros H. unfold removeL. induction H as [| x l Hx H IH]; cbn; [constructor |].
  destruct (negb (x =? cb)%nat); [| exact IH].
  constructor; [| exact IH]. intros Hin. apply Hx.
  apply list_elem_of_In in Hin. apply filter_In in Hin as [Hin _].
  apply list_elem_of_In. exact Hin.
Qed.

(** A registration touches the list of its own kind and nothing else. *)
Lemma register_callbackList r m kind :
  callbackList kind (callbacks (register r m))
  = match r with
    | Add k cb =>
        if kind_eqb k kind then addL (callbackList kind (callbacks m)) cb
        else callbackList kind (callbacks m)
    | Remove k cb =>
        if kind_eqb k kind then removeL (callbackList kind (callbacks m)) cb
        else callbackList kind (callbacks m)
    end.
Proof.
  destruct r as [k cb | k cb]; destruct k, kind; cbn [register kind_eqb];
    unfold addNewDeviceCallback, addNewAttributeCallback, addAttributeDataCallback,
      addDecodedDataCallback, addDeviceRemovedCallback, addL;
    cbn [callbackList]; try reflexivity;
    match goal with
    | |- context [includes ?l cb] => destruct (includes l cb); reflexivity
    end.
Qed.

Lemma registerAll_lists rs : forall m kind,
  NoDup (callbackList kind (callbacks m)) ->
  NoDup (callbackList kind (callbacks (registerAll rs m))) /\
  forall cb,
    includes (callbackList kind (callbacks (registerAll rs m))) cb
    = lastIsAdd kind cb rs (includes (callbackList kind (callbacks m)) cb).
Proof.
  induction rs as [| r rs IH]; intros m kind Hnodup.
  - split; [exact Hnodup | reflexivity].
  - cbn [registerAll fold_left lastIsAdd].
    assert (Hstep : NoDup (callbackList kind (callbacks (register r m)))).
    { rewrite register_callbackList.
      destruct r as [k cb | k cb]; destruct (kind_eqb k kind);
        auto using NoDup_addL, NoDup_removeL. }
    destruct (IH (register r m) kind Hstep) as (Hn & Hin).
    split; [exact Hn |]. intros cb. unfold registerAll in Hin. rewrite Hin.
    unfold lastIsAdd. f_equal. rewrite register_callbackList.
    destruct r as [k c | k c]; destruct (kind_eqb k kind); cbn [andb];
      try reflexivity.
    + rewrite includes_addL, (Nat.eqb_sym c cb).
      destruct (Nat.eqb cb c); reflexivity.
    + rewrite includes_removeL, (Nat.eqb_sym c cb).
      destruct (Nat.eqb cb c); reflexivity.
Qed.

(** X8: after any sequence of calls of the registration methods on a
    new manager, every callback list is free of duplicates, and a
    callback is on the list of a kind exactly when the last call that
    named it for that kind was an add. *)
Theorem registerAll_callbacks (rs : list Registration) (kind : CallbackKind) :
  let m := registerAll rs newDeviceManager in
  NoDup (callbackList kind (callbacks m)) /\
  forall cb, includes (callbackList kind (callbacks m)) cb = lastIsAdd kind cb rs false.
Proof.
  intros m. subst m.
  destruct (registerAll_lists rs newDeviceManager kind) as (Hn & Hin).
  { destruct kind; constructor. }
  split; [exact Hn |]. intros cb. rewrite Hin. destruct kind; reflexivity.
Qed.

End RegistrationProps.

(** ** The callbacks a frame calls *)

Module CallbackProps.
Import Js RaftDeviceStates RaftDeviceManager.

Lemma Keeps_refl m : Keeps m m.
Proof.
  repeat split. exists []. split; [symmetry; apply app_nil_r | reflexivity].
Qed.

Lemma Keeps_trans m1 m2 m3 : Keeps m1 m2 -> Keeps m2 m3 -> Keeps m1 m3.
Proof.
  intros (Hs & Hc & Hd & new & Ht & Hr) (Hs' & Hc' & Hd' & new' & Ht' & Hr').
  repeat split; try congruence.
  exists (new ++ new'). split.
  - rewrite Ht', Ht, app_assoc. reflexivity.
  - rewrite forallb_app, Hr. rewrite Hc in Hr'. exact Hr'.
Qed.

Lemma Keeps_emit m evs :
  forallb (registered (callbacks m)) evs = true -> Keeps m (emit evs m).
Proof. intros H. repeat split. exists evs. split; [reflexivity | exact H]. Qed.

Lemma Keeps_silent m m' :
  settings m' = settings m -> callbacks m' = callbacks m ->
  _debugMsgIndex m' = _debugMsgIndex m -> trace m' = trace m -> Keeps m m'.
Proof.
  intros Hs Hc Hd Ht. repeat split; try assumption.
  exists []. split; [rewrite Ht, app_nil_r; reflexivity | reflexivity].
Qed.

Lemma includes_In l cb : In cb l -> includes l cb = true.
Proof.
  intros H. unfold includes. apply existsb_exists. exists cb.
  split; [exact H | apply Nat.eqb_refl].
Qed.

Lemma forallb_map_registered cbs (mk : nat -> Event) (l : list nat) :
  (forall cb, In cb l -> registered cbs (mk cb) = true) ->
  forallb (registered cbs) (map mk l) = true.
Proof.
  intros H. apply forallb_forall. intros e He. apply in_map_iff in He as (cb & <- & Hcb).
  apply H, Hcb.
Qed.

Lemma forallb_concat {A} (p : A -> bool) (ls : list (list A)) :
  (forall l, In l ls -> forallb p l = true) -> forallb p (concat ls) = true.
Proof.
  induction ls as [| l ls IH]; intros H; [reflexivity |]. cbn.
  rewrite forallb_app, (H l (or_introl eq_refl)). cbn. apply IH.
  intros l' Hl'. apply H. right. exact Hl'.
Qed.

Lemma Keeps_removeDevice key m : Keeps m (removeDevice key m).
Proof.
  unfold removeDevice.
  destruct (_devicesState m !! key) as [d |].
  - repeat split. cbn. eexists. split; [reflexivity |].
    apply forallb_map_registered. intros cb Hcb. cbn. apply includes_In, Hcb.
  - apply Keeps_silent; reflexivity.
Qed.

Lemma Keeps_updateDeviceStats key n nowMs m : Keeps m (updateDeviceStats key n nowMs m).
Proof. apply Keeps_silent; reflexivity. Qed.

Lemma Keeps_emitDecodedData key bus addr d resp before tl name markers m :
  Keeps m (emitDecodedData key bus addr d resp before tl name markers m).
Proof.
  unfold emitDecodedData. destruct resp as [resp |]; [| apply Keeps_refl].
  destruct (fold_left _ (resp_a resp) (∅, false)) as [attrValues hasValues].
  destruct (negb hasValues); [apply Keeps_refl |].
  apply Keeps_emit, forallb_map_registered. intros cb Hcb. cbn. apply includes_In, Hcb.
Qed.

Section WithEnvironment.

Variable msgHandler : option (string -> RestReply).
Variable getPublishTopicName : option (Z -> option string).
Variable processMsgAttrGroup :
  list byte -> Z -> DeviceTimeline -> DeviceTypeResp ->
  gmap string DeviceAttributeState -> Z ->
  Z * DeviceTimeline * gmap string DeviceAttributeState.

Lemma Keeps_call nowMs caller bus ty m :
  Keeps m (snd (getDeviceTypeInfo_call msgHandler nowMs caller bus ty m)).
Proof.
  unfold getDeviceTypeInfo_call.
  destruct (hasProperty _ _).
  { destruct (_cachedDeviceTypeRecs (typeCache m) !! ty) as [cached |];
      apply Keeps_emit; reflexivity. }
  destruct (_pendingDeviceTypeRequests (typeCache m) !! ty) as [req |].
  { apply Keeps_silent; reflexivity. }
  destruct (rateLimited nowMs ty m).
  { apply Keeps_emit. reflexivity. }
  destruct msgHandler.
  - repeat split. exists [EvExecuteRequest bus ty; EvSendREST (typeInfoCmd bus ty)].
    split; [cbn -[typeInfoCmd]; rewrite <- app_assoc; reflexivity | reflexivity].
  - repeat split. exists [EvExecuteRequest bus ty]. split; reflexivity.
Qed.

Lemma Keeps_reply ty reply m : Keeps m (executeDeviceTypeInfoRequest_reply ty reply m).
Proof.
  unfold executeDeviceTypeInfoRequest_reply.
  destruct (_pendingDeviceTypeRequests (typeCache m) !! ty) as [req |];
    [| apply Keeps_refl].
  destruct (reqPromise req); [apply Keeps_refl |].
  destruct reply; apply Keeps_silent; reflexivity.
Qed.

Lemma Keeps_resume ty m : Keeps m (getDeviceTypeInfo_resume ty m).
Proof.
  unfold getDeviceTypeInfo_resume.
  destruct (_pendingDeviceTypeRequests (typeCache m) !! ty) as [req |];
    [| apply Keeps_refl].
  destruct (reqPromise req) as [result |]; [| apply Keeps_refl].
  repeat split. cbn. eexists. split; [reflexivity |].
  cbn. apply forallb_forall. intros e He.
  apply in_map_iff in He as (c & <- & _). reflexivity.
Qed.

Lemma Keeps_await nowMs caller bus ty m :
  Keeps m (snd (awaitDeviceTypeInfo msgHandler nowMs caller bus ty m)).
Proof.
  unfold awaitDeviceTypeInfo.
  pose proof (Keeps_call nowMs caller bus ty m) as Hcall.
  destruct (getDeviceTypeInfo_call msgHandler nowMs caller bus ty m)
    as [[v | name |] m1]; cbn [snd] in *; [exact Hcall | exact Hcall |].
  eapply Keeps_trans; [exact Hcall |].
  eapply Keeps_trans; [| apply Keeps_resume].
  destruct msgHandler as [send |]; [| apply Keeps_refl].
  destruct (_pendingDeviceTypeRequests (typeCache m1) !! ty); [| apply Keeps_refl].
  apply Keeps_reply.
Qed.

Lemma Keeps_processRecord nowMs caller rxMsg msgPos recordLen m :
  Keeps m (processRecord msgHandler processMsgAttrGroup nowMs caller rxMsg msgPos
             recordLen m).
Proof.
  unfold processRecord.
  set (key := recordDeviceKey rxMsg msgPos).
  set (m0 := with_lastUpdate _ m).
  assert (H0 : Keeps m m0) by (apply Keeps_silent; reflexivity).
  destruct (negb (Z.land (recordStatusByte rxMsg msgPos) 64 =? 0)).
  { eapply Keeps_trans; [exact H0 | apply Keeps_removeDevice]. }
  match goal with
  | |- context [if ?needs then _ else (true, m0)] => destruct needs
  end.
  - pose proof (Keeps_await nowMs caller (recordBusStr rxMsg msgPos)
                  (intDigits 10 (recordDevTypeIdx rxMsg msgPos)) m0) as Hawait.
    destruct (awaitDeviceTypeInfo _ _ _ _ _ m0) as [[info |] m1]; cbn [snd] in Hawait.
    + cbn [negb].
      set (m2 := with_devicesState _ m1).
      assert (H2 : Keeps m m2).
      { eapply Keeps_trans; [exact H0 |]. eapply Keeps_trans; [exact Hawait |].
        apply Keeps_silent; reflexivity. }
      clearbody m2.
      destruct (_devicesState m2 !! key) as [d |]; [| exact H2].
      destruct (deviceTypeInfo (set_onlineState _ d)) as [[nm [resp |] acts] |].
      * destruct (pollLoop _ _ _ _ _ _ _ _ _ _) as [[[p tl] attrs] changed].
        eapply Keeps_trans; [exact H2 |].
        eapply Keeps_trans; [| apply Keeps_updateDeviceStats].
        eapply Keeps_trans; [| apply Keeps_emitDecodedData].
        apply Keeps_silent; reflexivity.
      * eapply Keeps_trans; [exact H2 |]. apply Keeps_silent; reflexivity.
      * eapply Keeps_trans; [exact H2 |]. apply Keeps_silent; reflexivity.
    + cbn [negb]. eapply Keeps_trans; [exact H0 | exact Hawait].
  - cbn [negb].
    destruct (_devicesState m0 !! key) as [d |]; [| exact H0].
    destruct (deviceTypeInfo (set_onlineState _ d)) as [[nm [resp |] acts] |].
    + destruct (pollLoop _ _ _ _ _ _ _ _ _ _) as [[[p tl] attrs] changed].
      eapply Keeps_trans; [exact H0 |].
      eapply Keeps_trans; [| apply Keeps_updateDeviceStats].
      eapply Keeps_trans; [| apply Keeps_emitDecodedData].
      apply Keeps_silent; reflexivity.
    + eapply Keeps_trans; [exact H0 |]. apply Keeps_silent; reflexivity.
    + eapply Keeps_trans; [exact H0 |]. apply Keeps_silent; reflexivity.
Qed.

Lemma Keeps_recordsLoop fuel nowMs caller rxMsg : forall msgPos m,
  Keeps m (snd (recordsLoop msgHandler processMsgAttrGroup fuel nowMs caller rxMsg
                  msgPos m)).
Proof.
  induction fuel as [| fuel IH]; intros msgPos m; cbn.
  - destruct (msgPos <? msgLength rxMsg); apply Keeps_refl.
  - destruct (msgPos <? msgLength rxMsg); [| apply Keeps_refl].
    destruct (_ <? recordLenLen + recordHeaderLen); [apply Keeps_refl |].
    destruct (_ <? recordLenAt rxMsg msgPos); [apply Keeps_refl |].
    eapply Keeps_trans; [apply Keeps_processRecord | apply IH].
Qed.

Lemma Keeps_removeStaleDevices nowTime m : Keeps m (removeStaleDevices nowTime m).
Proof.
  unfold removeStaleDevices. destruct (_removeDevicesFlag (settings m));
    [| apply Keeps_refl].
  generalize (map_to_list (_deviceLastUpdateTime m)) as l.
  generalize (_removeDevicesTimeMs (settings m)) as limit.
  intros limit l. generalize (Keeps_refl m). generalize m at 2 4 as m'.
  induction l as [| [k t] l IH]; intros m' H; [exact H |].
  cbn [fold_left]. apply IH.
  destruct (limit <? nowTime - t); [| exact H].
  eapply Keeps_trans; [exact H |]. apply Keeps_silent; reflexivity.
Qed.

Lemma registered_attrCallbacks cbs key a :
  forallb (registered cbs) (fst (attrCallbacks cbs key a)) = true.
Proof.
  unfold attrCallbacks. cbn [fst]. rewrite forallb_app.
  apply andb_true_intro. split.
  - destruct (newAttribute a); [| reflexivity].
    apply forallb_map_registered. intros cb Hcb. apply includes_In, Hcb.
  - destruct (newData _); [| reflexivity].
    apply forallb_map_registered. intros cb Hcb. apply includes_In, Hcb.
Qed.

Lemma registered_deviceCallbacks cbs key d :
  forallb (registered cbs) (fst (deviceCallbacks cbs key d)) = true.
Proof.
  unfold deviceCallbacks. cbn [fst]. rewrite forallb_app.
  apply andb_true_intro. split.
  - destruct (deviceIsNew d); [| reflexivity].
    apply forallb_map_registered. intros cb Hcb. apply includes_In, Hcb.
  - apply forallb_concat. intros l Hl. apply in_map_iff in Hl as ([n a] & <- & _).
    apply registered_attrCallbacks.
Qed.

Lemma Keeps_processStateCallback m : Keeps m (processStateCallback m).
Proof.
  unfold processStateCallback. repeat split. cbn. eexists. split; [reflexivity |].
  apply forallb_concat. intros l Hl. apply in_map_iff in Hl as ([k d] & <- & _).
  apply registered_deviceCallbacks.
Qed.

(** X9: whatever the frame holds and however its processing ends,
    [handleClientMsgBinary] leaves the settings and the registered
    callbacks as they are, counts the frame once, and calls none but
    registered callbacks, each for the kind of event it was registered
    for. *)
Theorem handleClientMsgBinary_calls_registered nowMs rxMsg m :
  let m' := snd (handleClientMsgBinary msgHandler getPublishTopicName
                   processMsgAttrGroup nowMs rxMsg m) in
  settings m' = settings m /\
  callbacks m' = callbacks m /\
  _debugMsgIndex m' = _debugMsgIndex m + 1 /\
  exists new,
    trace m' = trace m ++ new /\
    forallb (registered (callbacks m)) new = true.
Proof.
  intros m'. subst m'.
  set (m0 := with_debugMsgIndex (fun i => i + 1) m).
  assert (Hgoal : Keeps m0 (snd (handleClientMsgBinary msgHandler getPublishTopicName
                                   processMsgAttrGroup nowMs rxMsg m))).
  { unfold handleClientMsgBinary. fold m0.
    destruct (checkEnvelope getPublishTopicName rxMsg) as [early | start];
      [apply Keeps_refl |].
    pose proof (Keeps_recordsLoop (length rxMsg) nowMs (Z.to_nat (_debugMsgIndex m))
                  rxMsg start m0) as Hloop.
    destruct (recordsLoop _ _ _ _ _ _ _ m0) as [[outcome endPos] m1].
    cbn [snd] in Hloop.
    destruct outcome; cbn [snd]; try exact Hloop.
    eapply Keeps_trans; [exact Hloop |].
    eapply Keeps_trans; [apply Keeps_removeStaleDevices | apply Keeps_processStateCallback]. }
  destruct Hgoal as (Hs & Hc & Hd & new & Ht & Hr).
  repeat split; try assumption. exists new. split; assumption.
Qed.

End WithEnvironment.

End CallbackProps.

(** ** The sweep for devices that are not updated *)

Module SweepProps.
Import Js RaftDeviceStates RaftDeviceManager.

(** The sweep over a list of (device key, last update time). *)
Lemma sweep_effect limit nowTime entries : forall m,
  let m' :=
    fold_left
      (fun m' '(deviceKey, lastUpdateTime) =>
         if limit <? nowTime - lastUpdateTime then
           with_deviceStats (delete deviceKey)
             (with_devicesState (delete deviceKey) m')
         else m')
      entries m in
  let swept key :=
    existsb (fun '(k, t) => bool_decide (k = key) && (limit <? nowTime - t)) entries in
  (forall key, _devicesState m' !! key
               = if swept key then None else _devicesState m !! key) /\
  (forall key, _deviceStats m' !! key
               = if swept key then None else _deviceStats m !! key) /\
  _deviceLastUpdateTime m' = _deviceLastUpdateTime m /\
  typeCache m' = typeCache m /\ trace m' = trace m.
Proof.
  induction entries as [| [k t] entries IH]; intros m; cbn zeta.
  - repeat split.
  - cbn [fold_left existsb].
    match goal with
    | |- context [fold_left _ entries ?m1] =>
        destruct (IH m1) as (Hd & Hs & Hl & Htc & Htr)
    end.
    cbv zeta in *.
    destruct (limit <? nowTime - t) eqn:Hold.
    + repeat split; try assumption; intros key; [rewrite Hd | rewrite Hs];
        rewrite andb_true_r; destruct (existsb _ entries); cbn;
        rewrite ?orb_true_r; try reflexivity;
        rewrite orb_false_r; destruct (decide (k = key)) as [-> | Hne];
        [rewrite bool_decide_eq_true_2 by reflexivity; apply lookup_delete_eq
        |rewrite bool_decide_eq_false_2 by assumption; apply lookup_delete_ne, Hne
        |rewrite bool_decide_eq_true_2 by reflexivity; apply lookup_delete_eq
        |rewrite bool_decide_eq_false_2 by assumption; apply lookup_delete_ne, Hne].
    + repeat split; try assumption; intros key; [rewrite Hd | rewrite Hs];
        rewrite andb_false_r; reflexivity.
Qed.

Lemma swept_map_to_list limit nowTime (times : gmap string Z) key :
  existsb (fun '(k, t) => bool_decide (k = key) && (limit <? nowTime - t))
    (map_to_list times)
  = match times !! key with
    | Some t => limit <? nowTime - t
    | None => false
    end.
Proof.
  apply eq_true_iff_eq. rewrite existsb_exists. split.
  - intros ([k t] & Hin & Hp). apply andb_prop in Hp as [Hk Ht].
    apply bool_decide_eq_true in Hk. subst k.
    apply list_elem_of_In, elem_of_map_to_list in Hin. rewrite Hin. exact Ht.
  - destruct (times !! key) as [t |] eqn:Hk; [| discriminate].
    intros Ht. exists (key, t). split.
    + apply list_elem_of_In, elem_of_map_to_list, Hk.
    + rewrite bool_decide_eq_true_2 by reflexivity. exact Ht.
Qed.

(** X10: the sweep for devices that have not been updated deletes the
    state and the statistics of exactly the devices whose last update is
    older than the limit, and only when removal is switched on.  It
    keeps the last-update times, those of the deleted devices included,
    and calls no callback. *)
Theorem removeStaleDevices_sweep (nowTime : Z) (m : DeviceManager) :
  let m' := removeStaleDevices nowTime m in
  let gone key := _removeDevicesFlag (settings m) && isStale nowTime m key in
  (forall key, _devicesState m' !! key
               = if gone key then None else _devicesState m !! key) /\
  (forall key, _deviceStats m' !! key
               = if gone key then None else _deviceStats m !! key) /\
  _deviceLastUpdateTime m' = _deviceLastUpdateTime m /\
  typeCache m' = typeCache m /\
  trace m' = trace m.
Proof.
  cbv zeta. unfold removeStaleDevices, isStale.
  destruct (_removeDevicesFlag (settings m)); cbn [andb]; [| repeat split].
  destruct (sweep_effect (_removeDevicesTimeMs (settings m)) nowTime
              (map_to_list (_deviceLastUpdateTime m)) m)
    as (Hd & Hs & Hl & Htc & Htr).
  cbv zeta in Hd, Hs, Hl, Htc, Htr.
  repeat split; try assumption; intros key; [rewrite Hd | rewrite Hs];
    rewrite swept_map_to_list; reflexivity.
Qed.

End SweepProps.

(** ** The state callbacks *)

Module StateCallbackProps.
Import Js RaftDeviceStates RaftDeviceManager.

Lemma concat_map_nil {A B} (f : A -> list B) (l : list A) :
  (forall x, In x l -> f x = []) -> concat (map f l) = [].
Proof.
  induction l as [| x l IH]; intros H; [reflexivity |]. cbn.
  rewrite (H x (or_introl eq_refl)), IH; [reflexivity |].
  intros y Hy. apply H. right. exact Hy.
Qed.

Lemma attrCallbacks_cleared cbs key a :
  let a' := snd (attrCallbacks cbs key a) in
  newAttribute a' = false /\ newData a' = false /\
  attrCallbacks cbs key a' = ([], a').
Proof. destruct a. cbn. repeat split. Qed.

Lemma deviceCallbacks_cleared cbs key d :
  let d' := snd (deviceCallbacks cbs key d) in
  deviceIsNew d' = false /\
  (forall n a, deviceAttributes d' !! n = Some a ->
               newAttribute a = false /\ newData a = false) /\
  deviceCallbacks cbs key d' = ([], d').
Proof.
  cbv zeta. split; [reflexivity |]. split.
  - intros n a. cbn [snd deviceCallbacks deviceAttributes]. rewrite lookup_fmap.
    destruct (deviceAttributes d !! n) as [a0 |]; [| discriminate].
    intros [= <-]. pose proof (attrCallbacks_cleared cbs key a0) as (H1 & H2 & _).
    split; assumption.
  - unfold deviceCallbacks at 1. cbn [snd deviceCallbacks deviceIsNew deviceAttributes
      deviceTypeInfo deviceTimeline stateChanged onlineState deviceAddress
      RaftDeviceManager.deviceType busName].
    f_equal.
    + cbn [app]. apply concat_map_nil. intros [n a] Hin.
      apply list_elem_of_In, elem_of_map_to_list in Hin.
      rewrite lookup_fmap in Hin.
      destruct (deviceAttributes d !! n) as [a0 |]; [| discriminate].
      injection Hin as <-. reflexivity.
    + f_equal. rewrite <- map_fmap_compose. apply map_fmap_ext.
      intros n a _. reflexivity.
Qed.

(** X11: [processStateCallback] leaves no device marked new and no
    attribute marked as new or as holding new data, so a second run with
    nothing decoded in between calls no callback and changes nothing. *)
Theorem processStateCallback_once (m : DeviceManager) :
  let m' := processStateCallback m in
  (forall key d, _devicesState m' !! key = Some d ->
     deviceIsNew d = false /\
     forall n a, deviceAttributes d !! n = Some a ->
                 newAttribute a = false /\ newData a = false) /\
  processStateCallback m' = m'.
Proof.
  cbv zeta.
  assert (Hlook : forall key d,
            _devicesState (processStateCallback m) !! key = Some d ->
            exists d0, d = snd (deviceCallbacks (callbacks m) key d0)).
  { intros key d. unfold processStateCallback. cbn. rewrite map_lookup_imap.
    destruct (_devicesState m !! key) as [d0 |]; [| discriminate].
    cbn. intros [= <-]. exists d0. reflexivity. }
  split.
  - intros key d Hd. destruct (Hlook key d Hd) as (d0 & ->).
    pose proof (deviceCallbacks_cleared (callbacks m) key d0) as (H1 & H2 & _).
    split; assumption.
  - unfold processStateCallback at 1.
    set (m1 := processStateCallback m) in *.
    assert (Hcb : callbacks m1 = callbacks m) by reflexivity.
    rewrite Hcb.
    assert (Hnil : concat (map (fun '(k, d) => fst (deviceCallbacks (callbacks m) k d))
                             (map_to_list (_devicesState m1))) = []).
    { apply concat_map_nil. intros [k d] Hin.
      apply list_elem_of_In, elem_of_map_to_list in Hin.
      destruct (Hlook k d Hin) as (d0 & ->).
      pose proof (deviceCallbacks_cleared (callbacks m) k d0) as (_ & _ & ->).
      reflexivity. }
    rewrite Hnil.
    assert (Hmap : map_imap (fun k d => Some (snd (deviceCallbacks (callbacks m) k d)))
                     (_devicesState m1) = _devicesState m1).
    { apply map_eq. intros k. rewrite map_lookup_imap.
      destruct (_devicesState m1 !! k) as [d |] eqn:Hk; [| reflexivity].
      destruct (Hlook k d Hk) as (d0 & ->).
      change (Some (snd (deviceCallbacks (callbacks m) k
                           (snd (deviceCallbacks (callbacks m) k d0))))
              = Some (snd (deviceCallbacks (callbacks m) k d0))).
      pose proof (deviceCallbacks_cleared (callbacks m) k d0) as (_ & _ & ->).
      reflexivity. }
    unfold emit, with_devicesState.
    cbn [settings callbacks _devicesState _deviceLastUpdateTime _deviceStats
         typeCache _debugMsgIndex trace].
    rewrite Hmap, app_nil_r. clearbody m1. destruct m1; reflexivity.
Qed.

End StateCallbackProps.

(** ** The device-type cache after a flight *)

Module TypeCacheFlightProps.
Import Js RaftDeviceStates RaftDeviceManager Scenarios.

Section WithHandler.

Variable msgHandler : option (string -> RestReply).
Variable deviceType : string.

Abbreviation cachedAt m := (_cachedDeviceTypeRecs (typeCache m) !! deviceType).
Abbreviation pendingAt m := (_pendingDeviceTypeRequests (typeCache m) !! deviceType).
Abbreviation attemptAt m :=
  (_cachedDeviceTypePreviousAttemptTimes (typeCache m) !! deviceType).
Abbreviation call := (getDeviceTypeInfo_call msgHandler).

(** Throughout, the device type is not the name of an inherited
    member. *)
Hypothesis notInherited : inherited deviceType = false.

(** The first call of a flight puts its time on record. *)
Lemma call_first_attempt nowMs caller busName m :
  cachedAt m = None ->
  pendingAt m = None ->
  rateLimited nowMs deviceType m = false ->
  let m1 := snd (call nowMs caller busName deviceType m) in
  attemptAt m1 = Some nowMs /\ settings m1 = settings m.
Proof.
  intros Hc Hp Hr. unfold getDeviceTypeInfo_call, hasProperty.
  rewrite Hc, notInherited, Hp, Hr.
  destruct msgHandler; cbn; (split; [apply lookup_insert_eq | reflexivity]).
Qed.

(** Calls that queue up or find the schema cached leave the attempt
    times and the settings alone. *)
Lemma callAll_keeps calls : forall m,
  (is_Some (cachedAt m) \/ is_Some (pendingAt m)) ->
  let m' := callAll msgHandler deviceType calls m in
  attemptAt m' = attemptAt m /\ settings m' = settings m /\ cachedAt m' = cachedAt m /\
  (is_Some (pendingAt m') <-> is_Some (pendingAt m)).
Proof.
  induction calls as [| [[nowMs caller] busName] calls IH]; intros m Hm; cbv zeta.
  - repeat split; auto.
  - rewrite TypeCacheProps.callAll_cons.
    destruct (cachedAt m) as [v |] eqn:Hc.
    + rewrite (TypeCacheProps.call_cached msgHandler deviceType _ _ _ _ _ Hc).
      cbn [snd].
      destruct (IH (emit [EvResolved caller v] m)) as (Ha & Hs & Hc' & Hp').
      { left. cbn. rewrite Hc. eauto. }
      cbn in Ha, Hs, Hc', Hp'. rewrite Hc in Hc'. repeat split; tauto.
    + destruct Hm as [[v Hv] | [req Hp]]; [discriminate |].
      rewrite (TypeCacheProps.call_pending msgHandler deviceType notInherited _ _ _ _ _ Hc Hp).
      cbn [snd].
      match goal with
      | |- context [callAll _ _ calls ?m1] =>
          destruct (IH m1) as (Ha & Hs & Hc' & Hp')
      end.
      { right. cbn. rewrite lookup_insert_eq. eauto. }
      cbn in Ha, Hs, Hc', Hp'. rewrite lookup_insert_eq in Hp'.
      rewrite Hc in Hc'. rewrite Hp.
      repeat split; try assumption; intros _; [eauto | apply Hp'; eauto].
Qed.

Lemma reply_keeps reply m :
  let m' := executeDeviceTypeInfoRequest_reply deviceType reply m in
  attemptAt m' = attemptAt m /\ settings m' = settings m.
Proof.
  cbv zeta. unfold executeDeviceTypeInfoRequest_reply.
  destruct (pendingAt m) as [req |]; [| split; reflexivity].
  destruct (reqPromise req); [split; reflexivity |].
  destruct reply; split; reflexivity.
Qed.

Lemma resume_keeps m :
  let m' := getDeviceTypeInfo_resume deviceType m in
  attemptAt m' = attemptAt m /\ settings m' = settings m /\ cachedAt m' = cachedAt m /\
  pendingAt m' = match pendingAt m with
                 | Some req => if reqPromise req is Some _ then None else Some req
                 | None => None
                 end.
Proof.
  cbv zeta. unfold getDeviceTypeInfo_resume.
  destruct (pendingAt m) as [req |] eqn:Hp; [| repeat split; assumption].
  destruct (reqPromise req); [| repeat split; assumption].
  repeat split. cbn. apply lookup_delete_eq.
Qed.

(** The cache after one flight from a state in which the device type is
    not cached, not pending and not rate limited. *)
Lemma singleFlight_cache nowMs caller busName during after reply m :
  cachedAt m = None ->
  pendingAt m = None ->
  rateLimited nowMs deviceType m = false ->
  let m' := singleFlight msgHandler deviceType (nowMs, caller, busName)
              during reply after m in
  cachedAt m'
  = match msgHandler, reply with
    | Some _, RestOk devinfo => Some devinfo
    | _, _ => None
    end /\
  pendingAt m' = None /\
  attemptAt m' = Some nowMs /\
  settings m' = settings m.
Proof.
  intros Hc Hp Hr. cbv zeta. unfold singleFlight.
  rewrite TypeCacheProps.callAll_cons.
  destruct (TypeCacheProps.call_first msgHandler deviceType notInherited nowMs caller
              busName m Hc Hp Hr) as (_ & Hc1 & Hp1).
  destruct (call_first_attempt nowMs caller busName m Hc Hp Hr) as (Ha1 & Hs1).
  set (m1 := snd (call nowMs caller busName deviceType m)) in *.
  destruct (TypeCacheProps.callAll_pending msgHandler deviceType notInherited during
              m1 _ Hc1 Hp1) as (_ & Hc2 & Hp2).
  destruct (callAll_keeps during m1) as (Ha2 & Hs2 & _ & _).
  { right. rewrite Hp1. eauto. }
  set (m2 := callAll msgHandler deviceType during m1) in *.
  cbn [reqOwner reqBus reqPromise waitingQueue app] in Hp2.
  destruct (reply_keeps reply m2) as (Ha3 & Hs3).
  set (m3 := executeDeviceTypeInfoRequest_reply deviceType reply m2) in *.
  assert (H3 : cachedAt m3
               = match msgHandler, reply with
                 | Some _, RestOk devinfo => Some devinfo
                 | _, _ => None
                 end /\
               exists r, pendingAt m3
                         = Some (mkPending caller busName (Some r) (callers during))).
  { subst m3. destruct msgHandler as [send |].
    - destruct (TypeCacheProps.reply_effect deviceType reply m2 _ Hp2 eq_refl)
        as (_ & Hc3 & Hp3).
      cbn [reqOwner reqBus reqPromise waitingQueue] in Hp3.
      rewrite Hc3, Hp3. split; [destruct reply; auto | eauto].
    - rewrite (TypeCacheProps.reply_settled deviceType reply m2 _ None Hp2 eq_refl).
      split; [exact Hc2 | eauto]. }
  destruct H3 as (Hc3 & r & Hp3).
  destruct (callAll_keeps after m3) as (Ha4 & Hs4 & Hc4 & Hp4).
  { right. rewrite Hp3. eauto. }
  set (m4 := callAll msgHandler deviceType after m3) in *.
  assert (Hp4' : exists q, pendingAt m4 = Some (mkPending caller busName (Some r) q)).
  { subst m4. destruct (cachedAt m3) as [v |] eqn:Hcv.
    - destruct (TypeCacheProps.callAll_cached msgHandler deviceType after m3 v Hcv)
        as (_ & Htc).
      rewrite Htc, Hp3. eauto.
    - destruct (TypeCacheProps.callAll_pending msgHandler deviceType notInherited
                  after m3 _ Hcv Hp3) as (_ & _ & Hq).
      cbn [reqOwner reqBus reqPromise waitingQueue] in Hq. rewrite Hq. eauto. }
  destruct Hp4' as (q & Hq).
  destruct (resume_keeps m4) as (Ha5 & Hs5 & Hc5 & Hp5).
  rewrite Hq in Hp5. cbn in Hp5.
  repeat split; congruence.
Qed.

(** X12: once a flight has received an "ok" reply, the device type is
    answered from the cache: every later call returns at once with the
    [devinfo] of that reply (which may be undefined) and makes no
    request. *)
Theorem getDeviceTypeInfo_cached_after_ok
    (send : string -> RestReply) (nowMs : Z) (caller : nat) (busName : string)
    (during after : list (Z * nat * string)) (devinfo : option DeviceTypeInfo)
    (m : DeviceManager) :
  msgHandler = Some send ->
  cachedAt m = None ->
  pendingAt m = None ->
  rateLimited nowMs deviceType m = false ->
  let m' := singleFlight msgHandler deviceType (nowMs, caller, busName)
              during (RestOk devinfo) after m in
  forall (later : Z) (caller' : nat) (busName' : string),
    call later caller' busName' deviceType m'
    = (Returned devinfo, emit [EvResolved caller' devinfo] m').
Proof.
  intros Hh Hc Hp Hr m' later caller' busName'.
  destruct (singleFlight_cache nowMs caller busName during after (RestOk devinfo) m
              Hc Hp Hr) as (Hc' & _).
  fold m' in Hc'. rewrite Hh in Hc'.
  apply TypeCacheProps.call_cached. exact Hc'.
Qed.

(** X13: once a flight has failed (no message handler, a reply that is
    not "ok", or an error), nothing is cached and the time of its first
    call is on record: a later call earlier than the retry interval
    after it returns undefined at once and makes no request, a call from
    then on is suspended and starts a new request. *)
Theorem getDeviceTypeInfo_retry_after_failure
    (nowMs : Z) (caller : nat) (busName : string)
    (during after : list (Z * nat * string)) (reply : RestReply)
    (m : DeviceManager) :
  cachedAt m = None ->
  pendingAt m = None ->
  rateLimited nowMs deviceType m = false ->
  msgHandler = None \/ reply = RestNotOk \/ reply = RestThrows ->
  let m' := singleFlight msgHandler deviceType (nowMs, caller, busName)
              during reply after m in
  forall (later : Z) (caller' : nat) (busName' : string),
    if later - nowMs <? _minTimeBetweenDeviceTypeInfoRetrievalMs (settings m)
    then call later caller' busName' deviceType m'
         = (Returned None, emit [EvResolved caller' None] m')
    else fst (call later caller' busName' deviceType m') = Suspended /\
         trace (snd (call later caller' busName' deviceType m'))
         = trace m' ++ EvExecuteRequest busName' deviceType
             :: (if msgHandler is Some _
                 then [EvSendREST (typeInfoCmd busName' deviceType)] else []).
Proof.
  intros Hc Hp Hr Hfail m' later caller' busName'.
  destruct (singleFlight_cache nowMs caller busName during after reply m Hc Hp Hr)
    as (Hc' & Hp' & Ha' & Hs').
  fold m' in Hc', Hp', Ha', Hs'.
  assert (Hnone : cachedAt m' = None).
  { rewrite Hc'. destruct msgHandler as [send |]; [| reflexivity].
    destruct Hfail as [Hn | [-> | ->]]; [discriminate | reflexivity ..]. }
  assert (Hlimited : rateLimited later deviceType m'
                     = (later - nowMs
                        <? _minTimeBetweenDeviceTypeInfoRetrievalMs (settings m))).
  { unfold rateLimited. rewrite Ha', Hs'. reflexivity. }
  destruct (later - nowMs <? _minTimeBetweenDeviceTypeInfoRetrievalMs (settings m)).
  - unfold getDeviceTypeInfo_call, hasProperty.
    rewrite Hnone, notInherited, Hp', Hlimited. reflexivity.
  - destruct (TypeCacheProps.call_first msgHandler deviceType notInherited later
                caller' busName' m' Hnone Hp' Hlimited) as (Ht & _).
    split; [| exact Ht].
    unfold getDeviceTypeInfo_call, hasProperty.
    rewrite Hnone, notInherited, Hp', Hlimited.
    destruct msgHandler; reflexivity.
Qed.

End WithHandler.

Lemma getDeviceTypeInfo_cached_after_ok_witness :
  inherited "12" = false /\
  rateLimited 0 "12" newDeviceManager = false /\
  getDeviceTypeInfo_call (Some accept) 5000 2 "bus0" "12"
    (singleFlight (Some accept) "12" (0, 1%nat, "bus0"%string) []
       (RestOk (Some servoInfo)) [] newDeviceManager)
  = (Returned (Some servoInfo),
     emit [EvResolved 2 (Some servoInfo)]
       (singleFlight (Some accept) "12" (0, 1%nat, "bus0"%string) []
          (RestOk (Some servoInfo)) [] newDeviceManager)).
Proof.
  split; [reflexivity |]. split; [reflexivity |].
  exact (getDeviceTypeInfo_cached_after_ok (Some accept) "12" eq_refl accept 0 1%nat
           "bus0" [] [] (Some servoInfo) newDeviceManager eq_refl eq_refl eq_refl
           eq_refl 5000 2%nat "bus0"%string).
Defined.

Lemma getDeviceTypeInfo_retry_after_failure_witness :
  inherited "12" = false /\
  rateLimited 0 "12" newDeviceManager = false /\
  getDeviceTypeInfo_call (Some refuse) 1000 2 "bus0" "12" afterFailedFetch
  = (Returned None, emit [EvResolved 2 None] afterFailedFetch) /\
  fst (getDeviceTypeInfo_call (Some refuse) 60000 2 "bus0" "12" afterFailedFetch)
  = Suspended.
Proof.
  split; [reflexivity |]. split; [reflexivity |]. split.
  - exact (getDeviceTypeInfo_retry_after_failure (Some refuse) "12" eq_refl 0 0%nat
             "bus0" [] [] RestNotOk newDeviceManager eq_refl eq_refl eq_refl
             (or_intror (or_introl eq_refl)) 1000 2%nat "bus0"%string).
  - exact (proj1 (getDeviceTypeInfo_retry_after_failure (Some refuse) "12" eq_refl 0
                    0%nat "bus0" [] [] RestNotOk newDeviceManager eq_refl eq_refl
                    eq_refl (or_intror (or_introl eq_refl)) 60000 2%nat
                    "bus0"%string)).
Defined.

End TypeCacheFlightProps.

(** ** Decoded-data events *)

Module DecodedDataProps.
Import Js RaftDeviceStates RaftDeviceManager Scenarios.








End DecodedDataProps.

(** ** The values of markers *)

Module MarkerValueProps.
Import Js RaftDeviceStates RaftDeviceManager.

(** X15: the markers of a device entry whose keys are all different.
    The own properties of the marker object are the entry's properties
    under the keys that start with an underscore, other than _t, _o and
    __proto__, each with the value the entry gives it, and nothing else.
    A property __proto__ whose value is an object, an array or null
    becomes the prototype of the marker object instead, so that a _buf
    the markers do not hold themselves is read from that object.  A
    value that is not an object has no markers. *)
Theorem extractMarkers_values (entries : list (string * JsonValue)) :
  NoDup (map fst entries) ->
  let markers := extractMarkers (JObject entries) in
  (forall k, markerProps markers !! k
             = if keptAsMarker k && negb (String.eqb k "__proto__")
               then getProp entries k else None) /\
  markerProto markers
  = match getProp entries "__proto__" with
    | Some v => if isObjectOrNull v then Some v else None
    | None => None
    end /\
  markerBuf markers
  = match getProp entries "_buf" with
    | Some v => Some v
    | None =>
        match getProp entries "__proto__" with
        | Some (JObject inner) => getProp inner "_buf"
        | _ => None
        end
    end /\
  extractMarkers JNull = mkMarkers ∅ None /\
  (forall l, extractMarkers (JArray l) = mkMarkers ∅ None) /\
  (forall s, extractMarkers (JString s) = mkMarkers ∅ None).
Proof.
  intros Hnd markers.
  destruct (MarkerProps.extractMarkers_fold entries (mkMarkers ∅ None) Hnd
              (lookup_empty _) (or_introl eq_refl)) as (Hprops & Hproto).
  cbv zeta in Hprops, Hproto. cbn [markerProps markerProto] in Hprops, Hproto.
  assert (Hown : forall k, markerProps markers !! k
                           = if keptAsMarker k && negb (String.eqb k "__proto__")
                             then getProp entries k else None).
  { intros k. subst markers. unfold extractMarkers.
    etransitivity; [apply Hprops |]. rewrite lookup_empty.
    destruct (keptAsMarker k && negb (String.eqb k "__proto__")); [| reflexivity].
    destruct (getProp entries k); reflexivity. }
  assert (Hpr : markerProto markers
                = match getProp entries "__proto__" with
                  | Some v => if isObjectOrNull v then Some v else None
                  | None => None
                  end) by exact Hproto.
  split; [exact Hown |]. split; [exact Hpr |]. split; [| repeat split].
  unfold markerBuf. rewrite (Hown "_buf"%string), Hpr.
  change (keptAsMarker "_buf" && negb (String.eqb "_buf" "__proto__")) with true.
  cbv iota.
  destruct (getProp entries "_buf"); [reflexivity |].
  destruct (getProp entries "__proto__") as [[| | | | |] |]; reflexivity.
Qed.

Lemma extractMarkers_values_witness :
  NoDup (map fst [("_t"%string, JString "servo"); ("_buf"%string, JNumber 1);
                  ("x1"%string, JString "0100")]) /\
  markerProps
    (extractMarkers (JObject [("_t"%string, JString "servo");
                              ("_buf"%string, JNumber 1);
                              ("x1"%string, JString "0100")])) !! "_buf"%string
  = Some (JNumber 1).
Proof.
  assert (Hnd : NoDup (map fst [("_t"%string, JString "servo");
                                ("_buf"%string, JNumber 1);
                                ("x1"%string, JString "0100")])).
  { apply (bool_decide_unpack (NoDup ["_t"%string; "_buf"%string; "x1"%string])).
    vm_compute. exact I. }
  split; [exact Hnd |].
  exact (proj1 (extractMarkers_values _ Hnd) "_buf"%string).
Defined.

End MarkerValueProps.

(** ** What a record touches *)

Module RecordProps.
Import Js RaftDeviceStates RaftDeviceManager Scenarios.

Lemma Elsewhere_refl key m : Elsewhere key m m.
Proof. intros other _. repeat split. Qed.

Lemma Elsewhere_trans key m1 m2 m3 :
  Elsewhere key m1 m2 -> Elsewhere key m2 m3 -> Elsewhere key m1 m3.
Proof.
  intros H12 H23 other Hne.
  destruct (H12 other Hne) as (A1 & B1 & C1), (H23 other Hne) as (A2 & B2 & C2).
  repeat split; congruence.
Qed.

Lemma Elsewhere_same key m m' :
  _devicesState m' = _devicesState m -> _deviceStats m' = _deviceStats m ->
  _deviceLastUpdateTime m' = _deviceLastUpdateTime m -> Elsewhere key m m'.
Proof. intros A B C other _. rewrite A, B, C. repeat split. Qed.

Lemma Elsewhere_removeDevice key m : Elsewhere key m (removeDevice key m).
Proof.
  intros other Hne. unfold removeDevice.
  destruct (_devicesState m !! key); cbn;
    repeat split; apply lookup_delete_ne; congruence.
Qed.

Lemma Elsewhere_updateDeviceStats key n t m :
  Elsewhere key m (updateDeviceStats key n t m).
Proof.
  intros other Hne. cbn. repeat split. apply lookup_insert_ne. congruence.
Qed.

Lemma emitDecodedData_maps key bus addr d resp before tl name markers m :
  let m' := emitDecodedData key bus addr d resp before tl name markers m in
  _devicesState m' = _devicesState m /\ _deviceStats m' = _deviceStats m /\
  _deviceLastUpdateTime m' = _deviceLastUpdateTime m /\ typeCache m' = typeCache m.
Proof.
  cbv zeta. unfold emitDecodedData. destruct resp as [resp |]; [| repeat split].
  destruct (fold_left _ (resp_a resp) (∅, false)) as [attrValues hasValues].
  destruct (negb hasValues); repeat split.
Qed.

Section WithEnvironment.

Variable msgHandler : option (string -> RestReply).
Variable processMsgAttrGroup :
  list byte -> Z -> DeviceTimeline -> DeviceTypeResp ->
  gmap string DeviceAttributeState -> Z ->
  Z * DeviceTimeline * gmap string DeviceAttributeState.

(** Asking for a device type touches the cache and the trace only. *)
Lemma awaitDeviceTypeInfo_maps nowMs caller bus ty m :
  let m' := snd (awaitDeviceTypeInfo msgHandler nowMs caller bus ty m) in
  _devicesState m' = _devicesState m /\ _deviceStats m' = _deviceStats m /\
  _deviceLastUpdateTime m' = _deviceLastUpdateTime m.
Proof.
  assert (Hcall : forall m0,
            let m1 := snd (getDeviceTypeInfo_call msgHandler nowMs caller bus ty m0) in
            _devicesState m1 = _devicesState m0 /\ _deviceStats m1 = _deviceStats m0 /\
            _deviceLastUpdateTime m1 = _deviceLastUpdateTime m0).
  { intros m0. cbv zeta. unfold getDeviceTypeInfo_call.
    destruct (hasProperty _ _).
    - destruct (_cachedDeviceTypeRecs (typeCache m0) !! ty); repeat split.
    - destruct (_pendingDeviceTypeRequests (typeCache m0) !! ty); [repeat split |].
      destruct (rateLimited nowMs ty m0); [repeat split |].
      destruct msgHandler; repeat split. }
  assert (Hreply : forall reply m0,
            let m1 := executeDeviceTypeInfoRequest_reply ty reply m0 in
            _devicesState m1 = _devicesState m0 /\ _deviceStats m1 = _deviceStats m0 /\
            _deviceLastUpdateTime m1 = _deviceLastUpdateTime m0).
  { intros reply m0. cbv zeta. unfold executeDeviceTypeInfoRequest_reply.
    destruct (_pendingDeviceTypeRequests (typeCache m0) !! ty) as [req |];
      [| repeat split].
    destruct (reqPromise req); [repeat split |]. destruct reply; repeat split. }
  assert (Hresume : forall m0,
            let m1 := getDeviceTypeInfo_resume ty m0 in
            _devicesState m1 = _devicesState m0 /\ _deviceStats m1 = _deviceStats m0 /\
            _deviceLastUpdateTime m1 = _deviceLastUpdateTime m0).
  { intros m0. cbv zeta. unfold getDeviceTypeInfo_resume.
    destruct (_pendingDeviceTypeRequests (typeCache m0) !! ty) as [req |];
      [| repeat split].
    destruct (reqPromise req); repeat split. }
  cbv zeta. unfold awaitDeviceTypeInfo.
  specialize (Hcall m). cbv zeta in Hcall.
  destruct (getDeviceTypeInfo_call msgHandler nowMs caller bus ty m)
    as [[v | name |] m1]; cbn [snd] in *; try exact Hcall.
  destruct Hcall as (A1 & B1 & C1).
  match goal with
  | |- context [getDeviceTypeInfo_resume ty ?m2] =>
      destruct (Hresume m2) as (A3 & B3 & C3);
      assert (H2 : _devicesState m2 = _devicesState m1
                   /\ _deviceStats m2 = _deviceStats m1
                   /\ _deviceLastUpdateTime m2 = _deviceLastUpdateTime m1)
  end.
  { destruct msgHandler as [send |]; [| repeat split].
    destruct (_pendingDeviceTypeRequests (typeCache m1) !! ty); [| repeat split].
    apply Hreply. }
  destruct H2 as (A2 & B2 & C2).
  repeat split; congruence.
Qed.

(** X16: a record touches its own device only: the state, the
    statistics and the last-update time of every other device are as
    before, and the last-update time of its own device is the time of
    the frame, or gone when the record announces the deletion. *)
Theorem processRecord_own_device nowMs caller rxMsg msgPos recordLen m :
  let key := recordDeviceKey rxMsg msgPos in
  let m' := processRecord msgHandler processMsgAttrGroup nowMs caller rxMsg msgPos
              recordLen m in
  (forall other, other <> key ->
     _devicesState m' !! other = _devicesState m !! other /\
     _deviceStats m' !! other = _deviceStats m !! other /\
     _deviceLastUpdateTime m' !! other = _deviceLastUpdateTime m !! other) /\
  _deviceLastUpdateTime m' !! key
  = if Z.land (recordStatusByte rxMsg msgPos) 0x40 =? 0 then Some nowMs else None.
Proof.
  intros key m'. subst m'. unfold processRecord. fold key.
  set (m0 := with_lastUpdate (fun t => <[key := nowMs]> t) m).
  assert (H0 : Elsewhere key m m0).
  { intros other Hne. cbn. repeat split. apply lookup_insert_ne. congruence. }
  assert (T0 : _deviceLastUpdateTime m0 !! key = Some nowMs) by apply lookup_insert_eq.
  destruct (Z.land (recordStatusByte rxMsg msgPos) 64 =? 0); cbn [negb].
  2:{ split.
      - apply (Elsewhere_trans key m m0); [exact H0 | apply Elsewhere_removeDevice].
      - unfold removeDevice. destruct (_devicesState m0 !! key); cbn;
          apply lookup_delete_eq. }
  assert (Hfinish : forall m2,
            Elsewhere key m m2 -> _deviceLastUpdateTime m2 !! key = Some nowMs ->
            let r :=
              match _devicesState m2 !! key with
              | None => m2
              | Some d =>
                  let d := set_onlineState
                             (if negb (Z.land (recordStatusByte rxMsg msgPos) 128 =? 0)
                              then Online else Offline) d in
                  match deviceTypeInfo d with
                  | Some {| dti_resp := Some pollRespMetadata |} =>
                      let pollDataLen := recordLen - recordHeaderLen in
                      let pollDataStartPos :=
                        msgPos + recordLenLen + busInfoLen + deviceAddrLen
                        + devTypeIdxLen in
                      let attrLengthsBefore :=
                        snapshotAttrLengths (deviceAttributes d)
                          (Some pollRespMetadata) in
                      let timelineLenBefore :=
                        Z.of_nat (length (timestampsUs (deviceTimeline d))) in
                      let '(_, timeline, attrs, changed) :=
                        pollLoop processMsgAttrGroup (Z.to_nat pollDataLen) rxMsg
                          (pollDataStartPos + pollDataLen) pollRespMetadata
                          (_maxDatapointsToStore (settings m2))
                          (msgPos + recordLenLen + busInfoLen + deviceAddrLen
                           + devTypeIdxLen)
                          (deviceTimeline d) (deviceAttributes d) (stateChanged d) in
                      let d := set_decoded timeline attrs changed d in
                      let m3 := with_devicesState (fun ds => <[key := d]> ds) m2 in
                      let m3 := emitDecodedData key (recordBusStr rxMsg msgPos)
                                  (formatDeviceAddrHex (recordDevAddr rxMsg msgPos)) d
                                  (Some pollRespMetadata) attrLengthsBefore
                                  timelineLenBefore EmptyString None m3 in
                      let newSamples :=
                        Z.of_nat (length (timestampsUs (deviceTimeline d)))
                        - timelineLenBefore in
                      updateDeviceStats key newSamples nowMs m3
                  | _ => with_devicesState (fun ds => <[key := d]> ds) m2
                  end
              end in
            Elsewhere key m r /\ _deviceLastUpdateTime r !! key = Some nowMs).
  { intros m2 H2 T2. cbv zeta.
    destruct (_devicesState m2 !! key) as [d |]; [| split; assumption].
    assert (Hset : forall d', Elsewhere key m
                                (with_devicesState (fun ds => <[key := d']> ds) m2)).
    { intros d'. apply (Elsewhere_trans key m m2); [exact H2 |].
      intros other Hne. cbn. repeat split. apply lookup_insert_ne. congruence. }
    destruct (deviceTypeInfo (set_onlineState _ d)) as [[nm [resp |] acts] |];
      [| split; [apply Hset | exact T2] ..].
    destruct (pollLoop _ _ _ _ _ _ _ _ _ _) as [[[p tl] attrs] changed].
    match goal with
    | |- context [emitDecodedData ?k ?b ?a ?dd ?r ?bf ?tlb ?nm0 ?mk ?mm] =>
        destruct (emitDecodedData_maps k b a dd r bf tlb nm0 mk mm) as (A & B & C & _);
        set (m3 := emitDecodedData k b a dd r bf tlb nm0 mk mm) in *
    end.
    split.
    - eapply Elsewhere_trans; [| apply Elsewhere_updateDeviceStats].
      eapply Elsewhere_trans; [apply Hset |].
      apply Elsewhere_same; eassumption.
    - change (_deviceLastUpdateTime m3 !! key = Some nowMs). rewrite C. exact T2. }
  match goal with
  | |- context [if ?needs then _ else (true, m0)] => destruct needs
  end.
  - destruct (awaitDeviceTypeInfo_maps nowMs caller (recordBusStr rxMsg msgPos)
                (intDigits 10 (recordDevTypeIdx rxMsg msgPos)) m0) as (A & B & C).
    destruct (awaitDeviceTypeInfo _ _ _ _ _ m0) as [[info |] m1]; cbn [snd] in A, B, C.
    + cbn [negb].
      apply (Hfinish (with_devicesState _ m1)).
      * apply (Elsewhere_trans key m m0); [exact H0 |].
        intros other Hne. unfold with_devicesState.
        cbn [_devicesState _deviceStats _deviceLastUpdateTime].
        rewrite A, B, C. split; [| split; reflexivity].
        destruct (_devicesState m0 !! key); apply lookup_insert_ne; congruence.
      * cbn. rewrite C. exact T0.
    + cbn [negb]. split.
      * apply (Elsewhere_trans key m m0); [exact H0 |]. apply Elsewhere_same; assumption.
      * rewrite C. exact T0.
  - cbn [negb]. apply (Hfinish m0); assumption.
Qed.

(** X17: a record for a device that is in the state store with its
    schema, and that does not announce a deletion, keeps the device and
    its schema, sets its online state from bit 7 of the status byte and
    asks for no device type. *)
Theorem processRecord_online_state nowMs caller rxMsg msgPos recordLen m d info :
  Z.land (recordStatusByte rxMsg msgPos) 0x40 = 0 ->
  _devicesState m !! recordDeviceKey rxMsg msgPos = Some d ->
  deviceTypeInfo d = Some info ->
  let m' := processRecord msgHandler processMsgAttrGroup nowMs caller rxMsg msgPos
              recordLen m in
  typeCache m' = typeCache m /\
  exists d',
    _devicesState m' !! recordDeviceKey rxMsg msgPos = Some d' /\
    onlineState d'
    = (if Z.land (recordStatusByte rxMsg msgPos) 0x80 =? 0 then Offline else Online) /\
    deviceTypeInfo d' = Some info /\
    deviceIsNew d' = deviceIsNew d /\
    deviceAddress d' = deviceAddress d /\
    RaftDeviceManager.deviceType d' = RaftDeviceManager.deviceType d /\
    busName d' = busName d.
Proof.
  intros Hbit Hd Hinfo m'. subst m'. unfold processRecord.
  set (key := recordDeviceKey rxMsg msgPos) in *.
  rewrite Hbit. change (0 =? 0) with true. cbn [negb].
  set (m0 := with_lastUpdate (fun t => <[key := nowMs]> t) m).
  assert (Hd0 : _devicesState m0 !! key = Some d) by exact Hd.
  rewrite Hd0, Hinfo. cbn [negb]. rewrite Hd0.
  set (online := if negb (Z.land (recordStatusByte rxMsg msgPos) 128 =? 0)
                 then Online else Offline).
  assert (Honline : online = if Z.land (recordStatusByte rxMsg msgPos) 128 =? 0
                             then Offline else Online).
  { subst online. destruct (Z.land (recordStatusByte rxMsg msgPos) 128 =? 0);
      reflexivity. }
  assert (Hinfo' : deviceTypeInfo (set_onlineState online d) = Some info) by exact Hinfo.
  rewrite Hinfo'. destruct info as [nm [resp |] acts].
  - destruct (pollLoop _ _ _ _ _ _ _ _ _ _) as [[[p tl] attrs] changed].
    match goal with
    | |- context [emitDecodedData ?k ?b ?a ?dd ?r ?bf ?tlb ?nm0 ?mk ?mm] =>
        destruct (emitDecodedData_maps k b a dd r bf tlb nm0 mk mm) as (A & _ & _ & D);
        set (m3 := emitDecodedData k b a dd r bf tlb nm0 mk mm) in *
    end.
    split; [change (typeCache m3 = typeCache m); rewrite D; reflexivity |].
    exists (set_decoded tl attrs changed (set_onlineState online d)). split.
    { change (_devicesState m3 !! key
              = Some (set_decoded tl attrs changed (set_onlineState online d))).
      rewrite A. apply lookup_insert_eq. }
    rewrite <- Honline. repeat split. exact Hinfo.
  - split; [reflexivity |].
    eexists. split; [cbn; apply lookup_insert_eq |].
    rewrite <- Honline. repeat split. exact Hinfo.
Qed.

End WithEnvironment.

Lemma processRecord_online_state_witness :
  Z.land (recordStatusByte overrunFrame 4) 0x40 = 0 /\
  _devicesState oneDevice !! recordDeviceKey overrunFrame 4
  = Some (newDeviceState servoInfo "1" "76a") /\
  exists d',
    _devicesState (processRecord (Some refuse) noDecode 1000 0 overrunFrame 4 7
                     oneDevice) !! recordDeviceKey overrunFrame 4 = Some d' /\
    onlineState d' = Online.
Proof.
  split; [reflexivity |]. split; [reflexivity |].
  destruct (processRecord_online_state (Some refuse) noDecode 1000 0%nat overrunFrame
              4 7 oneDevice (newDeviceState servoInfo "1" "76a") servoInfo
              eq_refl eq_refl eq_refl) as (_ & d' & Hd' & Honline & _).
  exists d'. split; [exact Hd' | exact Honline].
Defined.

End RecordProps.

(** ** Runs of statistics updates *)

Module StatsRunProps.
Import Js RaftDeviceStates RaftDeviceManager Scenarios.

Lemma sumSamples_acc (events : list (Z * Z)) : forall acc,
  fold_left (fun sum entry => sum + snd entry) events acc
  = acc + sumSamples events.
Proof.
  unfold sumSamples. induction events as [| e events IH]; intros acc; cbn; [lia |].
  rewrite IH, (IH (0 + snd e)). lia.
Qed.

Lemma sumSamples_cons e events : sumSamples (e :: events) = snd e + sumSamples events.
Proof. unfold sumSamples at 1. cbn. rewrite sumSamples_acc. lia. Qed.

Lemma sumSamples_app l1 l2 : sumSamples (l1 ++ l2) = sumSamples l1 + sumSamples l2.
Proof.
  induction l1 as [| e l1 IH]; [reflexivity |].
  cbn [app]. rewrite !sumSamples_cons, IH. lia.
Qed.

Lemma logged_app u1 u2 : logged (u1 ++ u2) = logged u1 ++ logged u2.
Proof.
  induction u1 as [| [n t] u1 IH]; [reflexivity |]. cbn.
  destruct (0 <? n); cbn; rewrite IH; reflexivity.
Qed.

Lemma samplesOf_cons n t updates :
  samplesOf ((n, t) :: updates)
  = if 0 <? n then n + samplesOf updates else samplesOf updates.
Proof. reflexivity. Qed.

Lemma samplesSince_cons since n t updates :
  samplesSince since ((n, t) :: updates)
  = if (0 <? n) && (since <=? t) then n + samplesSince since updates
    else samplesSince since updates.
Proof. reflexivity. Qed.

Lemma samplesOf_app u1 u2 : samplesOf (u1 ++ u2) = samplesOf u1 + samplesOf u2.
Proof.
  induction u1 as [| [n t] u1 IH]; [reflexivity |].
  cbn [app]. rewrite !samplesOf_cons, IH. destruct (0 <? n); lia.
Qed.

Lemma samplesOf_logged updates : samplesOf updates = sumSamples (logged updates).
Proof.
  induction updates as [| [n t] updates IH]; [reflexivity |].
  rewrite samplesOf_cons. cbn [logged].
  destruct (0 <? n); [rewrite sumSamples_cons, IH; reflexivity | exact IH].
Qed.

Lemma samplesSince_logged since updates :
  samplesSince since updates
  = sumSamples (List.filter (fun e => since <=? fst e) (logged updates)).
Proof.
  induction updates as [| [n t] updates IH]; [reflexivity |].
  rewrite samplesSince_cons. cbn [logged].
  destruct (0 <? n); cbn [andb List.filter fst]; [| exact IH].
  destruct (since <=? t); [rewrite sumSamples_cons, IH; reflexivity | exact IH].
Qed.

Lemma logged_positive updates : Forall (fun e => 0 < snd e) (logged updates).
Proof.
  induction updates as [| [n t] updates IH]; [constructor |]. cbn.
  destruct (Z.ltb_spec 0 n); [constructor; assumption | assumption].
Qed.

Lemma sumSamples_nonneg events :
  Forall (fun e => 0 < snd e) events -> 0 <= sumSamples events.
Proof.
  induction 1 as [| e events He _ IH]; [unfold sumSamples; cbn; lia |].
  rewrite sumSamples_cons. lia.
Qed.

(** [dropExpired] leaves an end piece of the log. *)
Lemma dropExpired_suffix start events :
  exists dropped, events = dropped ++ dropExpired start events.
Proof.
  induction events as [| [t n] events (dropped & IH)]; [exists []; reflexivity |].
  cbn. destruct (t <? start).
  - exists ((t, n) :: dropped). cbn. f_equal. exact IH.
  - exists []. reflexivity.
Qed.

(** On a log in the order of time, [dropExpired] leaves the entries from
    the start of the window on. *)
Lemma dropExpired_sorted start events :
  StronglySorted Z.le (map fst events) ->
  dropExpired start events = List.filter (fun e => start <=? fst e) events.
Proof.
  induction events as [| [t n] events IH]; intros Hs; [reflexivity |].
  cbn in Hs. apply StronglySorted_inv in Hs as [Hs Hall]. cbn.
  destruct (Z.ltb_spec t start) as [Hlt | Hge].
  - destruct (Z.leb_spec start t); [lia |]. apply IH, Hs.
  - destruct (Z.leb_spec start t); [| lia]. f_equal.
    clear IH Hs. induction events as [| [t' n'] events IH]; [reflexivity |].
    cbn in Hall. apply Forall_cons in Hall as [Ht' Hall]. cbn.
    destruct (Z.leb_spec start t'); [| lia]. f_equal. apply IH, Hall.
Qed.

Lemma filter_filter_weaker (p q : Z * Z -> bool) events :
  (forall e, p e = true -> q e = true) ->
  List.filter p (List.filter q events) = List.filter p events.
Proof.
  intros Hpq. induction events as [| e events IH]; [reflexivity |]. cbn.
  destruct (q e) eqn:Hq; cbn.
  - rewrite IH. reflexivity.
  - destruct (p e) eqn:Hp; [rewrite (Hpq e Hp) in Hq; discriminate | exact IH].
Qed.

Lemma logged_times_sorted updates :
  StronglySorted Z.le (map snd updates) -> StronglySorted Z.le (map fst (logged updates)).
Proof.
  induction updates as [| [n t] updates IH]; intros Hs; [constructor |].
  cbn in Hs. apply StronglySorted_inv in Hs as [Hs Hall]. cbn.
  destruct (0 <? n); [| apply IH, Hs]. cbn. constructor; [apply IH, Hs |].
  clear IH Hs. induction updates as [| [n' t'] updates IH]; [constructor |].
  cbn in Hall. apply Forall_cons in Hall as [Ht' Hall]. cbn.
  destruct (0 <? n'); [constructor; [exact Ht' | apply IH, Hall] | apply IH, Hall].
Qed.

Lemma updateAll_lookup key updates : forall m,
  updates <> [] ->
  _deviceStats (updateAll key updates m) !! key
  = Some (runStats (getOrCreateDeviceStats key m) updates).
Proof.
  induction updates as [| [n t] updates IH]; intros m Hne; [congruence |].
  cbn [updateAll runStats fold_left].
  destruct updates as [| u updates].
  - cbn. apply lookup_insert_eq.
  - unfold updateAll, runStats in IH. rewrite IH by congruence. f_equal. f_equal.
    unfold getOrCreateDeviceStats. rewrite DeviceStatsProps.updateDeviceStats_lookup.
    reflexivity.
Qed.

Lemma updateAll_others key updates : forall m key',
  key' <> key ->
  _deviceStats (updateAll key updates m) !! key' = _deviceStats m !! key'.
Proof.
  induction updates as [| [n t] updates IH]; intros m key' Hne; [reflexivity |].
  cbn [updateAll fold_left]. unfold updateAll in IH. rewrite IH by assumption.
  cbn. apply lookup_insert_ne. congruence.
Qed.

Lemma runStats_snoc s0 updates n t :
  runStats s0 (updates ++ [(n, t)]) = updateStats (runStats s0 updates) n t.
Proof. unfold runStats. rewrite fold_left_app. reflexivity. Qed.

(** What holds after any run of updates, whatever the clock does. *)
Lemma runStats_invariant w updates :
  let s := runStats (mkStatsInternal (mkDeviceStats 0 w 0 0%Q None None) []) updates in
  windowMs (stats s) = w /\
  totalSamples (stats s) = samplesOf updates /\
  windowSamples (stats s) = sumSamples (windowEvents s) /\
  (exists dropped, logged updates = dropped ++ windowEvents s) /\
  (0 <= sampleRateHz (stats s))%Q /\
  lastUpdateTimeMs (stats s) = (snd <$> last updates).
Proof.
  induction updates as [| [n t] updates IH] using rev_ind; cbv zeta.
  - cbn. repeat split;
      first [reflexivity | apply Qle_refl | (exists []; reflexivity)].
  - rewrite runStats_snoc. cbv zeta in IH.
    destruct IH as (Hw & Htot & Hwin & (dropped & Hlog) & Hrate & Hlast).
    set (s := runStats _ updates) in *.
    unfold updateStats.
    cbn [stats windowEvents windowMs totalSamples windowSamples sampleRateHz
         lastUpdateTimeMs].
    set (pushed := if 0 <? n then windowEvents s ++ [(t, n)] else windowEvents s).
    destruct (dropExpired_suffix (t - windowMs (stats s)) pushed) as (gone & Hgone).
    set (events := dropExpired (t - windowMs (stats s)) pushed) in *.
    assert (Hpushed : logged (updates ++ [(n, t)]) = dropped ++ pushed).
    { rewrite logged_app, Hlog. cbn. subst pushed.
      destruct (0 <? n); [rewrite app_assoc | rewrite app_nil_r]; reflexivity. }
    assert (Hpos : Forall (fun e => 0 < snd e) events).
    { pose proof (logged_positive (updates ++ [(n, t)])) as Hall.
      rewrite Hpushed, Hgone in Hall.
      apply Forall_app in Hall as [_ Hall]. apply Forall_app in Hall as [_ Hall].
      exact Hall. }
    split; [exact Hw |]. split.
    { rewrite samplesOf_app, samplesOf_cons, <- Htot. change (samplesOf []) with 0.
      destruct (0 <? n); lia. }
    split; [reflexivity |]. split.
    { exists (dropped ++ gone). rewrite Hpushed, Hgone, app_assoc. reflexivity. }
    split.
    { destruct events as [| [oldest k] rest]; [apply Qle_refl |].
      pose proof (sumSamples_nonneg _ Hpos) as Hsum.
      unfold Qdiv. apply Qmult_le_0_compat.
      - change 0%Q with (inject_Z 0). rewrite <- Zle_Qle. lia.
      - apply Qinv_le_0_compat. change 0%Q with (inject_Z 0). rewrite <- Zle_Qle. lia. }
    rewrite last_snoc. reflexivity.
Qed.


Lemma sorted_filter_app (p : Z * Z -> bool) (l new : list (Z * Z)) :
  StronglySorted Z.le (map fst (l ++ new)) ->
  StronglySorted Z.le (map fst (List.filter p l ++ new)).
Proof.
  induction l as [| e l IH]; intros Hs; [exact Hs |].
  cbn in Hs. apply StronglySorted_inv in Hs as [Hs Hall]. cbn.
  destruct (p e); [| apply IH, Hs]. cbn. constructor; [apply IH, Hs |].
  rewrite Forall_forall in Hall |- *. intros x Hx. apply Hall.
  rewrite list_elem_of_fmap in Hx |- *. destruct Hx as (y & -> & Hy).
  exists y. split; [reflexivity |].
  rewrite elem_of_app in Hy |- *. destruct Hy as [Hy | Hy]; [left | right; exact Hy].
  apply list_elem_of_In in Hy. apply filter_In in Hy as [Hy _].
  apply list_elem_of_In. exact Hy.
Qed.

Lemma sorted_prefix (l1 l2 : list Z) :
  StronglySorted Z.le (l1 ++ l2) -> StronglySorted Z.le l1.
Proof.
  induction l1 as [| x l1 IH]; intros Hs; [constructor |].
  cbn in Hs. apply StronglySorted_inv in Hs as [Hs Hall].
  constructor; [apply IH, Hs |]. apply Forall_app in Hall as [Hall _]. exact Hall.
Qed.

Lemma sorted_last_two (l : list Z) (a b : Z) :
  StronglySorted Z.le (l ++ [a; b]) -> a <= b.
Proof.
  induction l as [| x l IH]; intros Hs.
  - apply StronglySorted_inv in Hs as [_ Hall]. apply Forall_cons in Hall as [H _].
    exact H.
  - cbn in Hs. apply StronglySorted_inv in Hs as [Hs _]. apply IH, Hs.
Qed.

(** When the clock never goes back, the log after an update holds the
    entries of the run from the start of the window on. *)
Lemma runStats_window w updates : forall n t,
  StronglySorted Z.le (map snd (updates ++ [(n, t)])) ->
  windowEvents
    (runStats (mkStatsInternal (mkDeviceStats 0 w 0 0%Q None None) [])
       (updates ++ [(n, t)]))
  = List.filter (fun e => t - w <=? fst e) (logged (updates ++ [(n, t)])).
Proof.
  induction updates as [| [n' t'] updates IH] using rev_ind; intros n t Hs.
  - cbn. destruct (0 <? n); [| reflexivity]. cbn.
    destruct (Z.ltb_spec t (t - w)); destruct (Z.leb_spec (t - w) t);
      try lia; reflexivity.
  - rewrite runStats_snoc.
    destruct (runStats_invariant w (updates ++ [(n', t')])) as (Hw & _).
    cbv zeta in Hw.
    assert (Hprev : StronglySorted Z.le (map snd (updates ++ [(n', t')]))).
    { rewrite map_app in Hs. apply sorted_prefix in Hs. exact Hs. }
    assert (Hle : t' <= t).
    { rewrite <- app_assoc, map_app in Hs. apply sorted_last_two in Hs. exact Hs. }
    specialize (IH n' t' Hprev).
    set (s := runStats _ (updates ++ [(n', t')])) in *.
    unfold updateStats. cbn [windowEvents stats]. rewrite Hw, IH.
    set (new := if 0 <? n then [(t, n)] else []).
    assert (Hpushed :
      (if 0 <? n
       then List.filter (fun e => t' - w <=? fst e) (logged (updates ++ [(n', t')]))
            ++ [(t, n)]
       else List.filter (fun e => t' - w <=? fst e) (logged (updates ++ [(n', t')])))
      = List.filter (fun e => t' - w <=? fst e) (logged (updates ++ [(n', t')])) ++ new).
    { subst new. destruct (0 <? n); [reflexivity | rewrite app_nil_r; reflexivity]. }
    rewrite Hpushed.
    assert (Hlog : logged ((updates ++ [(n', t')]) ++ [(n, t)])
                   = logged (updates ++ [(n', t')]) ++ new).
    { rewrite logged_app. reflexivity. }
    rewrite Hlog.
    rewrite dropExpired_sorted.
    + rewrite !List.filter_app. f_equal. apply filter_filter_weaker.
      intros e He. apply Z.leb_le in He. apply Z.leb_le. lia.
    + apply sorted_filter_app. rewrite <- Hlog. apply logged_times_sorted, Hs.
Qed.

(** Statistics start from zero for a device that has none, and again
    after [resetDeviceStats]. *)
Lemma resetDeviceStats_fresh deviceKey m :
  (_deviceStats m !! deviceKey = None ->
   getOrCreateDeviceStats deviceKey m = createEmptyStats m) /\
  getOrCreateDeviceStats deviceKey (resetDeviceStats deviceKey m)
  = createEmptyStats (resetDeviceStats deviceKey m).
Proof.
  unfold getOrCreateDeviceStats. split; [intros ->; reflexivity |].
  cbn. rewrite lookup_insert_eq. reflexivity.
Qed.

(** X18: the totals of a run.  After any run of updates for a device
    (its key not being the name of an inherited member)
    whose statistics start from zero (it had none, or they were reset),
    whatever the clock does, the total is the sum of the batches that
    brought samples, the samples in the window are between 0 and the
    total, the rate is not negative, the last update time is the time of
    the last update, [getDeviceStats] returns these figures, and no
    other device's statistics have changed. *)
Theorem updateAll_totals (deviceKey : string) (updates : list (Z * Z))
    (m : DeviceManager) :
  inherited deviceKey = false ->
  getOrCreateDeviceStats deviceKey m = createEmptyStats m ->
  updates <> [] ->
  let m' := updateAll deviceKey updates m in
  (exists s,
     _deviceStats m' !! deviceKey = Some s /\
     fst (getDeviceStats deviceKey m') = stats s /\
     totalSamples (stats s) = samplesOf updates /\
     0 <= windowSamples (stats s) <= totalSamples (stats s) /\
     (0 <= sampleRateHz (stats s))%Q /\
     lastUpdateTimeMs (stats s) = (snd <$> last updates) /\
     windowMs (stats s) = _statsWindowMs (settings m)) /\
  (forall other, other <> deviceKey ->
                 _deviceStats m' !! other = _deviceStats m !! other).
Proof.
  intros _ Hfresh Hne m'. subst m'. split; [| apply updateAll_others].
  eexists. split; [apply updateAll_lookup, Hne |].
  split.
  { unfold getDeviceStats, getOrCreateDeviceStats at 1. cbn [fst].
    rewrite (updateAll_lookup deviceKey updates m Hne). reflexivity. }
  rewrite Hfresh. unfold createEmptyStats.
  destruct (runStats_invariant (_statsWindowMs (settings m)) updates)
    as (Hw & Htot & Hwin & (dropped & Hlog) & Hrate & Hlast).
  cbv zeta in Hw, Htot, Hwin, Hlog, Hrate, Hlast.
  set (s := runStats _ updates) in *.
  repeat split; try assumption.
  - rewrite Hwin. apply sumSamples_nonneg.
    pose proof (logged_positive updates) as Hall. rewrite Hlog in Hall.
    apply Forall_app in Hall as [_ Hall]. exact Hall.
  - rewrite Htot, Hwin, samplesOf_logged, Hlog, sumSamples_app.
    pose proof (logged_positive updates) as Hall. rewrite Hlog in Hall.
    apply Forall_app in Hall as [Hall _].
    pose proof (sumSamples_nonneg _ Hall). lia.
Qed.

(** X19: the sliding window.  For a device (its key not being the name
    of an inherited member) whose statistics start
    from zero and a clock that never goes back, the samples in the
    window after an update at [nowMs] are exactly the samples of the run
    that were reported at or after [nowMs - windowMs]. *)
Theorem updateAll_sliding_window (deviceKey : string) (earlier : list (Z * Z))
    (newSamples nowMs : Z) (m : DeviceManager) :
  inherited deviceKey = false ->
  getOrCreateDeviceStats deviceKey m = createEmptyStats m ->
  StronglySorted Z.le (map snd (earlier ++ [(newSamples, nowMs)])) ->
  exists s,
    _deviceStats (updateAll deviceKey (earlier ++ [(newSamples, nowMs)]) m) !! deviceKey
    = Some s /\
    windowSamples (stats s)
    = samplesSince (nowMs - _statsWindowMs (settings m))
        (earlier ++ [(newSamples, nowMs)]).
Proof.
  intros _ Hfresh Hs.
  eexists. split; [apply updateAll_lookup; destruct earlier; discriminate |].
  rewrite Hfresh. unfold createEmptyStats.
  destruct (runStats_invariant (_statsWindowMs (settings m))
              (earlier ++ [(newSamples, nowMs)])) as (_ & _ & Hwin & _).
  cbv zeta in Hwin. rewrite Hwin, runStats_window by exact Hs.
  symmetry. apply samplesSince_logged.
Qed.

Lemma updateAll_totals_witness :
  inherited "0_a1" = false /\
  getOrCreateDeviceStats "0_a1" (resetDeviceStats "0_a1" window500)
  = createEmptyStats (resetDeviceStats "0_a1" window500) /\
  exists s,
    _deviceStats (updateAll "0_a1" threeUpdates (resetDeviceStats "0_a1" window500))
      !! "0_a1"%string = Some s /\
    totalSamples (stats s) = 20.
Proof.
  assert (Hne : threeUpdates <> []) by discriminate.
  split; [reflexivity |]. split; [reflexivity |].
  destruct (proj1 (updateAll_totals "0_a1" threeUpdates
                     (resetDeviceStats "0_a1" window500) eq_refl eq_refl Hne))
    as (s & Hs & _ & Htotal & _).
  exists s. split; [exact Hs | exact Htotal].
Defined.

Lemma updateAll_sliding_window_witness :
  inherited "0_a1" = false /\
  StronglySorted Z.le (map snd ([(10, 0); (10, 400)] ++ [(0, 950)])) /\
  exists s,
    _deviceStats (updateAll "0_a1" ([(10, 0); (10, 400)] ++ [(0, 950)]) window500)
      !! "0_a1"%string = Some s /\
    windowSamples (stats s) = 0.
Proof.
  assert (Hsorted : StronglySorted Z.le (map snd ([(10, 0); (10, 400)] ++ [(0, 950)]))).
  { cbn.
    repeat match goal with
           | |- StronglySorted _ _ => constructor
           | |- List.Forall _ _ => constructor
           end; lia. }
  split; [reflexivity |]. split; [exact Hsorted |].
  destruct (updateAll_sliding_window "0_a1" [(10, 0); (10, 400)] 0 950 window500
              eq_refl eq_refl Hsorted) as (s & Hs & Hwindow).
  exists s. split; [exact Hs | exact Hwindow].
Defined.

End StatsRunProps.

(** ** The commands of a compound action *)

Module CompoundActionProps.
Import Js RaftDeviceStates RaftDeviceManager.

Lemma emit_nil m : emit [] m = m.
Proof. unfold emit. rewrite app_nil_r. destruct m; reflexivity. Qed.

Lemma emit_emit evs1 evs2 m : emit evs2 (emit evs1 m) = emit (evs1 ++ evs2) m.
Proof. unfold emit. cbn. rewrite app_assoc. reflexivity. Qed.

Section WithEnvironment.

Variable structPack : string -> list Q -> list byte.

Lemma sendEach_stopped msgHandler deviceKey action data : forall dataIdx m,
  sendEach msgHandler structPack deviceKey action dataIdx data false m = (false, m).
Proof.
  induction data as [| item rest IH]; intros dataIdx m; [reflexivity |].
  cbn [sendEach]. apply IH.
Qed.

Lemma sendEach_sends send deviceKey action data : forall dataIdx m,
  snd (sendEach (Some send) structPack deviceKey action dataIdx data true m)
  = emit (map EvSendREST
            (untilFailure send (compoundCmds structPack deviceKey action dataIdx data)))
      m.
Proof.
  induction data as [| item rest IH]; intros dataIdx m.
  - cbn. symmetry. apply emit_nil.
  - cbn [sendEach compoundCmds untilFailure]. unfold sendAction at 1.
    destruct (send _) as [devinfo | |].
    + rewrite IH, emit_emit. reflexivity.
    + rewrite sendEach_stopped. reflexivity.
    + rewrite sendEach_stopped. reflexivity.
Qed.

Lemma sendEach_silent deviceKey action data : forall dataIdx allOk m,
  snd (sendEach None structPack deviceKey action dataIdx data allOk m) = m.
Proof.
  induction data as [| item rest IH]; intros dataIdx allOk m; [reflexivity |].
  cbn [sendEach]. unfold sendAction. destruct allOk; apply IH.
Qed.

(** X20: the commands a compound action sends.  With [concat] set it
    is the one command of [sendAction] on the flattened data.  Without,
    it is one command per item, the item's index put in front of its
    data, in order, up to and including the first command that is not
    answered "ok"; no command is sent after a failure.  Without a
    message handler nothing is sent.  Nothing else of the manager
    changes. *)
Theorem sendCompoundAction_commands (msgHandler : option (string -> RestReply))
    (deviceKey : string) (action : DeviceTypeAction) (data : list (list Q))
    (m : DeviceManager) :
  snd (sendCompoundAction msgHandler structPack deviceKey action data m)
  = emit (map EvSendREST
            match msgHandler with
            | None => []
            | Some send =>
                if default false (act_concat action)
                then [actionCmd structPack deviceKey action (concat data)]
                else untilFailure send
                       (compoundCmds structPack deviceKey action 0 data)
            end) m.
Proof.
  unfold sendCompoundAction.
  destruct (default false (act_concat action)).
  - unfold sendAction. destruct msgHandler as [send |].
    + destruct (send _); reflexivity.
    + cbn. symmetry. apply emit_nil.
  - destruct msgHandler as [send |].
    + pose proof (sendEach_sends send deviceKey action data 0 m) as Hsent.
      destruct (sendEach _ _ _ _ _ _ _ _) as [ok m1]. exact Hsent.
    + pose proof (sendEach_silent deviceKey action data 0 true m) as Hsent.
      destruct (sendEach _ _ _ _ _ _ _ _) as [ok m1].
      cbn [snd] in *. rewrite Hsent. cbn. symmetry. apply emit_nil.
Qed.

End WithEnvironment.

End CompoundActionProps.

(** ** Communication statistics *)

Module CommsStatsProps.
Import RaftCommsStats.

Lemma recordAll_snoc roundTrips r s :
  recordAll (roundTrips ++ [r]) s = recordMsgResp r (recordAll roundTrips s).
Proof. unfold recordAll. rewrite fold_left_app. reflexivity. Qed.

Lemma recordAll_bounds roundTrips : forall s,
  _msgRoundtripBestMs s = 0 -> _msgRoundtripWorstMs s = 0 ->
  Forall (fun r => 0 < r) roundTrips ->
  roundTrips <> [] ->
  let s' := recordAll roundTrips s in
  In (_msgRoundtripBestMs s') roundTrips /\
  In (_msgRoundtripWorstMs s') roundTrips /\
  Forall (fun r => _msgRoundtripBestMs s' <= r <= _msgRoundtripWorstMs s') roundTrips /\
  Some (_msgRoundtripLastMs s') = last roundTrips.
Proof.
  induction roundTrips as [| r roundTrips IH] using rev_ind;
    intros s Hb Hw Hpos Hne; [congruence |].
  cbv zeta. rewrite recordAll_snoc, last_snoc.
  apply Forall_app in Hpos as [Hpos Hr]. apply Forall_cons in Hr as [Hr _].
  destruct roundTrips as [| r0 rest].
  - cbn. rewrite Hb, Hw. cbn.
    destruct (Z.ltb_spec 0 r); [| lia].
    repeat split; auto. constructor; [lia | constructor].
  - destruct (IH s Hb Hw Hpos) as (Hbest & Hworst & Hall & _); [discriminate |].
    cbv zeta in Hbest, Hworst, Hall.
    set (s1 := recordAll (r0 :: rest) s) in *.
    assert (Hbpos : 0 < _msgRoundtripBestMs s1).
    { rewrite Forall_forall in Hpos. apply Hpos, list_elem_of_In, Hbest. }
    unfold recordMsgResp.
    cbn [set_roundtrip _msgRoundtripBestMs _msgRoundtripWorstMs _msgRoundtripLastMs].
    destruct (Z.eqb_spec (_msgRoundtripBestMs s1) 0) as [E | _]; [lia |].
    cbn [orb].
    assert (Hbw : _msgRoundtripBestMs s1 <= _msgRoundtripWorstMs s1).
    { rewrite Forall_forall in Hall.
      destruct (Hall _ (proj2 (list_elem_of_In _ _) Hbest)). lia. }
    repeat split.
    + destruct (Z.ltb_spec r (_msgRoundtripBestMs s1)); apply in_or_app;
        [right; left; reflexivity | left; exact Hbest].
    + destruct (Z.ltb_spec (_msgRoundtripWorstMs s1) r); apply in_or_app;
        [right; left; reflexivity | left; exact Hworst].
    + apply Forall_app. split.
      * eapply Forall_impl; [exact Hall |]. intros x Hx. cbv beta in Hx.
        destruct (Z.ltb_spec r (_msgRoundtripBestMs s1));
          destruct (Z.ltb_spec (_msgRoundtripWorstMs s1) r); lia.
      * constructor; [| constructor].
        destruct (Z.ltb_spec r (_msgRoundtripBestMs s1));
          destruct (Z.ltb_spec (_msgRoundtripWorstMs s1) r); lia.
Qed.

(** X21: after [clear()] (a new object is as after a [clear()] at
    time 0) and any number of round trips, each longer than 0 ms, the
    best and the worst round trip on record are the shortest and the
    longest of them, and the last is the last. *)
Theorem recordMsgResp_best_worst (roundTrips : list Z) (nowRxMs nowTxMs : Z)
    (s0 : RaftCommsStats) :
  Forall (fun r => 0 < r) roundTrips ->
  roundTrips <> [] ->
  let s := recordAll roundTrips (clear nowRxMs nowTxMs s0) in
  In (getRTBestMs s) roundTrips /\
  In (getRTWorstMs s) roundTrips /\
  Forall (fun r => getRTBestMs s <= r <= getRTWorstMs s) roundTrips /\
  Some (getRTLastMs s) = last roundTrips.
Proof. intros Hpos Hne. apply recordAll_bounds; auto. Qed.

Lemma recordMsgResp_best_worst_witness :
  Forall (fun r => 0 < r) [12; 7; 30] /\
  In (getRTBestMs (recordAll [12; 7; 30] newCommsStats)) [12; 7; 30] /\
  Some (getRTLastMs (recordAll [12; 7; 30] newCommsStats)) = Some 30.
Proof.
  assert (Hpos : Forall (fun r => 0 < r) [12; 7; 30]) by (repeat constructor).
  assert (Hne : [12; 7; 30] <> []) by discriminate.
  pose proof (recordMsgResp_best_worst [12; 7; 30] 0 0 newCommsStats Hpos Hne) as H.
  exact (conj Hpos (conj (proj1 H) (proj2 (proj2 (proj2 H))))).
Defined.

Lemma msgRxTimes_counts n : forall s,
  let s' := msgRxTimes n s in
  _msgRxCount s' = _msgRxCount s + Z.of_nat n /\
  _msgRxCountInWindow s' = _msgRxCountInWindow s + Z.of_nat n /\
  _msgRxLastCalcMs s' = _msgRxLastCalcMs s /\
  _msgRxRate s' = _msgRxRate s.
Proof.
  induction n as [| n IH]; intros s; cbv zeta.
  - cbn. repeat split; lia.
  - change (msgRxTimes (S n) s) with (msgRx (msgRxTimes n s)).
    destruct (IH s) as (H1 & H2 & H3 & H4).
    unfold msgRx.
    cbn [set_rx _msgRxCount _msgRxCountInWindow _msgRxLastCalcMs _msgRxRate].
    rewrite H1, H2, H3, H4. repeat split; lia.
Qed.

(** X22: the receive rate is worked out once a second at most.  For a
    clock that does not go back between the readings of one call: after
    a [clear()] at [t0] and [n] received messages, [getMsgRxRate] asked
    no later than 1000 ms after [t0] returns the rate on record and
    changes nothing; asked later, it returns 1000 * n / (now - t0), a
    quotient by more than 1000, starts a new window with a count of 0,
    and leaves the total count at [n]. *)
Theorem getMsgRxRate_window (t0 tTx : Z) (n : nat) (now1 now2 now3 : Z)
    (s0 : RaftCommsStats) :
  now1 <= now2 ->
  let s := msgRxTimes n (clear t0 tTx s0) in
  let '(rate, s') := getMsgRxRate now1 now2 now3 s in
  if t0 + 1000 <? now1 then
    1000 < now2 - t0 /\
    rate = (inject_Z (1000 * Z.of_nat n) / inject_Z (now2 - t0))%Q /\
    _msgRxRate s' = rate /\
    _msgRxCountInWindow s' = 0 /\
    _msgRxLastCalcMs s' = now3 /\
    _msgRxCount s' = Z.of_nat n
  else
    rate = 0%Q /\ s' = s.
Proof.
  intros Hclock. cbv zeta.
  destruct (msgRxTimes_counts n (clear t0 tTx s0)) as (H1 & H2 & H3 & H4).
  cbv zeta in H1, H2, H3, H4. cbn in H1, H2, H3, H4.
  unfold getMsgRxRate. rewrite H3.
  destruct (Z.ltb_spec (t0 + 1000) now1).
  - cbn. rewrite H2, H1. repeat split. lia.
  - rewrite H4. split; reflexivity.
Qed.

Lemma getMsgRxRate_window_witness :
  1500 <= 1500 /\
  fst (getMsgRxRate 1500 1500 1500 (msgRxTimes 3 (clear 0 0 newCommsStats)))
  = (inject_Z 3000 / inject_Z 1500)%Q.
Proof.
  assert (Hclock : 1500 <= 1500) by lia.
  split; [exact Hclock |].
  pose proof (getMsgRxRate_window 0 0 3 1500 1500 1500 newCommsStats Hclock) as H.
  cbv zeta in H.
  destruct (getMsgRxRate 1500 1500 1500 (msgRxTimes 3 (clear 0 0 newCommsStats)))
    as [rate s'].
  exact (proj1 (proj2 H)).
Defined.

End CommsStatsProps.

(** ** The registry of system types *)

Module SysTypeProps.
Import RaftSysTypeManager.

Lemma mapGet_app {A} (l1 l2 : list (string * A)) key :
  mapGet (l1 ++ l2) key
  = match mapGet l1 key with
    | Some v => Some v
    | None => mapGet l2 key
    end.
Proof.
  induction l1 as [| [k v] l1 IH]; [reflexivity |]. cbn.
  destruct (String.eqb k key); [reflexivity | exact IH].
Qed.

(** X23: a system type is registered once.  Adding a name that is not
    registered succeeds, after which [createSystemType] makes that type
    for that name and is unchanged for every other name; adding a name
    that is registered throws, so the first registration stands; and a
    name that was never added gives null. *)
Theorem addSystemType_createSystemType (sysType : string)
    (factory : RaftSystemTypeCreator) (mgr : RaftSysTypeManager) :
  match addSystemType sysType factory mgr with
  | Returns mgr' =>
      createSystemType sysType mgr = None /\
      createSystemType sysType mgr' = Some (factory tt) /\
      (forall other, other <> sysType ->
                     createSystemType other mgr' = createSystemType other mgr) /\
      addSystemType sysType factory mgr' = Throws /\
      _defaultSysTypeFactory mgr' = _defaultSysTypeFactory mgr
  | Throws => exists registered, createSystemType sysType mgr = Some registered
  end /\
  (forall name, createSystemType name newSysTypeManager = None).
Proof.
  split; [| reflexivity].
  unfold addSystemType, mapHas, createSystemType.
  destruct (mapGet (_sysTypes mgr) sysType) as [f |] eqn:Hget; [eauto |].
  cbn [_sysTypes _defaultSysTypeFactory]. rewrite !mapGet_app, Hget. cbn.
  rewrite String.eqb_refl. repeat split.
  intros other Hne. rewrite mapGet_app. cbn.
  destruct (String.eqb_spec sysType other); [congruence |].
  destruct (mapGet (_sysTypes mgr) other); reflexivity.
Qed.

Lemma setAdd_spec set uuid u :
  In u (setAdd set uuid) <-> In u set \/ u = uuid.
Proof.
  unfold setAdd. destruct (existsb (String.eqb uuid) set) eqn:Hin.
  - apply existsb_exists in Hin as (x & Hx & Heq). apply String.eqb_eq in Heq. subst x.
    split; [auto | intros [H | ->]; assumption].
  - rewrite in_app_iff. cbn. split; [intros [H | [<- | []]]; auto |].
    intros [H | ->]; auto.
Qed.

Lemma setAdd_NoDup set uuid : NoDup set -> NoDup (setAdd set uuid).
Proof.
  intros H. unfold setAdd. destruct (existsb (String.eqb uuid) set) eqn:Hin; [exact H |].
  apply NoDup_app. split; [exact H |]. split; [| apply NoDup_singleton].
  intros x Hx Hu. apply list_elem_of_singleton in Hu. subst x.
  assert (Hex : existsb (String.eqb uuid) set = true).
  { apply existsb_exists. exists uuid. split; [| apply String.eqb_refl].
    apply list_elem_of_In. exact Hx. }
  congruence.
Qed.

Lemma setAddAll_spec uuids : forall set u,
  In u (fold_left setAdd uuids set) <-> In u set \/ In u uuids.
Proof.
  induction uuids as [| x uuids IH]; intros set u; cbn; [tauto |].
  rewrite IH, setAdd_spec. split; [intros [[H | ->] | H]; auto |].
  intros [H | [-> | H]]; auto.
Qed.

Lemma setAddAll_NoDup uuids : forall set, NoDup set -> NoDup (fold_left setAdd uuids set).
Proof.
  induction uuids as [| x uuids IH]; intros set H; [exact H |].
  cbn. apply IH, setAdd_NoDup, H.
Qed.

Lemma collect_throws (types : list (string * RaftSystemTypeCreator)) :
  fold_left addServiceUUIDs types Throws = Throws.
Proof. induction types as [| [k f] types IH]; [reflexivity | exact IH]. Qed.

Lemma collect_spec (types : list (string * RaftSystemTypeCreator)) : forall set,
  NoDup set ->
  match
    fold_left addServiceUUIDs types (Returns set)
  with
  | Returns all =>
      NoDup all /\
      Forall (fun entry => is_Some (BLEServiceUUIDs (snd entry tt))) types /\
      forall u, In u all <->
                In u set \/
                exists entry uuids,
                  In entry types /\ BLEServiceUUIDs (snd entry tt) = Some uuids /\
                  In u uuids
  | Throws => Exists (fun entry => BLEServiceUUIDs (snd entry tt) = None) types
  end.
Proof.
  induction types as [| [k f] types IH]; intros set Hnd.
  - cbn. split; [exact Hnd |]. split; [constructor |].
    intros u. split; [auto | intros [H | (e & us & [] & _)]; exact H].
  - cbn [fold_left addServiceUUIDs snd]. cbv zeta.
    destruct (BLEServiceUUIDs (f tt)) as [uuids |] eqn:Hu.
    + specialize (IH (fold_left setAdd uuids set) (setAddAll_NoDup uuids set Hnd)).
      destruct (fold_left addServiceUUIDs types (Returns (fold_left setAdd uuids set)))
        as [all |].
      * destruct IH as (Hall & Hsome & Hiff). split; [exact Hall |]. split.
        { constructor; [cbn; rewrite Hu; eauto | exact Hsome]. }
        intros u. rewrite Hiff, setAddAll_spec. split.
        -- intros [[H | H] | (e & us & He & Hus & Hin)]; [auto | |].
           ++ right. exists (k, f), uuids. cbn. auto.
           ++ right. exists e, us. cbn. auto.
        -- intros [H | (e & us & [<- | He] & Hus & Hin)]; [auto | |].
           ++ cbn in Hus. rewrite Hu in Hus. injection Hus as <-. auto.
           ++ right. exists e, us. auto.
      * apply Exists_cons_tl. exact IH.
    + rewrite collect_throws. apply Exists_cons_hd. exact Hu.
Qed.

(** X24: [getAllServiceUUIDs] throws exactly when a registered system
    type has no list of BLE service UUIDs; otherwise it returns every
    UUID of every registered type, each of them once. *)
Theorem getAllServiceUUIDs_unique (mgr : RaftSysTypeManager) :
  match getAllServiceUUIDs mgr with
  | Returns all =>
      NoDup all /\
      Forall (fun entry => is_Some (BLEServiceUUIDs (snd entry tt))) (_sysTypes mgr) /\
      forall u, In u all <->
                exists entry uuids,
                  In entry (_sysTypes mgr) /\
                  BLEServiceUUIDs (snd entry tt) = Some uuids /\ In u uuids
  | Throws =>
      Exists (fun entry => BLEServiceUUIDs (snd entry tt) = None) (_sysTypes mgr)
  end.
Proof.
  unfold getAllServiceUUIDs.
  pose proof (collect_spec (_sysTypes mgr) [] (NoDup_nil_2)) as H.
  destruct (fold_left addServiceUUIDs (_sysTypes mgr) (Returns [])) as [all |];
    [| exact H].
  destruct H as (Hnd & Hsome & Hiff). split; [exact Hnd |]. split; [exact Hsome |].
  intros u. rewrite Hiff. split; [intros [[] | H]; exact H | auto].
Qed.

End SysTypeProps.

(** ** Routing of published frames *)

Module RouterProps.
Import Js RaftPublish RaftDeviceStates RaftDeviceManager SystemTypeCog Scenarios.

(** X25: every binary frame the example system type hands to the
    device manager passes the manager's own envelope check: its magic
    byte is not refused, its topic is not taken for another one, and the
    records are read from the payload offset [inspectPublishFrame]
    reports. *)
Theorem rxOtherMsgType_binary_accepted
    (utf8Decode : list byte -> string) (jsonParse : string -> option JsonValue)
    (numberToString : Q -> string)
    (lookupNumber : option (Q -> option string))
    (lookupInteger : option (Z -> option string)) (hasOnEvent : bool)
    (payload : list byte) (frameTimeMs : Z) :
  sameLookup lookupNumber lookupInteger ->
  In (HandleBinaryPayload payload)
     (fst (rxOtherMsgType utf8Decode jsonParse numberToString lookupNumber hasOnEvent
             payload frameTimeMs)) ->
  exists start,
    checkEnvelope lookupInteger payload = inr start /\
    binaryPayloadOffset
      (inspectPublishFrame utf8Decode jsonParse payload
         (Some (fun idx => match lookupNumber with
                           | Some lookup => lookup idx
                           | None => None
                           end)))
    = Some (Z.to_nat start).
Proof.
  intros Hsame. unfold rxOtherMsgType. cbn [fst].
  set (lookup := Some _).
  assert (Hjson : forall pos, frameType (inspectJson utf8Decode jsonParse payload pos lookup)
                              <> FrameBinary).
  { intros pos. unfold inspectJson.
    destruct (jsonParse _) as [[| | | | | obj] |]; try discriminate.
    destruct (match getProp obj "_t" with
              | Some (JNumber n) => _
              | Some (JString s) => _
              | _ => _
              end). discriminate. }
  unfold inspectPublishFrame, checkEnvelope, RAFT_PUBLISH_PREFIX_LEN, msgTypeLen,
    devbinEnvelopeLen, msgLength, DEVBIN_MAGIC_MIN, DEVBIN_MAGIC_MAX,
    devbinMagicMin, devbinMagicMax, SUBSCRIBE_BINARY_MSGS in *.
  destruct (Nat.ltb_spec (length payload) 2); [intros [] |].
  destruct (Nat.leb_spec (length payload) 2); [intros [] |].
  destruct (payload !! 2%nat) as [b0 |] eqn:Hb0; [| intros []].
  assert (Hbyte : byteAt payload 2 = byte_to_Z b0).
  { unfold byteAt. change (Z.to_nat 2) with 2%nat. rewrite Hb0. reflexivity. }
  rewrite Hbyte.
  destruct (byte_to_Z b0 =? 123).
  { specialize (Hjson 2%nat).
    destruct (frameType (inspectJson utf8Decode jsonParse payload 2 lookup));
      [intros [] | | congruence].
    destruct (match topicName _ with Some name => _ | None => true end);
      [| intros []].
    destruct (jsonString _); [intros [Hcall | []]; discriminate Hcall | intros []]. }
  destruct (Z.land (byte_to_Z b0) 240 =? 208) eqn:Hnib.
  - destruct ((byte_to_Z b0 <? 219) || (223 <? byte_to_Z b0)) eqn:Hmagic;
      [intros [] |].
    cbn [frameType binaryHasEnvelope topicName default binaryPayloadOffset].
    destruct (Nat.ltb_spec (2 + 1) (length payload)) as [Hlen | Hlen];
      [| intros []].
    destruct (lookup_lt_is_Some_2 payload 3 ltac:(lia)) as (b1 & Hb1).
    change (2 + 1)%nat with 3%nat. rewrite Hb1. cbn [fmap option_fmap option_map].
    subst lookup. cbv iota beta.
    destruct (Z.leb_spec (2 + 2) (Z.of_nat (length payload))); [| lia].
    assert (Hidx : byteAt payload (2 + 1) = byte_to_Z b1).
    { unfold byteAt. change (Z.to_nat (2 + 1)) with 3%nat. rewrite Hb1. reflexivity. }
    rewrite Hidx.
    destruct (negb (byte_to_Z b1 =? 255)); [| intros []].
    destruct lookupNumber as [f |], lookupInteger as [g |]; cbn in Hsame;
      try contradiction.
    rewrite Hsame.
    destruct (g (byte_to_Z b1)) as [name |]; [| intros []].
    destruct (String.eqb_spec name "devbin") as [-> | Hne]; [| intros []].
    intros _. exists 4. split; reflexivity.
  - cbn [frameType binaryHasEnvelope default binaryPayloadOffset].
    intros _. exists 2.
    destruct (2 + 2 <=? Z.of_nat (length payload)); split; reflexivity.
Qed.

Lemma rxOtherMsgType_binary_accepted_witness :
  sameLookup devbinTopics devbinTopicNames /\
  fst (rxOtherMsgType (fun _ => EmptyString) (fun _ => None) (fun _ => EmptyString)
         devbinTopics false topicFrame 0)
  = [HandleBinaryPayload topicFrame] /\
  exists start, checkEnvelope devbinTopicNames topicFrame = inr start.
Proof.
  assert (Hsame : sameLookup devbinTopics devbinTopicNames) by (intros idx; reflexivity).
  split; [exact Hsame |]. split; [reflexivity |].
  destruct (rxOtherMsgType_binary_accepted (fun _ => EmptyString) (fun _ => None)
              (fun _ => EmptyString) devbinTopics devbinTopicNames false topicFrame 0
              Hsame (or_introl eq_refl)) as (start & Hstart & _).
  exists start. exact Hstart.
Defined.

End RouterProps.

(** ** Streaming *)

Module StreamProps.
Import Js RaftCommsStats RaftStreamHandler Scenarios.

Lemma sliceBytes_block (a : list byte) (pos size : Z) :
  0 <= pos -> 0 < size -> pos + size <= Z.of_nat (length a) ->
  sliceBytes a pos (pos + size) = take (Z.to_nat size) (drop (Z.to_nat pos) a) /\
  length (sliceBytes a pos (pos + size)) = Z.to_nat size.
Proof.
  intros Hpos Hsize Hend. unfold sliceBytes, relIndex.
  destruct (Z.ltb_spec pos 0); [lia |].
  destruct (Z.ltb_spec (pos + size) 0); [lia |].
  rewrite !Nat.min_l by lia.
  replace (Z.to_nat (pos + size) - Z.to_nat pos)%nat with (Z.to_nat size) by lia.
  split; [reflexivity |]. rewrite length_take, length_drop. lia.
Qed.

Lemma blocksSent_app evs1 evs2 : blocksSent (evs1 ++ evs2) = blocksSent evs1 ++ blocksSent evs2.
Proof. apply omap_app. Qed.

Lemma blocksSent_block block pos sid evs :
  blocksSent (SentStreamBlock block pos sid :: evs) = (block, pos) :: blocksSent evs.
Proof. reflexivity. Qed.

Lemma blocksSent_progress a b c evs :
  blocksSent (Progress a b c :: evs) = blocksSent evs.
Proof. reflexivity. Qed.

Lemma blocksSent_cmd cmd evs : blocksSent (SentRICREST cmd :: evs) = blocksSent evs.
Proof. reflexivity. Qed.

Section WithEnvironment.

Variable sendRICREST : string -> RICRESTReply.
Variable sendStreamBlock : list byte -> Z -> Z -> bool.
Variable toArrayBufferView : list byte -> list byte.
Variable progressCallback : bool.

Abbreviation sendBlocks := (sendBlocks sendStreamBlock progressCallback).
Abbreviation streamData :=
  (streamData sendRICREST sendStreamBlock toArrayBufferView progressCallback).

(** What the loop over the blocks never touches. *)
Lemma sendBlocks_keeps turns : forall pos h,
  let h' := snd (sendBlocks turns pos h) in
  _streamBuffer h' = _streamBuffer h /\ _maxBlockSize h' = _maxBlockSize h /\
  _streamID h' = _streamID h /\ _streamIsStarting h' = _streamIsStarting h /\
  _lastStreamStartTime h' = _lastStreamStartTime h.
Proof.
  induction turns as [| turns IH]; intros pos h; cbv zeta.
  - cbn. destruct (pos <? _); repeat split.
  - cbn [RaftStreamHandler.sendBlocks].
    destruct (pos <? Z.of_nat (length (_streamBuffer h))); [| repeat split].
    set (h1 := if _soktoReceived h then set_sokto false (_soktoPos h) h else h).
    assert (H1 : _streamBuffer h1 = _streamBuffer h /\ _maxBlockSize h1 = _maxBlockSize h /\
                 _streamID h1 = _streamID h /\
                 _streamIsStarting h1 = _streamIsStarting h /\
                 _lastStreamStartTime h1 = _lastStreamStartTime h).
    { subst h1. destruct (_soktoReceived h); repeat split. }
    destruct H1 as (B1 & M1 & I1 & S1 & L1).
    destruct (0 <? length _)%nat.
    + destruct (negb _); [cbn [snd]; repeat split; assumption |].
      match goal with
      | |- context [RaftStreamHandler.sendBlocks _ _ turns ?p ?hh] =>
          destruct (IH p hh) as (B & M & I & S & L)
      end.
      cbv zeta in B, M, I, S, L. rewrite B, M, I, S, L.
      destruct progressCallback; cbn; repeat split; assumption.
    + destruct (IH pos h1) as (B & M & I & S & L).
      cbv zeta in B, M, I, S, L. rewrite B, M, I, S, L. repeat split; assumption.
Qed.

(** With a block size above 0 and every block accepted, the loop sends
    the rest of the buffer, block after block. *)
Lemma sendBlocks_all turns : forall pos h sid,
  _streamID h = Some sid ->
  0 < _maxBlockSize h ->
  (forall block p, sendStreamBlock block p sid = true) ->
  0 <= pos <= Z.of_nat (length (_streamBuffer h)) ->
  Z.of_nat (length (_streamBuffer h)) - pos <= Z.of_nat turns ->
  let r := sendBlocks turns pos h in
  fst r = LoopDone /\
  exists new,
    sent (snd r) = sent h ++ new /\
    concat (map fst (blocksSent new)) = drop (Z.to_nat pos) (_streamBuffer h) /\
    Forall (fun b => 0 < Z.of_nat (length (fst b)) <= _maxBlockSize h) (blocksSent new) /\
    map snd (blocksSent new) = offsetsFrom pos (map fst (blocksSent new)) /\
    Forall (fun e => match e with SentRICREST _ => False | _ => True end) new /\
    _streamBytes (_commsStats (snd r))
    = _streamBytes (_commsStats h) + (Z.of_nat (length (_streamBuffer h)) - pos).
Proof.
  induction turns as [| turns IH]; intros pos h sid Hid Hmax Hok Hpos Hturns; cbv zeta.
  - cbn. destruct (Z.ltb_spec pos (Z.of_nat (length (_streamBuffer h)))); [lia |].
    split; [reflexivity |]. exists []. cbn. rewrite app_nil_r.
    rewrite drop_ge by lia. repeat split; try constructor. lia.
  - cbn [RaftStreamHandler.sendBlocks].
    destruct (Z.ltb_spec pos (Z.of_nat (length (_streamBuffer h)))) as [Hlt | Hge].
    2:{ split; [reflexivity |]. exists []. cbn. rewrite app_nil_r.
        rewrite drop_ge by lia. repeat split; try constructor. lia. }
    set (h1 := if _soktoReceived h then set_sokto false (_soktoPos h) h else h).
    assert (H1 : _streamBuffer h1 = _streamBuffer h /\ _maxBlockSize h1 = _maxBlockSize h /\
                 _streamID h1 = _streamID h /\ sent h1 = sent h /\
                 _commsStats h1 = _commsStats h).
    { subst h1. destruct (_soktoReceived h); repeat split. }
    destruct H1 as (B1 & M1 & I1 & T1 & C1).
    rewrite B1, M1, I1, Hid. cbn [default]. unfold id.
    set (size := Z.min (Z.of_nat (length (_streamBuffer h)) - pos) (_maxBlockSize h)).
    assert (Hsize : 0 < size <= _maxBlockSize h /\
                    pos + size <= Z.of_nat (length (_streamBuffer h)))
      by (subst size; lia).
    destruct (sliceBytes_block (_streamBuffer h) pos size) as (Hblock & Hlen);
      [lia | lia | lia |].
    set (block := sliceBytes (_streamBuffer h) pos (pos + size)) in *.
    destruct (Nat.ltb_spec 0 (length block)); [| lia].
    rewrite Hok. cbn [negb].
    match goal with
    | |- context [RaftStreamHandler.sendBlocks _ _ turns ?p ?hh] =>
        destruct (IH p hh sid) as (Hdone & new & Hsent & Hcat & Hall & Hoff & Hcmd & Hbytes);
        [| | exact Hok | | |]
    end.
    + destruct progressCallback; cbn; rewrite I1; exact Hid.
    + destruct progressCallback; cbn; rewrite M1; exact Hmax.
    + destruct progressCallback; cbn; rewrite B1; lia.
    + destruct progressCallback; cbn; rewrite B1; lia.
    + split; [exact Hdone |].
      set (r := RaftStreamHandler.sendBlocks _ _ turns _ _) in *.
      assert (Hbuf : forall hh, _streamBuffer hh = _streamBuffer h ->
                drop (Z.to_nat (pos + size)) (_streamBuffer hh)
                = drop (Z.to_nat size) (drop (Z.to_nat pos) (_streamBuffer h))).
      { intros hh ->. rewrite drop_drop. f_equal. lia. }
      destruct progressCallback.
      * eexists (SentStreamBlock block pos sid :: Progress _ _ _ :: new).
        cbn in Hsent, Hcat, Hall, Hbytes. rewrite T1 in Hsent. rewrite C1 in Hbytes.
        rewrite B1 in Hcat, Hbytes. rewrite M1 in Hall.
        split; [rewrite Hsent, <- !app_assoc; reflexivity |].
        rewrite ?blocksSent_block, ?blocksSent_progress.
        cbn [map concat fst snd offsetsFrom].
        split.
        { rewrite Hcat, (Hbuf h eq_refl), Hblock. apply take_drop. }
        split; [constructor; [cbn; lia | exact Hall] |].
        split; [rewrite Hoff, Hlen; repeat f_equal; lia |].
        split; [repeat constructor; exact Hcmd |].
        rewrite Hbytes. cbn. rewrite Hlen. lia.
      * eexists (SentStreamBlock block pos sid :: new).
        cbn in Hsent, Hcat, Hall, Hbytes. rewrite T1 in Hsent. rewrite C1 in Hbytes.
        rewrite B1 in Hcat, Hbytes. rewrite M1 in Hall.
        split; [rewrite Hsent, <- !app_assoc; reflexivity |].
        rewrite ?blocksSent_block, ?blocksSent_progress.
        cbn [map concat fst snd offsetsFrom].
        split.
        { rewrite Hcat, (Hbuf h eq_refl), Hblock. apply take_drop. }
        split; [constructor; [cbn; lia | exact Hall] |].
        split; [rewrite Hoff, Hlen; repeat f_equal; lia |].
        split; [repeat constructor; exact Hcmd |].
        rewrite Hbytes. cbn. rewrite Hlen. lia.
Qed.


Lemma _sendStreamStartMsg_keeps streamName targetEndpoint contents h :
  let h' := snd (_sendStreamStartMsg sendRICREST streamName targetEndpoint contents h) in
  _lastStreamStartTime h' = _lastStreamStartTime h /\
  _streamBuffer h' = _streamBuffer h /\
  _commsStats h' = _commsStats h.
Proof.
  cbv zeta. unfold _sendStreamStartMsg.
  destruct (sendRICREST _) as [| | rslt sid maxReply]; [repeat split .. |].
  destruct (String.eqb rslt "ok"); [| repeat split].
  cbn [snd]. unfold streamingPerformanceChecker, clearFinishPointTimeout.
  match goal with
  | |- context [if negb (_audioDuration ?hh =? 0) then _ else _] =>
      destruct (negb (_audioDuration hh =? 0)); [| repeat split];
      destruct (soundFinishPoint hh); repeat split
  end.
Qed.

(** X26: a stream is sent whole and in order.  When [streamData] is
    not refused, the firmware answers the start command with "ok", the
    block size in force is above 0 and every block is accepted, then the
    blocks sent, laid end to end, are the buffer; no block is empty or
    longer than the block size; each is sent for the position at which
    it lies; the bytes counted in the statistics grow by the length of
    the buffer; the commands sent are the start and the end command; and
    the promise settles as the answer to the end command says. *)
Theorem streamData_sends_buffer (now1 now2 : Z) (streamContents : list byte)
    (fileName targetEndpoint : string) (h : StreamHandler)
    (streamID : Z) (maxReply : option Z) :
  _streamIsStarting h = false ->
  _lastStreamStartTime h <= now1 - 500 ->
  sendRICREST (streamStartCmd fileName targetEndpoint (length streamContents))
  = Reply "ok" streamID maxReply ->
  let blockSize :=
    match maxReply with
    | Some n => if n =? 0 then DEFAULT_MAX_BLOCK_SIZE h else n
    | None => DEFAULT_MAX_BLOCK_SIZE h
    end in
  0 < blockSize ->
  (forall block pos, sendStreamBlock block pos streamID = true) ->
  let r := streamData now1 now2 streamContents fileName targetEndpoint h in
  let buffer := toArrayBufferView streamContents in
  fst r
  = match sendRICREST (streamEndCmd streamID) with
    | ReplyThrows => Resolved false
    | ReplyNone => Rejected
    | Reply rslt _ _ => Resolved (String.eqb rslt "ok")
    end /\
  exists new,
    sent (snd r)
    = sent h
      ++ SentRICREST (streamStartCmd fileName targetEndpoint (length streamContents))
         :: new ++ [SentRICREST (streamEndCmd streamID)] /\
    Forall (fun e => match e with SentRICREST _ => False | _ => True end) new /\
    concat (map fst (blocksSent new)) = buffer /\
    Forall (fun b => 0 < Z.of_nat (length (fst b)) <= blockSize) (blocksSent new) /\
    map snd (blocksSent new) = offsetsFrom 0 (map fst (blocksSent new)) /\
    _streamBytes (_commsStats (snd r))
    = _streamBytes (_commsStats h) + Z.of_nat (length buffer).
Proof.
  intros Hstarting Hlast Hstart blockSize Hsize Hok r buffer. subst r.
  unfold RaftStreamHandler.streamData. rewrite Hstarting.
  destruct (Z.ltb_spec (now1 - 500) (_lastStreamStartTime h)); [lia |]. cbn [orb].
  unfold _sendStreamStartMsg. rewrite Hstart. cbn [String.eqb Ascii.eqb Bool.eqb andb].
  change (String.eqb "ok" "ok") with true. cbv iota. cbn [negb].
  match goal with
  | |- context [streamingPerformanceChecker ?hh] =>
      set (h1 := set_starting false (_lastStreamStartTime (streamingPerformanceChecker hh))
                   (streamingPerformanceChecker hh));
      assert (H1 : _streamID h1 = Some streamID /\ _maxBlockSize h1 = blockSize /\
                   _streamBuffer h1 = buffer /\
                   sent h1 = sent h ++ [SentRICREST (streamStartCmd fileName
                                           targetEndpoint (length streamContents))] /\
                   _commsStats h1 = _commsStats h)
  end.
  { subst h1. unfold streamingPerformanceChecker, clearFinishPointTimeout.
    match goal with
    | |- context [if negb (_audioDuration ?hh =? 0) then _ else _] =>
        destruct (negb (_audioDuration hh =? 0)); [destruct (soundFinishPoint hh) |];
        repeat split
    end. }
  destruct H1 as (Hid & Hmax & Hbuf & Hsent & Hstats).
  rewrite Hid.
  destruct (sendBlocks_all (length (_streamBuffer h1)) 0 h1 streamID Hid)
    as (Hdone & new & Hnew & Hcat & Hall & Hoff & Hcmd & Hbytes);
    [rewrite Hmax; exact Hsize | exact Hok | lia | lia |].
  destruct (sendBlocks_keeps (length (_streamBuffer h1)) 0 h1) as (_ & _ & Hid2 & _).
  cbv zeta in Hid2.
  destruct (sendBlocks (length (_streamBuffer h1)) 0 h1) as [loopEnd h2].
  cbn [fst snd] in Hdone, Hnew, Hbytes, Hid2. subst loopEnd.
  rewrite Hid2, Hid. unfold _sendStreamEndMsg.
  rewrite drop_0 in Hcat. rewrite Hbuf in Hcat, Hbytes. rewrite Hmax in Hall.
  rewrite Hstats in Hbytes. rewrite Z.sub_0_r in Hbytes.
  assert (Htrace : sent (emit [SentRICREST (streamEndCmd streamID)] h2)
                   = sent h
                     ++ SentRICREST (streamStartCmd fileName targetEndpoint
                                       (length streamContents))
                        :: new ++ [SentRICREST (streamEndCmd streamID)]).
  { cbn. rewrite Hnew, Hsent, <- !app_assoc. reflexivity. }
  destruct (sendRICREST (streamEndCmd streamID)) as [| | rslt sid' mx];
    (split; [reflexivity |]); exists new; cbn [snd];
    (split; [exact Htrace |]); repeat split; assumption.
Qed.

(** X27: a second stream within 500 ms is refused.  A [streamData]
    that was not refused puts the second reading of the clock on record
    as the time of its start, whatever becomes of the stream; a
    [streamData] asked for less than 500 ms after that time resolves to
    false, sends nothing and changes nothing. *)
Theorem streamData_refused_within_500ms (now1 now2 later1 later2 : Z)
    (first second : list byte) (fileName targetEndpoint fileName' targetEndpoint' : string)
    (h : StreamHandler) :
  _streamIsStarting h = false ->
  _lastStreamStartTime h <= now1 - 500 ->
  later1 - 500 < now2 ->
  let h1 := snd (streamData now1 now2 first fileName targetEndpoint h) in
  _lastStreamStartTime h1 = now2 /\
  streamData later1 later2 second fileName' targetEndpoint' h1 = (Resolved false, h1).
Proof.
  intros Hstarting Hlast Hsoon h1.
  assert (Htime : _lastStreamStartTime h1 = now2).
  { subst h1. unfold RaftStreamHandler.streamData. rewrite Hstarting.
    destruct (Z.ltb_spec (now1 - 500) (_lastStreamStartTime h)); [lia |]. cbn [orb].
    match goal with
    | |- context [_sendStreamStartMsg sendRICREST ?a ?b ?c ?hh] =>
        destruct (_sendStreamStartMsg_keeps a b c hh) as (Hk & _);
        destruct (_sendStreamStartMsg sendRICREST a b c hh) as [startOk h0]
    end.
    cbv zeta in Hk. cbn [snd] in Hk. cbn in Hk.
    destruct startOk; cbn [negb]; [| exact Hk].
    set (h2 := set_starting false (_lastStreamStartTime h0) h0).
    assert (H2 : _lastStreamStartTime h2 = now2) by exact Hk.
    destruct (_streamID h2) as [sid |] eqn:Hsid; [| exact H2].
    destruct (sendBlocks_keeps (length (_streamBuffer h2)) 0 h2) as (_ & _ & Hid & _ & Hl).
    cbv zeta in Hid, Hl.
    destruct (sendBlocks (length (_streamBuffer h2)) 0 h2) as [[| |] h3];
      cbn [snd] in Hid, Hl |- *; try (rewrite Hl; exact H2).
    rewrite Hid, Hsid. unfold _sendStreamEndMsg.
    destruct (sendRICREST _); cbn; rewrite Hl; exact H2. }
  split; [exact Htime |].
  unfold RaftStreamHandler.streamData. rewrite Htime.
  destruct (Z.ltb_spec (later1 - 500) now2); [| lia].
  rewrite orb_true_r. reflexivity.
Qed.

End WithEnvironment.

Lemma streamData_sends_buffer_witness :
  _streamIsStarting (newStreamHandler newCommsStats) = false /\
  okReply (streamStartCmd "a.thr" "streampattern" (length tenBytes))
  = Reply "ok" 7 (Some 4) /\
  fst (streamData okReply acceptBlock sameView false 1000 1001 tenBytes "a.thr"
         "streampattern" (newStreamHandler newCommsStats))
  = Resolved true /\
  _streamBytes
    (_commsStats (snd (streamData okReply acceptBlock sameView false 1000 1001
                         tenBytes "a.thr" "streampattern"
                         (newStreamHandler newCommsStats))))
  = 10.
Proof.
  assert (Hlast : _lastStreamStartTime (newStreamHandler newCommsStats) <= 1000 - 500)
    by (cbn; lia).
  assert (Hsize : 0 < 4) by lia.
  destruct (streamData_sends_buffer okReply acceptBlock sameView false 1000 1001
              tenBytes "a.thr" "streampattern" (newStreamHandler newCommsStats) 7
              (Some 4) eq_refl Hlast eq_refl Hsize (fun _ _ => eq_refl))
    as (Hresult & new & _ & _ & _ & _ & _ & Hbytes).
  split; [reflexivity |]. split; [reflexivity |].
  split; [exact Hresult | exact Hbytes].
Defined.

Lemma streamData_refused_within_500ms_witness :
  _streamIsStarting (newStreamHandler newCommsStats) = false /\
  1400 - 500 < 1001 /\
  fst (streamData okReply acceptBlock sameView false 1400 1401 tenBytes "b.thr"
         "streampattern"
         (snd (streamData okReply acceptBlock sameView false 1000 1001 tenBytes "a.thr"
                 "streampattern" (newStreamHandler newCommsStats))))
  = Resolved false.
Proof.
  assert (Hlast : _lastStreamStartTime (newStreamHandler newCommsStats) <= 1000 - 500)
    by (cbn; lia).
  assert (Hsoon : 1400 - 500 < 1001) by lia.
  destruct (streamData_refused_within_500ms okReply acceptBlock sameView false
              1000 1001 1400 1401 tenBytes tenBytes "a.thr" "streampattern" "b.thr"
              "streampattern" (newStreamHandler newCommsStats) eq_refl Hlast Hsoon)
    as (_ & Hrefused).
  split; [reflexivity |]. split; [exact Hsoon |].
  rewrite Hrefused. reflexivity.
Defined.

End StreamProps.
